(** * Warehouse bots: inventory ledger, FIFO allocation and reservations

    A shallow embedding of the stock-keeping core of the Telegram
    warehouse bots:

    - [Main/Database/db_connector.py]: every [execute_query] call opens a
      connection, runs one statement, optionally commits, and closes.  A
      statement is therefore modelled as one step of a state monad over
      the two tables, and there is no transaction spanning statements.
    - [Main/bot1/main.py]: inbound, return and adjustment.
    - [Main/bot2/main.py]: outbound, reservation life cycle, check.

    Tables are lists of rows in the store's row order: [INSERT] appends,
    [UPDATE ... WHERE] rewrites every matching row in place, [SELECT ...
    ORDER BY] is a stable sort of the matching rows.  SQL string equality
    is taken to be exact equality.  Python integers are unbounded and are
    modelled by [Z].  Reply texts are represented by their kind and the
    values they interpolate.  The store is assumed to answer every
    statement (driver errors and the [except Exception] branches they lead
    to are not modelled), and commands run one after the other. *)

From Stdlib Require Import ZArith List String Ascii Bool Lia Sorted Permutation.
Import ListNotations.
Local Open Scope string_scope.
Local Open Scope list_scope.
Local Open Scope Z_scope.

(** ** The store *)

(** [reservations.status]; the code only ever writes these four literals. *)
Inductive Status : Type := PENDING | PICKED | RETURNED | CANCELLED.

Definition Status_eqb (a b : Status) : bool :=
  match a, b with
  | PENDING, PENDING | PICKED, PICKED
  | RETURNED, RETURNED | CANCELLED, CANCELLED => true
  | _, _ => false
  end.

(** Table [inventory]; dates are day numbers, timestamps are seconds. *)
Module Inventory.
Record row : Type := mk {
  sku : string;
  lot : string;
  location : string;
  quantity : Z;
  inbound_date : Z;
  created_by : Z;
  last_updated_date : option Z;
  last_updated_by : option Z;
  id_stamp : string
}.
End Inventory.

(** Table [reservations]; [reserved_lot] and [reserved_location] are
    nullable ([process_reserve_item] binds [None] to them when it drew from
    no lot). *)
Module Reservations.
Record row : Type := mk {
  reserve_id : string;
  sku : string;
  quantity : Z;
  reserved_by : Z;
  reservation_date : Z;
  status : Status;
  reserved_lot : option string;
  reserved_location : option string;
  id_stamp : string;
  pickup_date : option Z;
  picked_by : option Z;
  return_date : option Z;
  returned_by : option Z;
  return_reason : option string;
  cancel_date : option Z;
  cancelled_by : option Z;
  cancel_reason : option string
}.
End Reservations.

(** One line of [Log/transactions.log] (Function/utils.py). *)
Inductive LogEntry : Type :=
| log_entry (id_stamp command_type status : string)
| log_status_update (id_stamp status_update : string).

Record State : Type := mkState {
  inventory : list Inventory.row;
  reservations : list Reservations.row;
  transactions_log : list LogEntry
}.

(** What a handler knows about its caller: the Telegram user id, the
    transaction id from [generate_id_stamp], and the value of
    [datetime.now()] (one reading per command). *)
Record Caller : Type := mkCaller {
  user_id : Z;
  txn_id : string;
  now : Z
}.

(** ** State monad for statement sequences *)

Definition DBM (A : Type) : Type := State -> A * State.

Definition ret {A} (a : A) : DBM A := fun st => (a, st).

Definition bind {A B} (m : DBM A) (k : A -> DBM B) : DBM B :=
  fun st => let (a, st') := m st in k a st'.

Notation "x <- m ;; k" := (bind m (fun x => k))
  (at level 61, m at next level, right associativity).
Notation "m ;;; k" := (bind m (fun _ => k))
  (at level 61, right associativity).

(** ** Helpers shared by the SQL statements *)

(** [ORDER BY key ASC]: stable insertion sort, so rows with equal keys stay
    in row order. *)
Fixpoint insert_by {A} (key : A -> Z) (x : A) (l : list A) : list A :=
  match l with
  | [] => [x]
  | y :: ys => if key x <=? key y then x :: l else y :: insert_by key x ys
  end.

Definition order_by {A} (key : A -> Z) (l : list A) : list A :=
  fold_right (insert_by key) [] l.

(** The order [ORDER BY key ASC] establishes. *)
Definition key_le {A} (key : A -> Z) (a b : A) : Prop := key a <= key b.

(** SQL [col = %s] on a nullable column: [NULL] never compares equal, and
    neither does a [None] parameter. *)
Definition sql_eq_null (col param : option string) : bool :=
  match col, param with
  | Some a, Some b => String.eqb a b
  | _, _ => false
  end.

(** [WHERE sku = %s AND lot = %s AND location = %s] on [inventory]. *)
Definition inv_key_is (s l loc : string) (r : Inventory.row) : bool :=
  String.eqb (Inventory.sku r) s && String.eqb (Inventory.lot r) l
  && String.eqb (Inventory.location r) loc.

(** ** Function/utils.py: the transaction log *)

Definition log_transaction_to_file (id_stamp command_type status : string)
  : DBM unit :=
  fun st => (tt, mkState (inventory st) (reservations st)
                   (transactions_log st ++ [log_entry id_stamp command_type status])).

Definition update_transaction_log_file_status (id_stamp status : string)
  : DBM unit :=
  fun st => (tt, mkState (inventory st) (reservations st)
                   (transactions_log st ++ [log_status_update id_stamp status])).

(** ** Statements on [inventory] *)

(** SELECT lot, location, quantity[, inbound_date] FROM inventory
    WHERE sku = %s AND quantity > 0 ORDER BY inbound_date ASC *)
Definition check_stock_query (s : string) : DBM (list Inventory.row) :=
  fun st =>
    (order_by Inventory.inbound_date
       (filter (fun r => String.eqb (Inventory.sku r) s && (0 <? Inventory.quantity r))
               (inventory st)),
     st).

(** SELECT quantity FROM inventory WHERE sku = %s AND lot = %s AND location = %s
    with [fetch_one]. *)
Definition check_query (s l loc : string) : DBM (option Z) :=
  fun st => (option_map Inventory.quantity (find (inv_key_is s l loc) (inventory st)), st).

(** SELECT lot, location FROM inventory WHERE sku = %s LIMIT 1, with
    [fetch_one]: the first record of the SKU in row order. *)
Definition check_sku_query (s : string) : DBM (option (string * string)) :=
  fun st =>
    (option_map (fun r => (Inventory.lot r, Inventory.location r))
       (find (fun r => String.eqb (Inventory.sku r) s) (inventory st)),
     st).

(** The SET clause of both UPDATE statements on [inventory]: a new
    quantity and the three stamps; every other column is kept. *)
Definition with_quantity (q : Z) (c : Caller) (r : Inventory.row)
  : Inventory.row :=
  Inventory.mk (Inventory.sku r) (Inventory.lot r) (Inventory.location r) q
    (Inventory.inbound_date r) (Inventory.created_by r)
    (Some (now c)) (Some (user_id c)) (txn_id c).

(** UPDATE inventory SET quantity = <new>, ... WHERE <cond>, on the table. *)
Definition update_inventory_where (cond : Inventory.row -> bool)
  (new : Inventory.row -> Z) (c : Caller) (inv : list Inventory.row)
  : list Inventory.row :=
  map (fun r => if cond r then with_quantity (new r) c r else r) inv.

(** UPDATE inventory SET quantity = %s, last_updated_date = %s,
    last_updated_by = %s, id_stamp = %s
    WHERE sku = %s AND lot = %s AND location = %s *)
Definition update_query (new_quantity : Z) (c : Caller) (s l loc : string)
  : DBM unit :=
  fun st =>
    (tt, mkState
           (update_inventory_where (inv_key_is s l loc) (fun _ => new_quantity)
              c (inventory st))
           (reservations st) (transactions_log st)).

(** WHERE sku = %s AND lot = %s AND location = %s with lot and location
    parameters that may be [None] (read back from a reservation row). *)
Definition inv_key_matches (s : string) (l loc : option string)
  (r : Inventory.row) : bool :=
  String.eqb (Inventory.sku r) s
  && sql_eq_null (Some (Inventory.lot r)) l
  && sql_eq_null (Some (Inventory.location r)) loc.

(** UPDATE inventory SET quantity = quantity + %s, last_updated_date = %s,
    last_updated_by = %s, id_stamp = %s
    WHERE sku = %s AND lot = %s AND location = %s *)
Definition update_inventory_query (qty : Z) (c : Caller) (s : string)
  (l loc : option string) : DBM unit :=
  fun st =>
    (tt, mkState
           (update_inventory_where (inv_key_matches s l loc)
              (fun r => Inventory.quantity r + qty) c (inventory st))
           (reservations st) (transactions_log st)).

(** INSERT INTO inventory (sku, lot, location, quantity, inbound_date,
    created_by, id_stamp) VALUES (...) *)
Definition insert_query (s l loc : string) (qty date : Z) (c : Caller)
  : DBM unit :=
  fun st =>
    (tt, mkState
           (inventory st ++
              [Inventory.mk s l loc qty date (user_id c) None None (txn_id c)])
           (reservations st) (transactions_log st)).

(** ** Statements on [reservations] *)

(** INSERT INTO reservations (reserve_id, sku, quantity, reserved_by,
    reservation_date, status, reserved_lot, reserved_location, id_stamp) *)
Definition insert_reserve_query (rid s : string) (qty : Z) (c : Caller)
  (st0 : Status) (l loc : option string) : DBM unit :=
  fun st =>
    (tt, mkState (inventory st)
           (reservations st ++
              [Reservations.mk rid s qty (user_id c) (now c) st0 l loc (txn_id c)
                 None None None None None None None None])
           (transactions_log st)).

(** SELECT quantity, status FROM reservations WHERE reserve_id = %s AND
    sku = %s AND reserved_lot = %s AND reserved_location = %s
    [AND status = 'PENDING'], with [fetch_one]. *)
Definition check_reserve_query (pending_only : bool) (rid s l loc : string)
  : DBM (option (Z * Status)) :=
  fun st =>
    (option_map (fun r => (Reservations.quantity r, Reservations.status r))
       (find (fun r =>
                String.eqb (Reservations.reserve_id r) rid
                && String.eqb (Reservations.sku r) s
                && sql_eq_null (Reservations.reserved_lot r) (Some l)
                && sql_eq_null (Reservations.reserved_location r) (Some loc)
                && (if pending_only then Status_eqb (Reservations.status r) PENDING
                    else true))
             (reservations st)),
     st).

Definition set_picked (c : Caller) (r : Reservations.row) : Reservations.row :=
  Reservations.mk (Reservations.reserve_id r) (Reservations.sku r)
    (Reservations.quantity r) (Reservations.reserved_by r)
    (Reservations.reservation_date r) PICKED (Reservations.reserved_lot r)
    (Reservations.reserved_location r) (Reservations.id_stamp r)
    (Some (now c)) (Some (user_id c))
    (Reservations.return_date r) (Reservations.returned_by r)
    (Reservations.return_reason r) (Reservations.cancel_date r)
    (Reservations.cancelled_by r) (Reservations.cancel_reason r).

Definition set_returned (c : Caller) (reason : string) (r : Reservations.row)
  : Reservations.row :=
  Reservations.mk (Reservations.reserve_id r) (Reservations.sku r)
    (Reservations.quantity r) (Reservations.reserved_by r)
    (Reservations.reservation_date r) RETURNED (Reservations.reserved_lot r)
    (Reservations.reserved_location r) (Reservations.id_stamp r)
    (Reservations.pickup_date r) (Reservations.picked_by r)
    (Some (now c)) (Some (user_id c)) (Some reason)
    (Reservations.cancel_date r) (Reservations.cancelled_by r)
    (Reservations.cancel_reason r).

Definition set_cancelled (c : Caller) (reason : string) (r : Reservations.row)
  : Reservations.row :=
  Reservations.mk (Reservations.reserve_id r) (Reservations.sku r)
    (Reservations.quantity r) (Reservations.reserved_by r)
    (Reservations.reservation_date r) CANCELLED (Reservations.reserved_lot r)
    (Reservations.reserved_location r) (Reservations.id_stamp r)
    (Reservations.pickup_date r) (Reservations.picked_by r)
    (Reservations.return_date r) (Reservations.returned_by r)
    (Reservations.return_reason r)
    (Some (now c)) (Some (user_id c)) (Some reason).

(** UPDATE reservations SET ... WHERE reserve_id = %s, for the three
    terminal transitions. *)
Definition update_where_reserve_id (f : Reservations.row -> Reservations.row)
  (rid : string) : DBM unit :=
  fun st =>
    (tt, mkState (inventory st)
           (map (fun r => if String.eqb (Reservations.reserve_id r) rid
                          then f r else r)
                (reservations st))
           (transactions_log st)).

(** SET status = 'PICKED', pickup_date = %s, picked_by = %s *)
Definition update_reserve_query_picked (c : Caller) (rid : string) : DBM unit :=
  update_where_reserve_id (set_picked c) rid.

(** SET status = 'RETURNED', return_date = %s, returned_by = %s, return_reason = %s *)
Definition update_reserve_status_query (c : Caller) (reason rid : string)
  : DBM unit :=
  update_where_reserve_id (set_returned c reason) rid.

(** SET status = 'CANCELLED', cancel_date = %s, cancelled_by = %s, cancel_reason = %s *)
Definition update_reserve_query_cancelled (c : Caller) (reason rid : string)
  : DBM unit :=
  update_where_reserve_id (set_cancelled c reason) rid.

(** SELECT sku, quantity, reserved_lot, reserved_location FROM reservations
    WHERE reserve_id = %s AND status = 'PENDING', with [fetch_one]. *)
Definition get_reserve_details_query (rid : string)
  : DBM (option (string * Z * option string * option string)) :=
  fun st =>
    (option_map (fun r => (Reservations.sku r, Reservations.quantity r,
                           Reservations.reserved_lot r,
                           Reservations.reserved_location r))
       (find (fun r => String.eqb (Reservations.reserve_id r) rid
                       && Status_eqb (Reservations.status r) PENDING)
             (reservations st)),
     st).

(** SELECT reserve_id, sku, quantity, reserved_lot, reserved_location,
    reservation_date, status FROM reservations WHERE status = 'PENDING'
    [AND sku = %s] ORDER BY reservation_date ASC.
    [params] is [None] when the [AND sku = %s] clause was not appended. *)
Definition reserve_ck_query (params : option string)
  : DBM (list Reservations.row) :=
  fun st =>
    (order_by Reservations.reservation_date
       (filter (fun r => Status_eqb (Reservations.status r) PENDING
                         && match params with
                            | Some s => String.eqb (Reservations.sku r) s
                            | None => true
                            end)
               (reservations st)),
     st).

(** ** Replies *)

(** The failure texts of both bots, by kind. *)
Inductive Failure : Type :=
| NonPositiveQuantity
| QuantityValueError
| InvalidDateFormat
| NoStockFound
| InsufficientStock (total_available requested : Z)
| NegativeQuantity (new_quantity : Z)
| ItemNotFound
| ReservationNotFound
| OverPick (qty reserved_qty : Z).

(** A reply line: the check-mark text with its details, or the cross-mark
    text with its failure. *)
Inductive Reply (D : Type) : Type :=
| done (d : D)
| failed (f : Failure).
Arguments done {D} d.
Arguments failed {D} f.

Definition is_done {D} (r : Reply D) : bool :=
  match r with done _ => true | failed _ => false end.

(** How an iteration of a multi-item loop ends: by [continue], or by
    reaching the bookkeeping at the bottom of the loop body. *)
Inductive Flow : Type := Continue | FallThrough.

(** The three accumulators of a multi-item command. *)
Record Batch (D : Type) : Type := mkBatch {
  results : list (string * Reply D);
  overall_success : bool;
  error_message_summary : list (string * Failure)
}.
Arguments mkBatch {D} _ _ _.
Arguments results {D} _.
Arguments overall_success {D} _.
Arguments error_message_summary {D} _.

(** Bottom of a loop body: [results.append(...)] has happened; the
    [if not item_success] block runs only when the iteration was not left
    by [continue]. *)
Definition after_item {D} (sku : string) (b : Batch D) (r : Reply D)
  (fl : Flow) : Batch D :=
  match r, fl with
  | failed f, FallThrough =>
      mkBatch (results b ++ [(sku, r)]) false
              (error_message_summary b ++ [(sku, f)])
  | _, _ =>
      mkBatch (results b ++ [(sku, r)]) (overall_success b)
              (error_message_summary b)
  end.

Definition final_status {D} (b : Batch D) : string :=
  match overall_success b, error_message_summary b with
  | true, [] => "SUCCESS"
  | _, _ => "FAILED"
  end.

(** One lot's share of an allocation: an entry of [reserved_lots_locs], or
    the values formatted into an entry of [deducted_details]. *)
Record Deduction : Type := mkDeduction {
  d_lot : string;
  d_location : string;
  d_quantity : Z
}.

(** [sum(s[2] for s in available_stock)] *)
Definition sum_quantities (available_stock : list Inventory.row) : Z :=
  fold_right (fun r acc => Inventory.quantity r + acc) 0 available_stock.

Definition sum_deductions (ds : list Deduction) : Z :=
  fold_right (fun d acc => d_quantity d + acc) 0 ds.

(** Instances of the two parsing functions on plain input, used to run the
    model on concrete commands: decimal literals with an optional minus
    sign, and dates written YYYY-MM-DD (numbered so that the order of dates
    is kept; the number of days in a month is not checked). *)
Definition digit_of (a : ascii) : option Z :=
  let n := Z.of_nat (nat_of_ascii a) in
  if (48 <=? n) && (n <=? 57) then Some (n - 48) else None.

Fixpoint digits_value (s : string) (acc : Z) : option Z :=
  match s with
  | EmptyString => Some acc
  | String a s' =>
      match digit_of a with
      | Some d => digits_value s' (10 * acc + d)
      | None => None
      end
  end.

Definition decimal_int (s : string) : option Z :=
  match s with
  | EmptyString => None
  | String "-" EmptyString => None
  | String "-" s' => option_map Z.opp (digits_value s' 0)
  | _ => digits_value s 0
  end.

Definition iso_date (s : string) : option Z :=
  if negb (Nat.eqb (String.length s) 10) then None
  else
    match digits_value (substring 0 4 s) 0, get 4 s,
          digits_value (substring 5 2 s) 0, get 7 s,
          digits_value (substring 8 2 s) 0 with
    | Some y, Some "-"%char, Some m, Some "-"%char, Some d =>
        if (1 <=? m) && (m <=? 12) && (1 <=? d) && (d <=? 31)
        then Some (y * 10000 + m * 100 + d) else None
    | _, _, _, _, _ => None
    end.

(** ** Function/utils.py: command parsing and permissions *)

Module Utils.

(** The loop of [parse_multi_param_command] over what is left of [parts]:
<<
    for i in range(0, len(parts), expected_params_per_item):
        chunk = parts[i:i + expected_params_per_item]
        if len(chunk) == expected_params_per_item: items.append(chunk)
        else: break
>>
    [fuel] bounds the number of iterations; the length of [parts] is
    enough. *)
Fixpoint chunk_loop (fuel n : nat) (parts : list string)
  : list (list string) :=
  match fuel with
  | O => []
  | S fuel' =>
      match parts with
      | [] => []
      | _ :: _ =>
          let chunk := firstn n parts in
          if Nat.eqb (List.length chunk) n
          then chunk :: chunk_loop fuel' n (skipn n parts)
          else []
      end
  end.

(** [parse_multi_param_command(text, expected_params_per_item)];
    [str_split] is [str.split()].  With parts to chunk and a step of 0,
    [range] raises [ValueError]: [None]. *)
Definition parse_multi_param_command (str_split : string -> list string)
  (text : string) (expected_params_per_item : nat)
  : option (list (list string)) :=
  match str_split text with
  | [] => Some []
  | parts =>
      if Nat.eqb expected_params_per_item 0 then None
      else Some (chunk_loop (List.length parts) expected_params_per_item parts)
  end.

(** The content of Config/users.json: a JSON object from a bot id (or
    "super_admin") to a list of user ids, keys in file order. *)
Definition UsersData : Type := list (string * list Z).

(** [users_data.get(key, [])] *)
Definition users_get (d : UsersData) (key : string) : list Z :=
  match find (fun e => String.eqb (fst e) key) d with
  | Some e => snd e
  | None => []
  end.

(** [key in users_data] *)
Definition users_has (d : UsersData) (key : string) : bool :=
  existsb (fun e => String.eqb (fst e) key) d.

(** [users_data[key] = value]: the entry is replaced where it stands, or
    added at the end. *)
Fixpoint users_set (d : UsersData) (key : string) (value : list Z)
  : UsersData :=
  match d with
  | [] => [(key, value)]
  | e :: rest =>
      if String.eqb (fst e) key then (key, value) :: rest
      else e :: users_set rest key value
  end.

(** [user_id in ids] *)
Definition id_in (user_id : Z) (ids : list Z) : bool :=
  existsb (Z.eqb user_id) ids.

(** [get_allowed_user_ids(bot_id)]; [users_config] is what [load_config]
    returned ([None] when the file is missing or is not JSON).  The code
    builds a set and lists it: the ids without repetition. *)
Definition get_allowed_user_ids (users_config : option UsersData)
  (bot_id : string) : list Z :=
  match users_config with
  | None | Some [] => []
  | Some d => nodup Z.eq_dec (users_get d bot_id ++ users_get d "super_admin")
  end.

Definition is_user_allowed (users_config : option UsersData) (user_id : Z)
  (bot_id : string) : bool :=
  id_in user_id (get_allowed_user_ids users_config bot_id).

End Utils.

(** ** Main/bot2/main.py *)

Module Bot2.
Section WithPython.

(** [int(s)]: [None] stands for [ValueError]. *)
Variable py_int : string -> option Z.

(** The deduction loop, written out identically in
    [process_outbound_items] and [process_reserve_item]:
<<
    for lot, loc, current_qty[, inbound_date] in available_stock:
        if remaining <= 0: break
        qty_from_lot = min(remaining, current_qty)
        new_qty_in_lot = current_qty - qty_from_lot
        UPDATE inventory SET quantity = new_qty_in_lot ... WHERE key
        details.append(...); remaining -= qty_from_lot
>>
    It returns the final [remaining] and the details. *)
Fixpoint deduct_loop (c : Caller) (sku : string)
  (available_stock : list Inventory.row) (remaining : Z)
  (details : list Deduction) : DBM (Z * list Deduction) :=
  match available_stock with
  | [] => ret (remaining, details)
  | r :: rest =>
      if remaining <=? 0 then ret (remaining, details)
      else
        let qty_from_lot := Z.min remaining (Inventory.quantity r) in
        let new_qty_in_lot := Inventory.quantity r - qty_from_lot in
        update_query new_qty_in_lot c sku (Inventory.lot r) (Inventory.location r) ;;;
        deduct_loop c sku rest (remaining - qty_from_lot)
          (details ++ [mkDeduction (Inventory.lot r) (Inventory.location r) qty_from_lot])
  end.

(** *** /out *)

Record OutboundDetail : Type := mkOutboundDetail {
  out_quantity : Z;
  out_reason : string;
  deducted_details : list Deduction
}.

(** Body of the [for sku, qty_str, reason in zip(...)] loop. *)
Definition outbound_item (c : Caller) (sku qty_str reason : string)
  : DBM (Reply OutboundDetail * Flow) :=
  match py_int qty_str with
  | None => ret (failed QuantityValueError, FallThrough)
  | Some quantity =>
      if quantity <=? 0 then ret (failed NonPositiveQuantity, Continue)
      else
        available_stock <- check_stock_query sku ;;
        match available_stock with
        | [] => ret (failed NoStockFound, Continue)
        | _ :: _ =>
            let total_available := sum_quantities available_stock in
            if total_available <? quantity
            then ret (failed (InsufficientStock total_available quantity), Continue)
            else
              out <- deduct_loop c sku available_stock quantity [] ;;
              ret (done (mkOutboundDetail quantity reason (snd out)), FallThrough)
        end
  end.

Fixpoint outbound_loop (c : Caller) (items : list (string * (string * string)))
  (b : Batch OutboundDetail) : DBM (Batch OutboundDetail) :=
  match items with
  | [] => ret b
  | (sku, (qty_str, reason)) :: rest =>
      o <- outbound_item c sku qty_str reason ;;
      outbound_loop c rest (after_item sku b (fst o) (snd o))
  end.

Definition process_outbound_items (skus quantities reasons : list string)
  (c : Caller) : DBM (list (string * Reply OutboundDetail)) :=
  log_transaction_to_file (txn_id c) "out" "PROCESSING" ;;;
  b <- outbound_loop c (combine skus (combine quantities reasons))
         (mkBatch [] true []) ;;
  update_transaction_log_file_status (txn_id c) (final_status b) ;;;
  ret (results b).

(** *** /reserve *)

Record ReserveDetail : Type := mkReserveDetail {
  reservation_id : string;
  reserved_lots_locs : list Deduction
}.

(** The [try] block of [process_reserve_item]; [new_id] is the value of
    [generate_id_stamp("RES")].  The result is
    [(overall_success, error_message, return_message)]. *)
Definition reserve_item_try (sku quantity : string) (c : Caller)
  (new_id : string) : DBM (bool * option Failure * Reply ReserveDetail) :=
  match py_int quantity with
  | None => ret (false, Some QuantityValueError, failed QuantityValueError)
  | Some qty =>
      if qty <=? 0
      then ret (false, Some NonPositiveQuantity, failed NonPositiveQuantity)
      else
        available_stock <- check_stock_query sku ;;
        (* if not available_stock: flags and messages are set, nothing else *)
        let flags1 :=
          match available_stock with
          | [] => (false, Some NoStockFound)
          | _ :: _ => (true, None)
          end in
        let total_available := sum_quantities available_stock in
        (* if total_available < qty: flags and messages are set, nothing else *)
        let flags2 :=
          if total_available <? qty
          then (false, Some (InsufficientStock total_available qty))
          else flags1 in
        out <- deduct_loop c sku available_stock qty [] ;;
        let reserved := snd out in
        let first_reserved_lot := option_map d_lot (hd_error reserved) in
        let first_reserved_loc := option_map d_location (hd_error reserved) in
        insert_reserve_query new_id sku qty c PENDING
          first_reserved_lot first_reserved_loc ;;;
        ret (fst flags2, snd flags2, done (mkReserveDetail new_id reserved))
  end.

Definition process_reserve_item (sku quantity : string) (c : Caller)
  (new_id : string) : DBM (Reply ReserveDetail) :=
  log_transaction_to_file (txn_id c) "reserve" "PROCESSING" ;;;
  t <- reserve_item_try sku quantity c new_id ;;
  update_transaction_log_file_status (txn_id c)
    (if fst (fst t) then "SUCCESS" else "FAILED") ;;;
  ret (snd t).

(** *** /reserve_pick *)

Definition reserve_pick_try (sku quantity location lot reserve_id : string)
  (c : Caller) : DBM (bool * Reply unit) :=
  match py_int quantity with
  | None => ret (false, failed QuantityValueError)
  | Some qty =>
      if qty <=? 0 then ret (false, failed NonPositiveQuantity)
      else
        reserve_record <- check_reserve_query true reserve_id sku lot location ;;
        match reserve_record with
        | None => ret (false, failed ReservationNotFound)
        | Some (reserved_qty, _) =>
            if reserved_qty <? qty
            then ret (false, failed (OverPick qty reserved_qty))
            else
              update_reserve_query_picked c reserve_id ;;;
              ret (true, done tt)
        end
  end.

Definition process_reserve_pick (sku quantity location lot reserve_id : string)
  (c : Caller) : DBM (Reply unit) :=
  log_transaction_to_file (txn_id c) "reserve_pick" "PROCESSING" ;;;
  t <- reserve_pick_try sku quantity location lot reserve_id c ;;
  update_transaction_log_file_status (txn_id c)
    (if fst t then "SUCCESS" else "FAILED") ;;;
  ret (snd t).

(** *** /reserve_return *)

Definition reserve_return_try
  (sku quantity location lot reserve_id reason : string) (c : Caller)
  : DBM (bool * Reply unit) :=
  match py_int quantity with
  | None => ret (false, failed QuantityValueError)
  | Some qty =>
      if qty <=? 0 then ret (false, failed NonPositiveQuantity)
      else
        reserve_record <- check_reserve_query false reserve_id sku lot location ;;
        match reserve_record with
        | None => ret (false, failed ReservationNotFound)
        | Some _ =>
            update_inventory_query qty c sku (Some lot) (Some location) ;;;
            update_reserve_status_query c reason reserve_id ;;;
            ret (true, done tt)
        end
  end.

Definition process_reserve_return
  (sku quantity location lot reserve_id reason : string) (c : Caller)
  : DBM (Reply unit) :=
  log_transaction_to_file (txn_id c) "reserve_return" "PROCESSING" ;;;
  t <- reserve_return_try sku quantity location lot reserve_id reason c ;;
  update_transaction_log_file_status (txn_id c)
    (if fst t then "SUCCESS" else "FAILED") ;;;
  ret (snd t).

End WithPython.

(** *** /reserve_cancel *)

(** The reply names the SKU and the quantity sent back to stock. *)
Definition reserve_cancel_try (reserve_id reason : string) (c : Caller)
  : DBM (bool * Reply (string * Z)) :=
  reserve_record <- get_reserve_details_query reserve_id ;;
  match reserve_record with
  | None => ret (false, failed ReservationNotFound)
  | Some (sku, quantity, lot, location) =>
      update_inventory_query quantity c sku lot location ;;;
      update_reserve_query_cancelled c reason reserve_id ;;;
      ret (true, done (sku, quantity))
  end.

Definition process_reserve_cancel (reserve_id reason : string) (c : Caller)
  : DBM (Reply (string * Z)) :=
  log_transaction_to_file (txn_id c) "reserve_cancel" "PROCESSING" ;;;
  t <- reserve_cancel_try reserve_id reason c ;;
  update_transaction_log_file_status (txn_id c)
    (if fst t then "SUCCESS" else "FAILED") ;;;
  ret (snd t).

(** *** /reserve_CK *)

(** [if sku_filter:] is false for [None] and for the empty string. *)
Definition truthy (sku_filter : option string) : bool :=
  match sku_filter with
  | None | Some EmptyString => false
  | Some _ => true
  end.

(** The reply: the nothing-found text, or one entry per item. *)
Inductive CkReply : Type :=
| ck_none
| ck_items (reserved_items : list Reservations.row).

Definition process_reserve_ck (sku_filter : option string) (c : Caller)
  : DBM CkReply :=
  log_transaction_to_file (txn_id c) "reserve_ck" "PROCESSING" ;;;
  let params := if truthy sku_filter then sku_filter else None in
  reserved_items <- reserve_ck_query params ;;
  update_transaction_log_file_status (txn_id c) "SUCCESS" ;;;
  match reserved_items with
  | [] => ret ck_none
  | _ :: _ => ret (ck_items reserved_items)
  end.

Definition listed (r : CkReply) : list Reservations.row :=
  match r with ck_none => [] | ck_items l => l end.

(** An exception that leaves a handler (the application's error handler
    then answers with the internal-error text). *)
Inductive PyException : Type := NameError (name : string).

Inductive HandlerReply : Type :=
| reply_unauthorized
| reply_result (r : CkReply).

(** [handle_reserve_ck_command]; [allowed] is [is_user_allowed(user_id,
    BOT_ID)] and [context_args] is [context.args].  The function reads
<<
    sku_filter = args[0] if context.args else None
>>
    and binds no name [args] (nor does the module), so evaluating
    [args[0]] raises. *)
Definition handle_reserve_ck_command (allowed : bool)
  (context_args : list string) (c : Caller)
  : DBM (PyException + HandlerReply) :=
  if negb allowed then
    log_transaction_to_file (txn_id c) "reserve_ck" "FAILED" ;;;
    ret (inr reply_unauthorized)
  else
    match context_args with
    | _ :: _ => ret (inl (NameError "args"))
    | [] =>
        result <- process_reserve_ck None c ;;
        ret (inr (reply_result result))
    end.

(** *** /cancel_out and the /out handler *)

Section MoreOfBot2.

Variable py_int : string -> option Z.

(** [str.split()] *)
Variable str_split : string -> list string.

(** What the success text of /cancel_out reports: where the quantity went,
    and whether that was an existing record or a new one. *)
Inductive CancelOutDetail : Type :=
| added_back (target_loc target_lot : string)
| recorded_as_new (target_loc target_lot : string).

(** The [try] block of [process_cancel_out_item]; [today] is
    [datetime.now().date()]. *)
Definition cancel_out_try (sku quantity reason : string) (c : Caller)
  (today : Z) : DBM (bool * Reply CancelOutDetail) :=
  match py_int quantity with
  | None => ret (false, failed QuantityValueError)
  | Some qty =>
      if qty <=? 0 then ret (false, failed NonPositiveQuantity)
      else
        existing_loc_lot <- check_sku_query sku ;;
        let target_lot :=
          match existing_loc_lot with Some p => fst p | None => "CANCELLED_LOT" end in
        let target_loc :=
          match existing_loc_lot with Some p => snd p | None => "CANCELLED_LOC" end in
        exact_record <- check_query sku target_lot target_loc ;;
        match exact_record with
        | Some existing_quantity =>
            let new_quantity := existing_quantity + qty in
            update_query new_quantity c sku target_lot target_loc ;;;
            ret (true, done (added_back target_loc target_lot))
        | None =>
            insert_query sku target_lot target_loc qty today c ;;;
            ret (true, done (recorded_as_new target_loc target_lot))
        end
  end.

Definition process_cancel_out_item (sku quantity reason : string) (c : Caller)
  (today : Z) : DBM (Reply CancelOutDetail) :=
  log_transaction_to_file (txn_id c) "cancel_out" "PROCESSING" ;;;
  t <- cancel_out_try sku quantity reason c today ;;
  update_transaction_log_file_status (txn_id c)
    (if fst t then "SUCCESS" else "FAILED") ;;;
  ret (snd t).

(** [range(0, n, 0)] inside [parse_multi_param_command]. *)
Inductive Raised : Type := ValueError_range.

(** What [handle_out_command] answers: the no-permission text, the
    wrong-format text, or the result lines, preceded when there are several
    by (number of lines, number of successes, number of failures). *)
Inductive OutReply : Type :=
| out_unauthorized
| out_invalid_format
| out_results (summary : option (nat * nat * nat))
    (lines : list (string * Reply OutboundDetail)).

(** [sum(1 for r in results if r.startswith(check mark))] *)
Definition success_count {D} (lines : list (string * Reply D)) : nat :=
  List.length (filter (fun line => is_done (snd line)) lines).

(** [handle_out_command]; [allowed] is [is_user_allowed(user_id, BOT_ID)]
    and [context_args] is [context.args].  [item[k]] is read with a
    default: every parsed item has three parts. *)
Definition handle_out_command (allowed : bool) (context_args : list string)
  (c : Caller) : DBM (Raised + OutReply) :=
  if negb allowed then
    log_transaction_to_file (txn_id c) "out" "FAILED" ;;;
    ret (inr out_unauthorized)
  else
    match Utils.parse_multi_param_command str_split
            (String.concat " " context_args) 3 with
    | None => ret (inl ValueError_range)
    | Some [] =>
        log_transaction_to_file (txn_id c) "out" "FAILED" ;;;
        ret (inr out_invalid_format)
    | Some parsed_items =>
        let skus := map (fun item => nth 0 item "") parsed_items in
        let quantities := map (fun item => nth 1 item "") parsed_items in
        let reasons := map (fun item => nth 2 item "") parsed_items in
        results <- process_outbound_items py_int skus quantities reasons c ;;
        let summary :=
          if Nat.ltb 1 (List.length results)
          then Some (List.length results, success_count results,
                     (List.length results - success_count results)%nat)
          else None in
        ret (inr (out_results summary results))
    end.

End MoreOfBot2.

End Bot2.

(** ** Main/bot1/main.py *)

Module Bot1.
Section WithPython.

(** [int(s)]: [None] stands for [ValueError]. *)
Variable py_int : string -> option Z.

(** [datetime.strptime(s, "%Y-%m-%d").date()] as a day number: [None]
    stands for [ValueError]. *)
Variable strptime_date : string -> option Z.

(** What a successful line of /in or /return reports. *)
Inductive ReceiveDetail : Type :=
| increased (new_quantity : Z)
| recorded_new.

(** Body of the loop of [process_inbound_item]; [process_return_item]
    has the same body with other texts. *)
Definition receive_item (c : Caller) (sku qty_str lot date_str loc : string)
  : DBM (Reply ReceiveDetail * Flow) :=
  match py_int qty_str with
  | None => ret (failed QuantityValueError, FallThrough)
  | Some quantity =>
      if quantity <=? 0 then ret (failed NonPositiveQuantity, Continue)
      else
        match strptime_date date_str with
        | None => ret (failed InvalidDateFormat, Continue)
        | Some record_date =>
            existing_record <- check_query sku lot loc ;;
            match existing_record with
            | Some existing_quantity =>
                let new_quantity := existing_quantity + quantity in
                update_query new_quantity c sku lot loc ;;;
                ret (done (increased new_quantity), FallThrough)
            | None =>
                insert_query sku lot loc quantity record_date c ;;;
                ret (done recorded_new, FallThrough)
            end
        end
  end.

(** One item of a five-column command: sku, quantity, lot, date, location. *)
Definition Item5 : Type := string * (string * (string * (string * string))).

Definition zip5 (skus quantities lots dates locations : list string)
  : list Item5 :=
  combine skus (combine quantities (combine lots (combine dates locations))).

Fixpoint receive_loop (c : Caller) (items : list Item5)
  (b : Batch ReceiveDetail) : DBM (Batch ReceiveDetail) :=
  match items with
  | [] => ret b
  | (sku, (qty_str, (lot, (date_str, loc)))) :: rest =>
      o <- receive_item c sku qty_str lot date_str loc ;;
      receive_loop c rest (after_item sku b (fst o) (snd o))
  end.

Definition process_inbound_item (skus quantities lots dates locations : list string)
  (c : Caller) : DBM (list (string * Reply ReceiveDetail)) :=
  log_transaction_to_file (txn_id c) "in" "PROCESSING" ;;;
  b <- receive_loop c (zip5 skus quantities lots dates locations)
         (mkBatch [] true []) ;;
  update_transaction_log_file_status (txn_id c) (final_status b) ;;;
  ret (results b).

Definition process_return_item (skus quantities lots dates locations : list string)
  (c : Caller) : DBM (list (string * Reply ReceiveDetail)) :=
  log_transaction_to_file (txn_id c) "return" "PROCESSING" ;;;
  b <- receive_loop c (zip5 skus quantities lots dates locations)
         (mkBatch [] true []) ;;
  update_transaction_log_file_status (txn_id c) (final_status b) ;;;
  ret (results b).

(** Body of the loop of [process_adjust_in_item]; the reply reports the
    new quantity.  The parsed date is not used after validation. *)
Definition adjust_in_item (c : Caller) (sku qty_str lot date_str loc : string)
  : DBM (Reply Z * Flow) :=
  match py_int qty_str with
  | None => ret (failed QuantityValueError, FallThrough)
  | Some adjustment_quantity =>
      match strptime_date date_str with
      | None => ret (failed InvalidDateFormat, Continue)
      | Some _ =>
          existing_record <- check_query sku lot loc ;;
          match existing_record with
          | Some current_quantity =>
              let new_quantity := current_quantity + adjustment_quantity in
              if new_quantity <? 0
              then ret (failed (NegativeQuantity new_quantity), Continue)
              else
                update_query new_quantity c sku lot loc ;;;
                ret (done new_quantity, FallThrough)
          | None => ret (failed ItemNotFound, FallThrough)
          end
      end
  end.

(** The reason column takes no part in the store operations. *)
Fixpoint adjust_in_loop (c : Caller) (items : list (Item5 * string))
  (b : Batch Z) : DBM (Batch Z) :=
  match items with
  | [] => ret b
  | ((sku, (qty_str, (lot, (date_str, loc)))), _) :: rest =>
      o <- adjust_in_item c sku qty_str lot date_str loc ;;
      adjust_in_loop c rest (after_item sku b (fst o) (snd o))
  end.

Definition process_adjust_in_item
  (skus quantities lots dates locations reasons : list string) (c : Caller)
  : DBM (list (string * Reply Z)) :=
  log_transaction_to_file (txn_id c) "adjust_in" "PROCESSING" ;;;
  b <- adjust_in_loop c
         (combine (zip5 skus quantities lots dates locations) reasons)
         (mkBatch [] true []) ;;
  update_transaction_log_file_status (txn_id c) (final_status b) ;;;
  ret (results b).

End WithPython.
End Bot1.

(** ** Quantities read off the store *)

(** The quantity recorded under a key, if the key has a record. *)
Definition ledger_quantity (inv : list Inventory.row) (s l loc : string)
  : option Z :=
  option_map Inventory.quantity (find (inv_key_is s l loc) inv).

(** Sum of [quantity] over all records of a SKU. *)
Definition sku_total (s : string) (inv : list Inventory.row) : Z :=
  sum_quantities (filter (fun r => String.eqb (Inventory.sku r) s) inv).

(** Sum of [quantity] over the SKU's records with [quantity > 0]. *)
Definition total_available (s : string) (inv : list Inventory.row) : Z :=
  sum_quantities
    (filter (fun r => String.eqb (Inventory.sku r) s && (0 <? Inventory.quantity r)) inv).

(** The identity of a ledger record. *)
Definition inv_key (r : Inventory.row) : string * string * string :=
  (Inventory.sku r, Inventory.lot r, Inventory.location r).

(** The status recorded for a reservation id, if it has a row. *)
Definition status_of (rs : list Reservations.row) (rid : string)
  : option Status :=
  option_map Reservations.status
    (find (fun r => String.eqb (Reservations.reserve_id r) rid) rs).

(** The deduction recorded for a lot and location, if any. *)
Definition deduction_for (l loc : string) (ds : list Deduction) : option Z :=
  option_map d_quantity
    (find (fun d => String.eqb (d_lot d) l && String.eqb (d_location d) loc) ds).

(** The row stored under a reservation id, if any. *)
Definition reservation_of (rs : list Reservations.row) (rid : string)
  : option Reservations.row :=
  find (fun r => String.eqb (Reservations.reserve_id r) rid) rs.

(** The deductions a reply reports (none when the reply is a failure). *)
Definition outbound_deductions (r : Reply Bot2.OutboundDetail) : list Deduction :=
  match r with
  | done d => Bot2.deducted_details d
  | failed _ => []
  end.

Definition reserve_deductions (r : Reply Bot2.ReserveDetail) : list Deduction :=
  match r with
  | done d => Bot2.reserved_lots_locs d
  | failed _ => []
  end.

(** The deductions of the only line of a one-item /out reply. *)
Definition only_line_deductions
  (results : list (string * Reply Bot2.OutboundDetail)) : list Deduction :=
  match results with
  | [(_, r)] => outbound_deductions r
  | _ => []
  end.

(** The available records of a SKU, oldest inbound date first: what
    [check_stock_query] returns. *)
Definition available_oldest_first (s : string) (inv : list Inventory.row)
  : list Inventory.row :=
  order_by Inventory.inbound_date
    (filter (fun r => String.eqb (Inventory.sku r) s && (0 <? Inventory.quantity r)) inv).

(** The allocation walk as the specification words it: go through the
    ordered entries, take [min(remaining, entry.quantity)] from each, record
    it, subtract it, and stop when nothing remains. *)
Fixpoint allocate_walk (entries : list Inventory.row) (remaining : Z)
  : list Deduction :=
  match entries with
  | [] => []
  | e :: rest =>
      if remaining <=? 0 then []
      else
        let take := Z.min remaining (Inventory.quantity e) in
        mkDeduction (Inventory.lot e) (Inventory.location e) take
          :: allocate_walk rest (remaining - take)
  end.

(** The quantity a deduction list takes from a lot and location. *)
Definition taken_from (l loc : string) (ds : list Deduction) : Z :=
  match deduction_for l loc ds with
  | Some q => q
  | None => 0
  end.

(** Lot and location of a ledger record: its identity within a SKU. *)
Definition lot_loc (r : Inventory.row) : string * string :=
  (Inventory.lot r, Inventory.location r).

(** The records of a SKU in allocation order, oldest inbound date first,
    by lot and location (whatever their quantity). *)
Definition fifo_order (s : string) (inv : list Inventory.row)
  : list (string * string) :=
  map lot_loc
    (order_by Inventory.inbound_date
       (filter (fun r => String.eqb (Inventory.sku r) s) inv)).

(** The tables of two states agree (the transaction log may differ). *)
Definition same_tables (a b : State) : Prop :=
  inventory a = inventory b /\ reservations a = reservations b.

(** ** A small warehouse to run the model on

    SKU X has lot A (inbound 2025-01-01, 5 pieces) and lot B (inbound
    2025-02-01, 10 pieces); lot B was entered first. *)
Definition lotA : Inventory.row :=
  Inventory.mk "X" "A" "L1" 5 20250101 1 None None "IN-1".
Definition lotB : Inventory.row :=
  Inventory.mk "X" "B" "L2" 10 20250201 1 None None "IN-0".

Definition warehouse : State := mkState [lotB; lotA] [] [].

Definition clerk : Caller := mkCaller 7 "TXN-1" 1000.
Definition clerk2 : Caller := mkCaller 8 "TXN-2" 2000.

(** A pending reservation of 8 pieces of X held against lot A. *)
Definition held : Reservations.row :=
  Reservations.mk "RES-1" "X" 8 7 900 PENDING (Some "A") (Some "L1") "TXN-0"
    None None None None None None None None.

Definition warehouse_with_hold : State :=
  mkState [Inventory.mk "X" "B" "L2" 7 20250201 1 None None "IN-0";
           Inventory.mk "X" "A" "L1" 0 20250101 1 None None "IN-1"]
          [held] [].

(** ** Main/bot3/main.py: the reserved total *)

Module Bot3.

(** SQL [SUM]: NULL over no rows. *)
Definition sql_sum (values : list Z) : option Z :=
  match values with
  | [] => None
  | _ :: _ => Some (fold_right Z.add 0 values)
  end.

(** [get_total_reserved_quantity(sku)]:
    SELECT SUM(quantity) FROM reservations WHERE sku = %s AND status = 'PENDING',
    then [result[0] if result and result[0] is not None else 0]. *)
Definition get_total_reserved_quantity (sku : string) : DBM Z :=
  fun st =>
    let result :=
      sql_sum
        (map Reservations.quantity
           (filter (fun r => String.eqb (Reservations.sku r) sku
                             && Status_eqb (Reservations.status r) PENDING)
                   (reservations st))) in
    (match result with Some total => total | None => 0 end, st).

End Bot3.

(** ** Main/bot4/main.py: permissions *)

Module Bot4.

Definition is_super_admin (users_data : option Utils.UsersData) (user_id : Z)
  : bool :=
  match users_data with
  | None | Some [] => false
  | Some d => Utils.id_in user_id (Utils.users_get d "super_admin")
  end.

(** [list.remove(x)]: the first occurrence goes. *)
Fixpoint remove_first (x : Z) (l : list Z) : list Z :=
  match l with
  | [] => []
  | y :: rest => if Z.eqb y x then rest else y :: remove_first x rest
  end.

Definition known_bot_ids : list string :=
  ["bot1"; "bot2"; "bot3"; "bot4"; "super_admin"].

(** The texts of [update_user_permissions], by kind. *)
Inductive PermissionReply : Type :=
| users_not_loaded
| unknown_bot_id
| user_added
| user_already_there
| user_removed
| user_not_there
| invalid_action.

(** The [try] block of [update_user_permissions]: the success flag, the
    reply, and the content of users.json afterwards ([json.dump] writes the
    whole object back). *)
Definition update_user_permissions_try (bot_id_target : string)
  (user_id_target : Z) (action : string) (users_file : option Utils.UsersData)
  : bool * PermissionReply * option Utils.UsersData :=
  match users_file with
  | None => (false, users_not_loaded, users_file)
  | Some users_data =>
      if negb (Utils.users_has users_data bot_id_target)
         && negb (existsb (String.eqb bot_id_target) known_bot_ids)
      then (false, unknown_bot_id, users_file)
      else
        let target_list := Utils.users_get users_data bot_id_target in
        if String.eqb action "add" then
          if negb (Utils.id_in user_id_target target_list)
          then (true, user_added,
                Some (Utils.users_set users_data bot_id_target
                        (target_list ++ [user_id_target])))
          else (true, user_already_there, users_file)
        else if String.eqb action "remove" then
          if Utils.id_in user_id_target target_list
          then (true, user_removed,
                Some (Utils.users_set users_data bot_id_target
                        (remove_first user_id_target target_list)))
          else (true, user_not_there, users_file)
        else (false, invalid_action, users_file)
  end.

Definition update_user_permissions (bot_id_target : string)
  (user_id_target : Z) (action : string) (c : Caller)
  (users_file : option Utils.UsersData)
  : DBM (PermissionReply * option Utils.UsersData) :=
  log_transaction_to_file (txn_id c) (String.append action "_user") "PROCESSING" ;;;
  let t := update_user_permissions_try bot_id_target user_id_target action
             users_file in
  update_transaction_log_file_status (txn_id c)
    (if fst (fst t) then "SUCCESS" else "FAILED") ;;;
  ret (snd (fst t), snd t).

End Bot4.

(** ** Commands of bot1 and bot2 as they reach the store *)

(** A command whose sender is allowed and whose arguments were cut into
    fields, with what the handler draws for it ([today], a fresh
    reservation id). *)
Inductive Command : Type :=
| cmd_in (skus quantities lots dates locations : list string)
| cmd_return (skus quantities lots dates locations : list string)
| cmd_adjust_in (skus quantities lots dates locations reasons : list string)
| cmd_out (skus quantities reasons : list string)
| cmd_cancel_out (sku quantity reason : string) (today : Z)
| cmd_reserve (sku quantity new_id : string)
| cmd_reserve_pick (sku quantity location lot reserve_id : string)
| cmd_reserve_return (sku quantity location lot reserve_id reason : string)
| cmd_reserve_cancel (reserve_id reason : string)
| cmd_reserve_ck (sku_filter : option string).

(** The store after a command. *)
Definition apply_command (py_int strptime_date : string -> option Z)
  (cmd : Command) (c : Caller) (st : State) : State :=
  match cmd with
  | cmd_in skus quantities lots dates locations =>
      snd (Bot1.process_inbound_item py_int strptime_date
             skus quantities lots dates locations c st)
  | cmd_return skus quantities lots dates locations =>
      snd (Bot1.process_return_item py_int strptime_date
             skus quantities lots dates locations c st)
  | cmd_adjust_in skus quantities lots dates locations reasons =>
      snd (Bot1.process_adjust_in_item py_int strptime_date
             skus quantities lots dates locations reasons c st)
  | cmd_out skus quantities reasons =>
      snd (Bot2.process_outbound_items py_int skus quantities reasons c st)
  | cmd_cancel_out sku quantity reason today =>
      snd (Bot2.process_cancel_out_item py_int sku quantity reason c today st)
  | cmd_reserve sku quantity new_id =>
      snd (Bot2.process_reserve_item py_int sku quantity c new_id st)
  | cmd_reserve_pick sku quantity location lot reserve_id =>
      snd (Bot2.process_reserve_pick py_int sku quantity location lot reserve_id c st)
  | cmd_reserve_return sku quantity location lot reserve_id reason =>
      snd (Bot2.process_reserve_return py_int sku quantity location lot
             reserve_id reason c st)
  | cmd_reserve_cancel reserve_id reason =>
      snd (Bot2.process_reserve_cancel reserve_id reason c st)
  | cmd_reserve_ck sku_filter =>
      snd (Bot2.process_reserve_ck sku_filter c st)
  end.

(** The store after a sequence of commands, each with its caller. *)
Definition apply_commands (py_int strptime_date : string -> option Z)
  (cmds : list (Command * Caller)) (st : State) : State :=
  fold_left (fun acc cc => apply_command py_int strptime_date (fst cc) (snd cc) acc)
            cmds st.

(** No two ledger records share (sku, lot, location). *)
Definition keys_unique (st : State) : Prop :=
  NoDup (map inv_key (inventory st)).

(** No ledger quantity and no reserved quantity is negative. *)
Definition quantities_nonneg (st : State) : Prop :=
  Forall (fun r => 0 <= Inventory.quantity r) (inventory st)
  /\ Forall (fun r => 0 <= Reservations.quantity r) (reservations st).

(** Going from one store to another keeps each of the two properties. *)
Definition keeps_invariants (st st' : State) : Prop :=
  (keys_unique st -> keys_unique st')
  /\ (quantities_nonneg st -> quantities_nonneg st').

(** What the lines of an /out reply say was taken from a SKU. *)
Definition reported_deducted (s : string)
  (lines : list (string * Reply Bot2.OutboundDetail)) : Z :=
  fold_right
    (fun line acc =>
       (if String.eqb (fst line) s
        then sum_deductions (outbound_deductions (snd line)) else 0) + acc)
    0 lines.

(** An instance of [str.split()] on blanks, to run the model on concrete
    commands: maximal runs of characters other than the space. *)
Fixpoint split_blanks (s : string) (word : string) : list string :=
  match s with
  | EmptyString =>
      match word with EmptyString => [] | _ => [word] end
  | String a s' =>
      if Ascii.eqb a " "%char
      then match word with
           | EmptyString => split_blanks s' EmptyString
           | _ => word :: split_blanks s' EmptyString
           end
      else split_blanks s' (String.append word (String a EmptyString))
  end.

Definition blank_split (s : string) : list string := split_blanks s EmptyString.

(** The quantities that the items of an /in or /return command bring to
    the record (s, l, loc), in command order: an item counts when its
    quantity is a positive integer, its date is well formed and it names
    that record. *)
Fixpoint received_for (py_int strptime_date : string -> option Z)
  (s l loc : string) (items : list Bot1.Item5) : list Z :=
  match items with
  | [] => []
  | (sku, (qty_str, (lot, (date_str, location)))) :: rest =>
      let later := received_for py_int strptime_date s l loc rest in
      match py_int qty_str, strptime_date date_str with
      | Some quantity, Some _ =>
          if (0 <? quantity)
             && (String.eqb sku s && String.eqb lot l && String.eqb location loc)
          then quantity :: later
          else later
      | _, _ => later
      end
  end.

Definition sum_Z (l : list Z) : Z := fold_right Z.add 0 l.

(** The quantity expected under a key that held [old] after the
    quantities [qs] were received on it. *)
Definition after_receiving (old : option Z) (qs : list Z) : option Z :=
  match qs with
  | [] => old
  | _ :: _ => Some (match old with Some Q => Q | None => 0 end + sum_Z qs)
  end.

(** Whether [int()] accepts a string. *)
Definition is_integer_text (py_int : string -> option Z) (t : string) : bool :=
  match py_int t with Some _ => true | None => false end.

(** The status a multi-item command writes to the log when only an
    unreadable quantity counts as a failure. *)
Definition status_by_quantities (py_int : string -> option Z)
  (quantities : list string) : string :=
  if forallb (is_integer_text py_int) quantities then "SUCCESS" else "FAILED".

(** * Properties *)

(** ** Ordering *)

Section OrderBy.
Context {A : Type} (key : A -> Z).

Lemma insert_by_perm (x : A) (l : list A) :
  Permutation (insert_by key x l) (x :: l).
Proof.
  induction l as [|y ys IH]; simpl.
  - apply Permutation_refl.
  - destruct (key x <=? key y).
    + apply Permutation_refl.
    + eapply perm_trans; [apply perm_skip, IH | apply perm_swap].
Qed.

Lemma order_by_perm (l : list A) : Permutation (order_by key l) l.
Proof.
  induction l as [|x xs IH]; simpl.
  - apply perm_nil.
  - eapply perm_trans; [apply insert_by_perm | apply perm_skip, IH].
Qed.

Lemma order_by_In (l : list A) (x : A) : In x (order_by key l) <-> In x l.
Proof.
  split; apply Permutation_in;
    [apply order_by_perm | apply Permutation_sym, order_by_perm].
Qed.

Lemma insert_by_sorted (x : A) (l : list A) :
  StronglySorted (key_le key) l -> StronglySorted (key_le key) (insert_by key x l).
Proof.
  induction 1 as [|y ys Hs IH Hall]; simpl.
  - constructor; [constructor | constructor].
  - destruct (Z.leb_spec (key x) (key y)) as [Hle|Hgt].
    + constructor; [constructor; assumption|].
      constructor; [exact Hle|].
      rewrite Forall_forall in *. intros z Hz.
      unfold key_le in *. specialize (Hall z Hz). lia.
    + constructor; [exact IH|].
      rewrite Forall_forall in *. intros z Hz.
      apply (Permutation_in _ (insert_by_perm x ys)) in Hz.
      destruct Hz as [<-|Hz]; [unfold key_le; lia | apply Hall, Hz].
Qed.

Lemma order_by_sorted (l : list A) : StronglySorted (key_le key) (order_by key l).
Proof.
  induction l as [|x xs IH]; simpl; [constructor | apply insert_by_sorted, IH].
Qed.

(** In a sorted list an element with a strictly smaller key stands
    before an element with a larger one. *)
Lemma sorted_split_before (l : list A) (a b : A) :
  StronglySorted (key_le key) l -> In a l -> In b l -> key a < key b ->
  exists l1 l2, l = l1 ++ a :: l2 /\ In b l2.
Proof.
  intros Hs Ha Hb Hlt.
  destruct (in_split _ _ Ha) as (l1 & l2 & ->).
  exists l1, l2. split; [reflexivity|].
  apply in_app_or in Hb. destruct Hb as [Hb|[Hb|Hb]].
  - exfalso. clear Ha. induction l1 as [|y l1 IH]; [contradiction|].
    simpl in Hs. inversion Hs as [|? ? Hs' Hall]; subst.
    destruct Hb as [->|Hb].
    + rewrite Forall_forall in Hall.
      specialize (Hall a (in_or_app _ _ _ (or_intror (in_eq _ _)))).
      unfold key_le in Hall. lia.
    + apply IH; assumption.
  - subst b. lia.
  - exact Hb.
Qed.

End OrderBy.

Lemma insert_by_map {A B} (key : B -> Z) (f : A -> B) (x : A) (l : list A) :
  insert_by key (f x) (map f l) = map f (insert_by (fun a => key (f a)) x l).
Proof.
  induction l as [|y ys IH]; simpl; [reflexivity|].
  destruct (key (f x) <=? key (f y)); simpl; [reflexivity | now rewrite IH].
Qed.

Lemma order_by_map {A B} (key : B -> Z) (f : A -> B) (l : list A) :
  order_by key (map f l) = map f (order_by (fun a => key (f a)) l).
Proof.
  induction l as [|x xs IH]; simpl; [reflexivity|].
  now rewrite IH, insert_by_map.
Qed.

Lemma insert_by_ext {A} (k1 k2 : A -> Z) (x : A) (l : list A) :
  (forall a, k1 a = k2 a) -> insert_by k1 x l = insert_by k2 x l.
Proof.
  intros E. induction l as [|y ys IH]; simpl; [reflexivity|].
  now rewrite !E, IH.
Qed.

Lemma order_by_ext {A} (k1 k2 : A -> Z) (l : list A) :
  (forall a, k1 a = k2 a) -> order_by k1 l = order_by k2 l.
Proof.
  intros E. induction l as [|x xs IH]; simpl; [reflexivity|].
  now rewrite IH, (insert_by_ext k1 k2 _ _ E).
Qed.

(** ** The ledger under UPDATE *)

Lemma inv_key_is_spec (s l loc : string) (r : Inventory.row) :
  inv_key_is s l loc r = true <-> inv_key r = (s, l, loc).
Proof.
  unfold inv_key_is, inv_key. rewrite !andb_true_iff, !String.eqb_eq.
  split.
  - intros [[-> ->] ->]. reflexivity.
  - intros E. inversion E. auto.
Qed.

Lemma inv_key_is_self (r : Inventory.row) :
  inv_key_is (Inventory.sku r) (Inventory.lot r) (Inventory.location r) r = true.
Proof. apply inv_key_is_spec. reflexivity. Qed.

Lemma inv_key_matches_some (s l loc : string) (r : Inventory.row) :
  inv_key_matches s (Some l) (Some loc) r = inv_key_is s l loc r.
Proof. reflexivity. Qed.

Lemma update_where_keys cond new c inv :
  map inv_key (update_inventory_where cond new c inv) = map inv_key inv.
Proof.
  unfold update_inventory_where. rewrite map_map. apply map_ext.
  intros r. destruct (cond r); reflexivity.
Qed.

Lemma update_where_dates cond new c inv :
  map Inventory.inbound_date (update_inventory_where cond new c inv)
  = map Inventory.inbound_date inv.
Proof.
  unfold update_inventory_where. rewrite map_map. apply map_ext.
  intros r. destruct (cond r); reflexivity.
Qed.

Lemma find_update_where s l loc cond new c inv :
  find (inv_key_is s l loc) (update_inventory_where cond new c inv)
  = option_map (fun r => if cond r then with_quantity (new r) c r else r)
      (find (inv_key_is s l loc) inv).
Proof.
  induction inv as [|x xs IH]; simpl; [reflexivity|].
  replace (inv_key_is s l loc (if cond x then with_quantity (new x) c x else x))
    with (inv_key_is s l loc x) by (destruct (cond x); reflexivity).
  destruct (inv_key_is s l loc x); [reflexivity | exact IH].
Qed.

Lemma ledger_quantity_update_where s l loc cond new c inv :
  ledger_quantity (update_inventory_where cond new c inv) s l loc
  = option_map (fun r => if cond r then new r else Inventory.quantity r)
      (find (inv_key_is s l loc) inv).
Proof.
  unfold ledger_quantity. rewrite find_update_where.
  destruct (find (inv_key_is s l loc) inv) as [r|]; simpl; [|reflexivity].
  destruct (cond r); reflexivity.
Qed.

Lemma update_where_nowhere cond new c inv :
  (forall r, In r inv -> cond r = false) ->
  update_inventory_where cond new c inv = inv.
Proof.
  intros H. induction inv as [|x xs IH]; simpl; [reflexivity|].
  rewrite (H x (in_eq _ _)). f_equal. apply IH.
  intros r Hr. apply H. now right.
Qed.

Lemma find_key_In s l loc inv r :
  find (inv_key_is s l loc) inv = Some r -> In r inv /\ inv_key r = (s, l, loc).
Proof.
  intros H. apply find_some in H. now rewrite inv_key_is_spec in H.
Qed.

Lemma find_key_NoDup inv r :
  NoDup (map inv_key inv) -> In r inv ->
  find (inv_key_is (Inventory.sku r) (Inventory.lot r) (Inventory.location r)) inv
  = Some r.
Proof.
  induction inv as [|x xs IH]; simpl; intros Hnd Hin; [contradiction|].
  inversion Hnd as [|? ? Hnotin Hnd']; subst.
  destruct Hin as [->|Hin].
  - now rewrite inv_key_is_self.
  - destruct (inv_key_is _ _ _ x) eqn:E.
    + exfalso. apply Hnotin. apply inv_key_is_spec in E.
      rewrite E. change (In (inv_key r) (map inv_key xs)). now apply in_map.
    + now apply IH.
Qed.

Lemma find_key_absent s l loc inv :
  ~ In (s, l, loc) (map inv_key inv) -> find (inv_key_is s l loc) inv = None.
Proof.
  intros H. destruct (find _ inv) as [r|] eqn:E; [|reflexivity].
  exfalso. apply H. apply find_key_In in E. destruct E as [Hin <-].
  now apply in_map.
Qed.

(** With unique keys, rewriting the quantity under one key moves the
    SKU's total by the difference. *)
Lemma sku_total_update_key s l loc new c inv r0 :
  NoDup (map inv_key inv) ->
  find (inv_key_is s l loc) inv = Some r0 ->
  sku_total s (update_inventory_where (inv_key_is s l loc) new c inv)
  = sku_total s inv - Inventory.quantity r0 + new r0.
Proof.
  unfold sku_total.
  induction inv as [|x xs IH]; simpl; intros Hnd Hf; [discriminate|].
  inversion Hnd as [|? ? Hnotin Hnd']; subst.
  destruct (inv_key_is s l loc x) eqn:E.
  - injection Hf as <-.
    rewrite update_where_nowhere.
    + apply inv_key_is_spec in E. injection E as Es _ _.
      simpl. rewrite Es, String.eqb_refl. simpl. lia.
    + intros r Hr. destruct (inv_key_is s l loc r) eqn:Er; [|reflexivity].
      exfalso. apply Hnotin. apply inv_key_is_spec in E, Er.
      rewrite E, <- Er. now apply in_map.
  - specialize (IH Hnd' Hf).
    destruct (String.eqb (Inventory.sku x) s); simpl; [rewrite IH; lia | exact IH].
Qed.

(** A WHERE clause keeps the keys of a table distinct. *)
Lemma where_keeps_keys_distinct (cond : Inventory.row -> bool)
  (inv : list Inventory.row) :
  NoDup (map inv_key inv) -> NoDup (map inv_key (filter cond inv)).
Proof.
  intros Hnd. induction inv as [|x xs IH]; simpl in *; [exact Hnd|].
  apply NoDup_cons_iff in Hnd. destruct Hnd as [Hfresh Hrest].
  destruct (cond x); simpl; [|now apply IH].
  apply NoDup_cons; [|now apply IH].
  intros Hin. apply Hfresh.
  apply in_map_iff in Hin. destruct Hin as (y & Ey & Hy).
  apply filter_In in Hy. rewrite <- Ey. apply in_map. tauto.
Qed.

(** ** What [check_stock_query] returns *)

Lemma available_In s inv r :
  In r (available_oldest_first s inv) <->
  In r inv /\ Inventory.sku r = s /\ 0 < Inventory.quantity r.
Proof.
  unfold available_oldest_first. rewrite order_by_In, filter_In.
  rewrite andb_true_iff, String.eqb_eq, Z.ltb_lt. tauto.
Qed.

Lemma available_sorted s inv :
  StronglySorted (key_le Inventory.inbound_date) (available_oldest_first s inv).
Proof. apply order_by_sorted. Qed.

Lemma available_NoDup s inv :
  NoDup (map inv_key inv) -> NoDup (map inv_key (available_oldest_first s inv)).
Proof.
  intros H. unfold available_oldest_first.
  eapply Permutation_NoDup.
  - apply Permutation_map, Permutation_sym, order_by_perm.
  - now apply where_keeps_keys_distinct.
Qed.

Lemma sum_quantities_perm l1 l2 :
  Permutation l1 l2 -> sum_quantities l1 = sum_quantities l2.
Proof. induction 1; simpl; lia. Qed.

Lemma available_sum s inv :
  sum_quantities (available_oldest_first s inv) = total_available s inv.
Proof. apply sum_quantities_perm, order_by_perm. Qed.

(** ** The allocation walk *)

Lemma sum_quantities_nonneg stock :
  (forall r, In r stock -> 0 < Inventory.quantity r) -> 0 <= sum_quantities stock.
Proof.
  induction stock as [|r rest IH]; simpl; intros H; [lia|].
  assert (0 < Inventory.quantity r) by (apply H; now left).
  assert (0 <= sum_quantities rest) by (apply IH; intros; apply H; now right).
  lia.
Qed.

(** The walk takes the requested quantity, or everything when there is
    less than that. *)
Lemma allocate_walk_sum stock rem :
  (forall r, In r stock -> 0 < Inventory.quantity r) -> 0 <= rem ->
  sum_deductions (allocate_walk stock rem) = Z.min rem (sum_quantities stock).
Proof.
  revert rem. induction stock as [|r rest IH]; simpl; intros rem Hpos Hrem.
  - lia.
  - assert (Hr : 0 < Inventory.quantity r) by (apply Hpos; now left).
    assert (Hrest : forall x, In x rest -> 0 < Inventory.quantity x)
      by (intros; apply Hpos; now right).
    pose proof (sum_quantities_nonneg rest Hrest) as Hnn.
    destruct (Z.leb_spec rem 0) as [Hle|Hgt]; simpl.
    + lia.
    + rewrite IH by (auto; lia). lia.
Qed.

Lemma allocate_walk_nonempty stock rem :
  allocate_walk stock rem <> [] -> 0 < rem.
Proof.
  destruct stock as [|r rest]; simpl; [congruence|].
  destruct (Z.leb_spec rem 0); [congruence | lia].
Qed.

Lemma deduction_for_cons l loc d ds :
  deduction_for l loc (d :: ds)
  = if String.eqb (d_lot d) l && String.eqb (d_location d) loc
    then Some (d_quantity d) else deduction_for l loc ds.
Proof.
  unfold deduction_for. simpl.
  destruct (String.eqb (d_lot d) l && String.eqb (d_location d) loc); reflexivity.
Qed.

Lemma lot_loc_eqb (r : Inventory.row) (l loc : string) :
  String.eqb (Inventory.lot r) l && String.eqb (Inventory.location r) loc = true
  <-> lot_loc r = (l, loc).
Proof.
  unfold lot_loc. rewrite andb_true_iff, !String.eqb_eq.
  split; [intros [-> ->]; reflexivity | intros E; inversion E; auto].
Qed.

Lemma deduction_for_absent l loc stock rem :
  ~ In (l, loc) (map lot_loc stock) ->
  deduction_for l loc (allocate_walk stock rem) = None.
Proof.
  revert rem. induction stock as [|r rest IH]; simpl; intros rem H; [reflexivity|].
  destruct (rem <=? 0); [reflexivity|].
  rewrite deduction_for_cons. simpl.
  destruct (String.eqb (Inventory.lot r) l && String.eqb (Inventory.location r) loc) eqn:E.
  - exfalso. apply H. left. now apply lot_loc_eqb.
  - apply IH. intros Hin. apply H. now right.
Qed.

(** First in, first out on the walk: when a later entry gives anything,
    every earlier entry has given all it had. *)
Lemma allocate_walk_fifo l1 r1 l2 r2 rem :
  NoDup (map lot_loc (l1 ++ r1 :: l2)) -> In r2 l2 ->
  deduction_for (Inventory.lot r2) (Inventory.location r2)
    (allocate_walk (l1 ++ r1 :: l2) rem) <> None ->
  deduction_for (Inventory.lot r1) (Inventory.location r1)
    (allocate_walk (l1 ++ r1 :: l2) rem) = Some (Inventory.quantity r1).
Proof.
  revert rem. induction l1 as [|x l1 IH]; simpl; intros rem Hnd Hin Htouched.
  - destruct (Z.leb_spec rem 0) as [Hle|Hgt]; [now elim Htouched|].
    rewrite deduction_for_cons in *. simpl in *.
    inversion Hnd as [|? ? Hnotin Hnd']; subst.
    rewrite (proj2 (lot_loc_eqb r1 _ _) eq_refl).
    destruct (String.eqb (Inventory.lot r1) (Inventory.lot r2)
              && String.eqb (Inventory.location r1) (Inventory.location r2)) eqn:E.
    + exfalso. apply Hnotin. apply lot_loc_eqb in E.
      change (Inventory.lot r2, Inventory.location r2) with (lot_loc r2) in E.
      rewrite E. now apply in_map.
    + assert (Hne : allocate_walk l2 (rem - Z.min rem (Inventory.quantity r1)) <> [])
        by (intros Hnil; rewrite Hnil in Htouched; now apply Htouched).
      apply allocate_walk_nonempty in Hne. f_equal. lia.
  - destruct (Z.leb_spec rem 0) as [Hle|Hgt]; [now elim Htouched|].
    rewrite deduction_for_cons in *. simpl in *.
    inversion Hnd as [|? ? Hnotin Hnd']; subst.
    assert (Hx : forall r, In r (l1 ++ r1 :: l2) ->
                 String.eqb (Inventory.lot x) (Inventory.lot r)
                 && String.eqb (Inventory.location x) (Inventory.location r) = false).
    { intros r Hr.
      destruct (String.eqb (Inventory.lot x) (Inventory.lot r)
                && String.eqb (Inventory.location x) (Inventory.location r)) eqn:E;
        [|reflexivity].
      exfalso. apply Hnotin. apply lot_loc_eqb in E.
      change (Inventory.lot r, Inventory.location r) with (lot_loc r) in E.
      rewrite E. now apply in_map. }
    rewrite Hx in Htouched by (apply in_or_app; right; now right).
    rewrite Hx by (apply in_or_app; right; now left).
    now apply IH.
Qed.

(** ** The deduction loop *)

Lemma deduct_loop_result c s stock rem details st :
  fst (Bot2.deduct_loop c s stock rem details st)
  = (rem - sum_deductions (allocate_walk stock rem),
     details ++ allocate_walk stock rem).
Proof.
  revert rem details st.
  induction stock as [|r rest IH]; simpl; intros rem details st.
  - rewrite app_nil_r. f_equal. lia.
  - destruct (rem <=? 0); simpl.
    + rewrite app_nil_r. f_equal. lia.
    + unfold bind. simpl. rewrite IH. rewrite <- app_assoc. simpl.
      f_equal. lia.
Qed.

Lemma deduct_loop_frame c s stock rem details st :
  let st' := snd (Bot2.deduct_loop c s stock rem details st) in
  reservations st' = reservations st
  /\ transactions_log st' = transactions_log st
  /\ map inv_key (inventory st') = map inv_key (inventory st)
  /\ map Inventory.inbound_date (inventory st')
     = map Inventory.inbound_date (inventory st).
Proof.
  revert rem details st.
  induction stock as [|r rest IH]; simpl; intros rem details st.
  - auto.
  - destruct (rem <=? 0); simpl; [auto|].
    unfold bind. simpl.
    match goal with |- context [Bot2.deduct_loop c s rest ?r' ?d' ?st1] =>
      destruct (IH r' d' st1) as (H1 & H2 & H3 & H4) end.
    simpl in *. rewrite H1, H2, H3, H4.
    rewrite update_where_keys, update_where_dates. auto.
Qed.

Lemma ledger_quantity_found inv s l loc q :
  ledger_quantity inv s l loc = Some q ->
  exists x, find (inv_key_is s l loc) inv = Some x
            /\ Inventory.quantity x = q /\ inv_key x = (s, l, loc).
Proof.
  unfold ledger_quantity. destruct (find _ inv) as [x|] eqn:E; simpl; [|discriminate].
  intros [= <-]. exists x. repeat split. now apply find_key_In in E.
Qed.

(** Rewriting one record leaves the snapshot of the other entries valid. *)
Lemma snapshot_after_update c s r rest newq inv :
  NoDup (map lot_loc (r :: rest)) ->
  (forall r', In r' rest ->
     ledger_quantity inv s (Inventory.lot r') (Inventory.location r')
     = Some (Inventory.quantity r')) ->
  forall r', In r' rest ->
    ledger_quantity
      (update_inventory_where
         (inv_key_is s (Inventory.lot r) (Inventory.location r))
         (fun _ => newq) c inv)
      s (Inventory.lot r') (Inventory.location r')
    = Some (Inventory.quantity r').
Proof.
  intros Hnd Hsnap r' Hr'.
  rewrite ledger_quantity_update_where.
  destruct (ledger_quantity_found _ _ _ _ _ (Hsnap r' Hr')) as (x & Hf & Hq & Hk).
  rewrite Hf. simpl.
  destruct (inv_key_is s (Inventory.lot r) (Inventory.location r) x) eqn:E.
  - exfalso. apply inv_key_is_spec in E. rewrite Hk in E.
    inversion Hnd as [|? ? Hnotin _]; subst. apply Hnotin.
    injection E as El Eloc.
    replace (lot_loc r) with (lot_loc r') by (unfold lot_loc; congruence).
    now apply in_map.
  - now rewrite Hq.
Qed.

Lemma option_map_minus_0 (o : option Z) : option_map (fun old => old - 0) o = o.
Proof. destruct o; simpl; [f_equal; lia | reflexivity]. Qed.

(** Every quantity of the SKU after the loop: what it was, less what the
    walk took from that lot and location. *)
Lemma deduct_loop_ledger c s stock rem details st :
  NoDup (map lot_loc stock) ->
  (forall r, In r stock ->
     ledger_quantity (inventory st) s (Inventory.lot r) (Inventory.location r)
     = Some (Inventory.quantity r)) ->
  forall l loc,
    ledger_quantity (inventory (snd (Bot2.deduct_loop c s stock rem details st))) s l loc
    = option_map (fun old => old - taken_from l loc (allocate_walk stock rem))
        (ledger_quantity (inventory st) s l loc).
Proof.
  revert rem details st.
  induction stock as [|r rest IH]; simpl; intros rem details st Hnd Hsnap l loc.
  - unfold taken_from. simpl. now rewrite option_map_minus_0.
  - destruct (Z.leb_spec rem 0) as [Hle|Hgt]; simpl.
    + unfold taken_from. simpl. now rewrite option_map_minus_0.
    + unfold bind. simpl.
      set (take := Z.min rem (Inventory.quantity r)).
      rewrite IH; cycle 1.
      * now inversion Hnd.
      * simpl. apply (snapshot_after_update c s r rest); [exact Hnd|].
        intros r' Hr'. apply Hsnap. now right.
      * simpl. inversion Hnd as [|? ? Hnotin Hnd']; subst.
        unfold taken_from at 2. rewrite deduction_for_cons. simpl.
        rewrite ledger_quantity_update_where.
        destruct (String.eqb (Inventory.lot r) l
                  && String.eqb (Inventory.location r) loc) eqn:E.
        -- apply lot_loc_eqb in E.
           assert (Habs : taken_from l loc
                            (allocate_walk rest (rem - take)) = 0).
           { unfold taken_from. rewrite deduction_for_absent; [reflexivity|].
             now rewrite <- E. }
           rewrite Habs. rewrite option_map_minus_0.
           injection E as <- <-.
           destruct (ledger_quantity_found _ _ _ _ _ (Hsnap r (or_introl eq_refl)))
             as (x & Hf & Hq & Hk).
           unfold ledger_quantity. rewrite Hf. simpl.
           rewrite (proj2 (inv_key_is_spec _ _ _ x) Hk). now rewrite Hq.
        -- fold (taken_from l loc (allocate_walk rest (rem - take))).
           unfold ledger_quantity.
           destruct (find (inv_key_is s l loc) (inventory st)) as [x|] eqn:Hf;
             simpl; [|reflexivity].
           destruct (inv_key_is s (Inventory.lot r) (Inventory.location r) x) eqn:Ex;
             [|reflexivity].
           exfalso. apply inv_key_is_spec in Ex.
           apply find_key_In in Hf. destruct Hf as [_ Hk]. rewrite Hk in Ex.
           injection Ex as El Eloc. subst l loc.
           rewrite !String.eqb_refl in E. discriminate.
Qed.

(** Records of other SKUs are not touched by the loop. *)
Lemma deduct_loop_other_sku c s stock rem details st s' l loc :
  s' <> s ->
  ledger_quantity (inventory (snd (Bot2.deduct_loop c s stock rem details st))) s' l loc
  = ledger_quantity (inventory st) s' l loc.
Proof.
  intros Hne. revert rem details st.
  induction stock as [|r rest IH]; simpl; intros rem details st; [reflexivity|].
  destruct (rem <=? 0); simpl; [reflexivity|].
  unfold bind. simpl. rewrite IH. simpl.
  rewrite ledger_quantity_update_where. unfold ledger_quantity.
  destruct (find (inv_key_is s' l loc) (inventory st)) as [x|] eqn:Hf;
    simpl; [|reflexivity].
  destruct (inv_key_is s (Inventory.lot r) (Inventory.location r) x) eqn:Ex;
    [|reflexivity].
  exfalso. apply inv_key_is_spec in Ex.
  apply find_key_In in Hf. destruct Hf as [_ Hk]. congruence.
Qed.

(** The SKU's total after the loop: what it was, less what the walk took. *)
Lemma deduct_loop_total c s stock rem details st :
  NoDup (map inv_key (inventory st)) ->
  NoDup (map lot_loc stock) ->
  (forall r, In r stock ->
     ledger_quantity (inventory st) s (Inventory.lot r) (Inventory.location r)
     = Some (Inventory.quantity r)) ->
  sku_total s (inventory (snd (Bot2.deduct_loop c s stock rem details st)))
  = sku_total s (inventory st) - sum_deductions (allocate_walk stock rem).
Proof.
  revert rem details st.
  induction stock as [|r rest IH]; simpl; intros rem details st Hk Hnd Hsnap.
  - lia.
  - destruct (Z.leb_spec rem 0) as [Hle|Hgt]; simpl; [lia|].
    unfold bind. simpl.
    rewrite IH; simpl.
    + destruct (ledger_quantity_found _ _ _ _ _ (Hsnap r (or_introl eq_refl)))
        as (x & Hf & Hq & _).
      rewrite (sku_total_update_key _ _ _ _ _ _ x Hk Hf). lia.
    + now rewrite update_where_keys.
    + now inversion Hnd.
    + apply (snapshot_after_update c s r rest); [exact Hnd|].
      intros r' Hr'. apply Hsnap. now right.
Qed.

(** The list [check_stock_query] returns is a valid snapshot of a ledger
    with unique keys. *)
Lemma available_snapshot s inv :
  NoDup (map inv_key inv) ->
  NoDup (map lot_loc (available_oldest_first s inv))
  /\ forall r, In r (available_oldest_first s inv) ->
       ledger_quantity inv s (Inventory.lot r) (Inventory.location r)
       = Some (Inventory.quantity r).
Proof.
  intros Hk. split.
  - pose proof (available_NoDup s inv Hk) as H.
    assert (E : map inv_key (available_oldest_first s inv)
                = map (fun p => (s, fst p, snd p))
                    (map lot_loc (available_oldest_first s inv))).
    { rewrite map_map. apply map_ext_in. intros r Hr.
      apply available_In in Hr. destruct Hr as (_ & <- & _). reflexivity. }
    rewrite E in H. now apply NoDup_map_inv in H.
  - intros r Hr. apply available_In in Hr. destruct Hr as (Hin & <- & _).
    unfold ledger_quantity. now rewrite find_key_NoDup.
Qed.

(** ** Running the commands *)

Lemma bind_eq {A B} (m : DBM A) (k : A -> DBM B) (st : State) :
  bind m k st = k (fst (m st)) (snd (m st)).
Proof. unfold bind. now destruct (m st). Qed.

Lemma allocate_walk_nonpos stock rem : rem <= 0 -> allocate_walk stock rem = [].
Proof.
  intros H. destruct stock as [|r rest]; simpl; [reflexivity|].
  destruct (Z.leb_spec rem 0); [reflexivity | lia].
Qed.

Lemma available_positive s inv r :
  In r (available_oldest_first s inv) -> 0 < Inventory.quantity r.
Proof. intros H. now apply available_In in H. Qed.

Section Commands.
Variable py_int : string -> option Z.

(** One /out item after a successful [int()]: the reply and the store. *)
Lemma outbound_item_eq c s q reason st qty :
  py_int q = Some qty ->
  Bot2.outbound_item py_int c s q reason st
  = if qty <=? 0 then ((failed NonPositiveQuantity, Continue), st)
    else
      match available_oldest_first s (inventory st) with
      | [] => ((failed NoStockFound, Continue), st)
      | _ :: _ =>
          if total_available s (inventory st) <? qty
          then ((failed (InsufficientStock (total_available s (inventory st)) qty),
                 Continue), st)
          else
            ((done (Bot2.mkOutboundDetail qty reason
                      (allocate_walk (available_oldest_first s (inventory st)) qty)),
              FallThrough),
             snd (Bot2.deduct_loop c s (available_oldest_first s (inventory st))
                    qty [] st))
      end.
Proof.
  intros Hq. unfold Bot2.outbound_item. rewrite Hq.
  destruct (qty <=? 0); [reflexivity|].
  rewrite bind_eq. unfold check_stock_query. simpl.
  fold (available_oldest_first s (inventory st)).
  rewrite available_sum.
  destruct (available_oldest_first s (inventory st)) as [|r rest] eqn:E;
    [reflexivity|].
  destruct (total_available s (inventory st) <? qty); [reflexivity|].
  rewrite bind_eq. unfold ret.
  rewrite deduct_loop_result. reflexivity.
Qed.

(** A one-item /out command: its line is the item's reply and its tables
    are the item's. *)
Lemma process_outbound_single c s q reason st :
  let item := Bot2.outbound_item py_int c s q reason
                (snd (log_transaction_to_file (txn_id c) "out" "PROCESSING" st)) in
  let run := Bot2.process_outbound_items py_int [s] [q] [reason] c st in
  fst run = [(s, fst (fst item))]
  /\ inventory (snd run) = inventory (snd item)
  /\ reservations (snd run) = reservations (snd item).
Proof.
  unfold Bot2.process_outbound_items. simpl.
  rewrite !bind_eq. simpl.
  destruct (Bot2.outbound_item py_int c s q reason _) as [[r fl] st1]. simpl.
  repeat split; destruct r, fl; reflexivity.
Qed.

(** /reserve after a successful [int()] of a positive quantity. *)
Lemma reserve_item_try_eq c s q new_id st qty :
  py_int q = Some qty -> 0 < qty ->
  let stock := available_oldest_first s (inventory st) in
  let total := total_available s (inventory st) in
  let loop := Bot2.deduct_loop c s stock qty [] st in
  let ds := allocate_walk stock qty in
  Bot2.reserve_item_try py_int s q c new_id st
  = ((if total <? qty then false
      else match stock with [] => false | _ :: _ => true end,
      if total <? qty then Some (InsufficientStock total qty)
      else match stock with [] => Some NoStockFound | _ :: _ => None end,
      done (Bot2.mkReserveDetail new_id ds)),
     snd (insert_reserve_query new_id s qty c PENDING
            (option_map d_lot (hd_error ds))
            (option_map d_location (hd_error ds)) (snd loop))).
Proof.
  intros Hq Hpos. simpl. unfold Bot2.reserve_item_try. rewrite Hq.
  destruct (Z.leb_spec qty 0) as [Hle|_]; [lia|].
  rewrite bind_eq. unfold check_stock_query. simpl.
  fold (available_oldest_first s (inventory st)).
  rewrite available_sum.
  rewrite !bind_eq. rewrite deduct_loop_result. simpl.
  unfold ret.
  destruct (total_available s (inventory st) <? qty);
    destruct (available_oldest_first s (inventory st)); reflexivity.
Qed.

Lemma process_reserve_item_eq c s q new_id st :
  let st0 := snd (log_transaction_to_file (txn_id c) "reserve" "PROCESSING" st) in
  let try := Bot2.reserve_item_try py_int s q c new_id st0 in
  let run := Bot2.process_reserve_item py_int s q c new_id st in
  fst run = snd (fst try)
  /\ inventory (snd run) = inventory (snd try)
  /\ reservations (snd run) = reservations (snd try).
Proof.
  unfold Bot2.process_reserve_item. simpl. rewrite !bind_eq. simpl.
  repeat split.
Qed.

End Commands.

Lemma available_walk_sum s inv qty :
  0 <= qty ->
  sum_deductions (allocate_walk (available_oldest_first s inv) qty)
  = Z.min qty (total_available s inv).
Proof.
  intros H. rewrite allocate_walk_sum; [now rewrite available_sum | | exact H].
  intros r. apply available_positive.
Qed.

(** The deductions of a one-item /out command, by cases. *)
Lemma outbound_single_deductions py_int c s q reason st qty :
  py_int q = Some qty ->
  only_line_deductions
    (fst (Bot2.process_outbound_items py_int [s] [q] [reason] c st))
  = if (0 <? qty) && (qty <=? total_available s (inventory st))
    then allocate_walk (available_oldest_first s (inventory st)) qty
    else [].
Proof.
  intros Hq.
  destruct (process_outbound_single py_int c s q reason st) as (-> & _ & _).
  rewrite (outbound_item_eq py_int _ _ _ _ _ qty Hq). simpl.
  destruct (Z.leb_spec qty 0) as [Hle|Hgt]; simpl.
  - destruct (Z.ltb_spec 0 qty); [lia | reflexivity].
  - destruct (Z.ltb_spec 0 qty); [simpl | lia].
    pose proof (available_sum s (inventory st)) as Hsum.
    destruct (available_oldest_first s (inventory st)) as [|r rest] eqn:E; simpl.
    + destruct (qty <=? _); reflexivity.
    + destruct (Z.ltb_spec (total_available s (inventory st)) qty);
        destruct (Z.leb_spec qty (total_available s (inventory st)));
        try lia; reflexivity.
Qed.

(** The deductions of /reserve: the walk, whatever the stock. *)
Lemma reserve_deductions_eq py_int c s q new_id st qty :
  py_int q = Some qty -> 0 < qty ->
  reserve_deductions (fst (Bot2.process_reserve_item py_int s q c new_id st))
  = allocate_walk (available_oldest_first s (inventory st)) qty.
Proof.
  intros Hq Hpos.
  destruct (process_reserve_item_eq py_int c s q new_id st) as (-> & _ & _).
  rewrite (reserve_item_try_eq py_int _ _ _ _ _ qty Hq Hpos). reflexivity.
Qed.

(** Every entry of an allocation walk over records with positive
    quantities takes a positive quantity. *)
Lemma allocate_walk_positive stock rem :
  (forall r, In r stock -> 0 < Inventory.quantity r) ->
  Forall (fun d => 0 < d_quantity d) (allocate_walk stock rem).
Proof.
  revert rem. induction stock as [|r rest IH]; intros rem Hpos; simpl;
    [constructor|].
  destruct (Z.leb_spec rem 0) as [Hle|Hgt]; [constructor|].
  constructor.
  - simpl. specialize (Hpos r (or_introl eq_refl)). lia.
  - apply IH. intros x Hx. apply Hpos. now right.
Qed.

(** What the deduction loop of /out and /reserve leaves in the ledger,
    when it runs on the available records of a ledger with unique keys:
    each record of the SKU has lost what the walk lists for its lot and
    location, and nothing else has changed. *)
Lemma deduct_loop_applies_walk c s qty st st0 :
  inventory st0 = inventory st ->
  NoDup (map inv_key (inventory st)) ->
  let stock := available_oldest_first s (inventory st) in
  let st1 := snd (Bot2.deduct_loop c s stock qty [] st0) in
  map inv_key (inventory st1) = map inv_key (inventory st)
  /\ (forall l loc,
        ledger_quantity (inventory st1) s l loc
        = option_map (fun old => old - taken_from l loc (allocate_walk stock qty))
            (ledger_quantity (inventory st) s l loc))
  /\ (forall s' l loc, s' <> s ->
        ledger_quantity (inventory st1) s' l loc
        = ledger_quantity (inventory st) s' l loc)
  /\ sku_total s (inventory st) - sku_total s (inventory st1)
     = sum_deductions (allocate_walk stock qty).
Proof.
  intros Hinv Hk stock st1. subst stock st1.
  rewrite <- Hinv in Hk |- *.
  destruct (available_snapshot s (inventory st0) Hk) as [Hnd Hsnap].
  destruct (deduct_loop_frame c s (available_oldest_first s (inventory st0)) qty
              [] st0) as (_ & _ & Hkeys & _).
  split; [exact Hkeys|]. split; [|split].
  - intros l loc. now apply deduct_loop_ledger.
  - intros s' l loc Hne. now apply deduct_loop_other_sku.
  - rewrite deduct_loop_total by assumption. lia.
Qed.

(** C3. In an allocation run (a request for a positive quantity on a
    ledger with unique keys), for /out and for /reserve alike, the per-lot
    deductions are applied to the ledger as they are reported: every
    deduction is positive, each record of the SKU loses exactly the
    deduction listed for its lot and location, no other record changes and
    none is added or removed, so the SKU's total falls by the sum of the
    deductions.  That sum is never more than the requested quantity, and
    it is exactly the requested quantity whenever the total available is
    at least the request. *)
Theorem allocation_sums_to_request
  (py_int : string -> option Z) (c : Caller) (s q reason new_id : string)
  (qty : Z) (st : State) :
  py_int q = Some qty -> 0 < qty ->
  NoDup (map inv_key (inventory st)) ->
  let total := total_available s (inventory st) in
  let applied (ds : list Deduction) (st' : State) :=
    Forall (fun d => 0 < d_quantity d) ds
    /\ map inv_key (inventory st') = map inv_key (inventory st)
    /\ (forall l loc,
          ledger_quantity (inventory st') s l loc
          = option_map (fun old => old - taken_from l loc ds)
              (ledger_quantity (inventory st) s l loc))
    /\ (forall s' l loc, s' <> s ->
          ledger_quantity (inventory st') s' l loc
          = ledger_quantity (inventory st) s' l loc)
    /\ sku_total s (inventory st) - sku_total s (inventory st')
       = sum_deductions ds
    /\ sum_deductions ds <= qty
    /\ (qty <= total -> sum_deductions ds = qty) in
  let out := Bot2.process_outbound_items py_int [s] [q] [reason] c st in
  let res := Bot2.process_reserve_item py_int s q c new_id st in
  applied (only_line_deductions (fst out)) (snd out)
  /\ applied (reserve_deductions (fst res)) (snd res).
Proof.
  intros Hq Hpos Hk total applied out res. subst applied out res.
  pose proof (available_walk_sum s (inventory st) qty ltac:(lia)) as Hw.
  fold total in Hw.
  pose proof (allocate_walk_positive (available_oldest_first s (inventory st)) qty
                (available_positive s (inventory st))) as Hall.
  set (st0 := snd (log_transaction_to_file (txn_id c) "out" "PROCESSING" st)).
  set (st0' := snd (log_transaction_to_file (txn_id c) "reserve" "PROCESSING" st)).
  destruct (deduct_loop_applies_walk c s qty st st0 eq_refl Hk)
    as (Ko & Lo & Oo & To).
  destruct (deduct_loop_applies_walk c s qty st st0' eq_refl Hk)
    as (Kr & Lr & Or & Tr).
  split.
  - rewrite (outbound_single_deductions py_int _ _ _ _ _ qty Hq).
    destruct (process_outbound_single py_int c s q reason st) as (_ & -> & _).
    fold st0. rewrite (outbound_item_eq py_int _ _ _ _ _ qty Hq).
    change (inventory st0) with (inventory st). fold total.
    destruct (Z.leb_spec qty 0); [lia|].
    destruct (Z.ltb_spec 0 qty); [|lia]. cbn [andb].
    destruct (Z.leb_spec qty total) as [Hfit|Hshort].
    + assert (Hne : available_oldest_first s (inventory st) <> []).
      { intros E. rewrite E in Hw. simpl in Hw. lia. }
      destruct (available_oldest_first s (inventory st)) as [|r0 rest] eqn:E;
        [congruence|].
      destruct (Z.ltb_spec total qty); [lia|]. cbn [snd].
      repeat split; try assumption; try lia.
    + assert (Hsame : inventory
                        (snd match available_oldest_first s (inventory st) with
                             | [] => (failed NoStockFound, Continue, st0)
                             | _ :: _ =>
                                 if total <? qty
                                 then (failed (InsufficientStock total qty),
                                       Continue, st0)
                                 else
                                   (done (Bot2.mkOutboundDetail qty reason
                                            (allocate_walk
                                               (available_oldest_first s (inventory st))
                                               qty)), FallThrough,
                                    snd (Bot2.deduct_loop c s
                                           (available_oldest_first s (inventory st))
                                           qty [] st0))
                             end)
                      = inventory st).
      { destruct (available_oldest_first s (inventory st)); [reflexivity|].
        destruct (Z.ltb_spec total qty); [reflexivity | lia]. }
      rewrite Hsame. unfold taken_from. simpl.
      repeat split; try lia; try constructor.
      intros l loc. now rewrite option_map_minus_0.
  - rewrite (reserve_deductions_eq py_int _ _ _ _ _ qty Hq Hpos).
    destruct (process_reserve_item_eq py_int c s q new_id st) as (_ & -> & _).
    fold st0'. rewrite (reserve_item_try_eq py_int _ _ _ _ _ qty Hq Hpos).
    change (inventory st0') with (inventory st).
    cbn [snd insert_reserve_query inventory].
    repeat split; try assumption; lia.
Qed.

Lemma allocation_sums_to_request_witness :
  let out := Bot2.process_outbound_items decimal_int ["X"] ["8"] ["sold"]
               clerk warehouse in
  let res := Bot2.process_reserve_item decimal_int "X" "8" clerk "RES-1"
               warehouse in
  (sku_total "X" (inventory warehouse) - sku_total "X" (inventory (snd out))
   = sum_deductions (only_line_deductions (fst out))
   /\ sum_deductions (only_line_deductions (fst out)) <= 8
   /\ (8 <= total_available "X" (inventory warehouse) ->
       sum_deductions (only_line_deductions (fst out)) = 8))
  /\ (sku_total "X" (inventory warehouse) - sku_total "X" (inventory (snd res))
      = sum_deductions (reserve_deductions (fst res))
      /\ sum_deductions (reserve_deductions (fst res)) <= 8
      /\ (8 <= total_available "X" (inventory warehouse) ->
          sum_deductions (reserve_deductions (fst res)) = 8)).
Proof.
  assert (Hk : NoDup (map inv_key (inventory warehouse)))
    by (repeat constructor; simpl; intuition discriminate).
  destruct (allocation_sums_to_request decimal_int clerk "X" "8" "sold" "RES-1"
              8 warehouse eq_refl ltac:(lia) Hk)
    as ((_ & _ & _ & _ & To & Lo & Eo) & (_ & _ & _ & _ & Tr & Lr & Er)).
  repeat split; assumption.
Defined.

(** First in, first out, on the walk over what [check_stock_query]
    returned and on the ledger the loop leaves behind. *)
Lemma fifo_on_available c s st rem details (r1 r2 : Inventory.row) :
  NoDup (map inv_key (inventory st)) ->
  In r1 (inventory st) -> In r2 (inventory st) ->
  Inventory.sku r1 = s -> Inventory.sku r2 = s ->
  0 < Inventory.quantity r1 -> 0 < Inventory.quantity r2 ->
  Inventory.inbound_date r1 < Inventory.inbound_date r2 ->
  let stock := available_oldest_first s (inventory st) in
  let ds := allocate_walk stock rem in
  deduction_for (Inventory.lot r2) (Inventory.location r2) ds <> None ->
  deduction_for (Inventory.lot r1) (Inventory.location r1) ds
  = Some (Inventory.quantity r1)
  /\ ledger_quantity
       (inventory (snd (Bot2.deduct_loop c s stock rem details st)))
       s (Inventory.lot r1) (Inventory.location r1) = Some 0.
Proof.
  intros Hk H1 H2 Hs1 Hs2 Hq1 Hq2 Hlt stock ds Htouched.
  destruct (available_snapshot s (inventory st) Hk) as [Hnd Hsnap].
  fold stock in Hnd, Hsnap.
  assert (Hin1 : In r1 stock) by (apply available_In; auto).
  assert (Hin2 : In r2 stock) by (apply available_In; auto).
  destruct (sorted_split_before Inventory.inbound_date stock r1 r2
              (available_sorted s (inventory st)) Hin1 Hin2 Hlt)
    as (l1 & l2 & Hsplit & Hl2).
  assert (Hfull : deduction_for (Inventory.lot r1) (Inventory.location r1) ds
                  = Some (Inventory.quantity r1)).
  { subst ds. rewrite Hsplit in *. now apply (allocate_walk_fifo l1 r1 l2 r2). }
  split; [exact Hfull|].
  rewrite (deduct_loop_ledger c s stock rem details st Hnd Hsnap).
  rewrite (Hsnap r1 Hin1). simpl. unfold taken_from. fold ds. rewrite Hfull.
  f_equal. lia.
Qed.

(** C2. Allocation is first in, first out, for /out and /reserve alike.
    With two available lots of the SKU, the first inbound strictly before
    the second, and a requested quantity not exceeding the total
    available: the deductions are the walk over the available records in
    ascending inbound-date order, taking min(remaining, quantity) from each
    and stopping when nothing remains (so for a positive request they sum
    to the request); and if the newer lot gives anything, the older lot has
    given all it had and its ledger quantity is 0. *)
Theorem allocation_is_fifo
  (py_int : string -> option Z) (c : Caller) (s q reason new_id : string)
  (qty : Z) (st : State) (r1 r2 : Inventory.row) :
  py_int q = Some qty ->
  NoDup (map inv_key (inventory st)) ->
  In r1 (inventory st) -> In r2 (inventory st) ->
  Inventory.sku r1 = s -> Inventory.sku r2 = s ->
  0 < Inventory.quantity r1 -> 0 < Inventory.quantity r2 ->
  Inventory.inbound_date r1 < Inventory.inbound_date r2 ->
  qty <= total_available s (inventory st) ->
  let stock := available_oldest_first s (inventory st) in
  let fifo (ds : list Deduction) (st' : State) :=
    ds = allocate_walk stock qty
    /\ (0 < qty -> sum_deductions ds = qty)
    /\ (deduction_for (Inventory.lot r2) (Inventory.location r2) ds <> None ->
        deduction_for (Inventory.lot r1) (Inventory.location r1) ds
        = Some (Inventory.quantity r1)
        /\ ledger_quantity (inventory st') s
             (Inventory.lot r1) (Inventory.location r1) = Some 0) in
  let out := Bot2.process_outbound_items py_int [s] [q] [reason] c st in
  let res := Bot2.process_reserve_item py_int s q c new_id st in
  StronglySorted (key_le Inventory.inbound_date) stock
  /\ fifo (only_line_deductions (fst out)) (snd out)
  /\ fifo (reserve_deductions (fst res)) (snd res).
Proof.
  intros Hq Hk H1 H2 Hs1 Hs2 Hq1 Hq2 Hlt Hle stock fifo out res.
  split; [apply available_sorted|].
  destruct (Z.leb_spec qty 0) as [Hnonpos|Hpos].
  { (* nothing is requested: no deduction at all *)
    assert (Hout : only_line_deductions (fst out) = []).
    { subst out. rewrite (outbound_single_deductions py_int _ _ _ _ _ qty Hq).
      destruct (Z.ltb_spec 0 qty); [lia | reflexivity]. }
    assert (Hres : reserve_deductions (fst res) = []).
    { subst res.
      destruct (process_reserve_item_eq py_int c s q new_id st) as (-> & _ & _).
      unfold Bot2.reserve_item_try. rewrite Hq.
      destruct (Z.leb_spec qty 0); [reflexivity | lia]. }
    unfold fifo. rewrite Hout, Hres, (allocate_walk_nonpos stock qty Hnonpos).
    split; (split; [reflexivity|]; split; [lia|]; intros Ht; now elim Ht). }
  pose proof (available_walk_sum s (inventory st) qty ltac:(lia)) as Hsum.
  assert (Hne : exists r rest, stock = r :: rest).
  { destruct stock as [|r rest] eqn:E; [|eauto].
    exfalso. assert (In r1 stock) by (apply available_In; auto).
    rewrite E in *. contradiction. }
  split; unfold fifo.
  - (* /out *)
    subst out.
    rewrite (outbound_single_deductions py_int _ _ _ _ _ qty Hq).
    destruct (process_outbound_single py_int c s q reason st) as (_ & -> & _).
    rewrite (outbound_item_eq py_int _ _ _ _ _ qty Hq). simpl.
    fold stock.
    destruct (Z.ltb_spec 0 qty); [|lia].
    destruct (Z.leb_spec qty (total_available s (inventory st))); [simpl|lia].
    destruct (Z.leb_spec qty 0); [lia|].
    destruct Hne as (r & rest & E). rewrite E. rewrite <- E.
    destruct (Z.ltb_spec (total_available s (inventory st)) qty); [lia|]. simpl.
    split; [reflexivity|]. split; [fold stock in Hsum; lia|].
    intros Ht.
    apply (fifo_on_available c s
             (mkState (inventory st) (reservations st)
                (transactions_log st ++ [log_entry (txn_id c) "out" "PROCESSING"]))
             qty [] r1 r2); auto.
  - (* /reserve *)
    subst res.
    rewrite (reserve_deductions_eq py_int _ _ _ _ _ qty Hq Hpos).
    destruct (process_reserve_item_eq py_int c s q new_id st) as (_ & -> & _).
    rewrite (reserve_item_try_eq py_int _ _ _ _ _ qty Hq Hpos). simpl.
    fold stock.
    split; [reflexivity|]. split; [fold stock in Hsum; lia|].
    intros Ht.
    apply (fifo_on_available c s
             (mkState (inventory st) (reservations st)
                (transactions_log st ++ [log_entry (txn_id c) "reserve" "PROCESSING"]))
             qty [] r1 r2); auto.
Qed.

Lemma allocation_is_fifo_witness :
  let out := Bot2.process_outbound_items decimal_int ["X"] ["8"] ["sold"]
               clerk warehouse in
  let res := Bot2.process_reserve_item decimal_int "X" "8" clerk "RES-1"
               warehouse in
  (deduction_for "B" "L2" (only_line_deductions (fst out)) = Some 3
   /\ deduction_for "A" "L1" (only_line_deductions (fst out)) = Some 5
   /\ ledger_quantity (inventory (snd out)) "X" "A" "L1" = Some 0)
  /\ (deduction_for "B" "L2" (reserve_deductions (fst res)) = Some 3
      /\ deduction_for "A" "L1" (reserve_deductions (fst res)) = Some 5
      /\ ledger_quantity (inventory (snd res)) "X" "A" "L1" = Some 0).
Proof.
  pose proof (allocation_is_fifo decimal_int clerk "X" "8" "sold" "RES-1" 8
                warehouse lotA lotB eq_refl) as H.
  destruct H as (_ & (_ & _ & Hout) & (_ & _ & Hres)).
  - repeat constructor; simpl; intuition discriminate.
  - simpl; auto.
  - simpl; auto.
  - reflexivity.
  - reflexivity.
  - simpl; lia.
  - simpl; lia.
  - simpl; lia.
  - vm_compute. discriminate.
  - split.
    + split; [reflexivity|]. apply Hout. vm_compute. discriminate.
    + split; [reflexivity|]. apply Hres. vm_compute. discriminate.
Defined.

(** ** /reserve: what it writes *)

(** Whatever the stock, /reserve of a positive quantity appends a PENDING
    row for the full quantity, held against the first lot drawn from. *)
Lemma reserve_inserts_row py_int c s q new_id st qty :
  py_int q = Some qty -> 0 < qty ->
  let ds := allocate_walk (available_oldest_first s (inventory st)) qty in
  reservations (snd (Bot2.process_reserve_item py_int s q c new_id st))
  = reservations st ++
      [Reservations.mk new_id s qty (user_id c) (now c) PENDING
         (option_map d_lot (hd_error ds)) (option_map d_location (hd_error ds))
         (txn_id c) None None None None None None None None].
Proof.
  intros Hq Hpos ds.
  destruct (process_reserve_item_eq py_int c s q new_id st) as (_ & _ & ->).
  rewrite (reserve_item_try_eq py_int _ _ _ _ _ qty Hq Hpos). simpl.
  match goal with |- context [Bot2.deduct_loop ?c ?s ?l ?r ?d ?st0] =>
    destruct (deduct_loop_frame c s l r d st0) as (-> & _) end.
  reflexivity.
Qed.

(** C1, on the code.  In the warehouse holding 15 pieces of X, /reserve
    X 100 sets the failure flag (the log says FAILED) but goes on: both
    lots are written down to 0, a PENDING reservation of 100 is inserted,
    and the reply is the success text. *)
Theorem reserve_beyond_stock_still_deducts :
  let run := Bot2.process_reserve_item decimal_int "X" "100" clerk "RES-1"
               warehouse in
  total_available "X" (inventory warehouse) = 15
  /\ ledger_quantity (inventory warehouse) "X" "A" "L1" = Some 5
  /\ ledger_quantity (inventory warehouse) "X" "B" "L2" = Some 10
  /\ ledger_quantity (inventory (snd run)) "X" "A" "L1" = Some 0
  /\ ledger_quantity (inventory (snd run)) "X" "B" "L2" = Some 0
  /\ option_map (fun r => (Reservations.quantity r, Reservations.status r))
       (reservation_of (reservations (snd run)) "RES-1") = Some (100, PENDING)
  /\ is_done (fst run) = true
  /\ transactions_log (snd run)
     = [log_entry "TXN-1" "reserve" "PROCESSING";
        log_status_update "TXN-1" "FAILED"].
Proof. vm_compute. repeat split. Qed.

(** The sibling path: /out X 100 in the same warehouse fails and writes
    nothing to the tables. *)
Lemma outbound_beyond_stock_writes_nothing :
  let run := Bot2.process_outbound_items decimal_int ["X"] ["100"] ["sold"]
               clerk warehouse in
  fst run = [("X", failed (InsufficientStock 15 100))]
  /\ same_tables (snd run) warehouse.
Proof. vm_compute. repeat split. Qed.

(** ** bot1: adjustment and receiving *)

Lemma filter_map_commute {A B} (p : B -> bool) (f : A -> B) (l : list A) :
  filter p (map f l) = map f (filter (fun x => p (f x)) l).
Proof.
  induction l as [|x xs IH]; simpl; [reflexivity|].
  destruct (p (f x)); simpl; now rewrite IH.
Qed.

(** An UPDATE of quantities does not move any record in its SKU's
    allocation order. *)
Lemma fifo_order_update_where s cond new c inv :
  fifo_order s (update_inventory_where cond new c inv) = fifo_order s inv.
Proof.
  unfold fifo_order, update_inventory_where.
  set (f := fun r => if cond r then with_quantity (new r) c r else r).
  rewrite filter_map_commute, order_by_map, map_map.
  rewrite (filter_ext (fun x => String.eqb (Inventory.sku (f x)) s)
             (fun x => String.eqb (Inventory.sku x) s)).
  2:{ intros x. unfold f. destruct (cond x); reflexivity. }
  rewrite (order_by_ext (fun a => Inventory.inbound_date (f a)) Inventory.inbound_date).
  2:{ intros x. unfold f. destruct (cond x); reflexivity. }
  apply map_ext. intros x. unfold f. destruct (cond x); reflexivity.
Qed.

Lemma ledger_quantity_set_same s l loc q c inv Q :
  ledger_quantity inv s l loc = Some Q ->
  ledger_quantity
    (update_inventory_where (inv_key_is s l loc) (fun _ => q) c inv) s l loc
  = Some q.
Proof.
  intros H. rewrite ledger_quantity_update_where.
  destruct (ledger_quantity_found _ _ _ _ _ H) as (x & -> & _ & Hk). simpl.
  now rewrite (proj2 (inv_key_is_spec _ _ _ x) Hk).
Qed.

(** C4. An adjustment (quantity and date well formed) on an existing
    record with quantity Q and delta D such that Q + D < 0 fails with the
    negative-quantity failure and writes nothing, so the quantity stays Q;
    an adjustment on a key that has no record fails with the not-found
    failure and creates no record. *)
Theorem adjustment_rejections
  (py_int strptime_date : string -> option Z) (c : Caller)
  (s q l date loc reason : string) (D d : Z) (st : State) :
  py_int q = Some D -> strptime_date date = Some d ->
  let run := Bot1.process_adjust_in_item py_int strptime_date
               [s] [q] [l] [date] [loc] [reason] c st in
  (forall Q, ledger_quantity (inventory st) s l loc = Some Q -> Q + D < 0 ->
     fst run = [(s, failed (NegativeQuantity (Q + D)))]
     /\ same_tables (snd run) st
     /\ ledger_quantity (inventory (snd run)) s l loc = Some Q)
  /\ (ledger_quantity (inventory st) s l loc = None ->
      fst run = [(s, failed ItemNotFound)]
      /\ same_tables (snd run) st
      /\ ledger_quantity (inventory (snd run)) s l loc = None).
Proof.
  intros Hq Hd run. subst run.
  unfold Bot1.process_adjust_in_item, Bot1.zip5. simpl.
  rewrite !bind_eq. simpl.
  unfold Bot1.adjust_in_item. rewrite Hq, Hd.
  rewrite !bind_eq. unfold check_query. simpl.
  fold (ledger_quantity (inventory st) s l loc).
  split.
  - intros Q HQ Hneg. rewrite HQ.
    destruct (Z.ltb_spec (Q + D) 0); [|lia].
    simpl. unfold same_tables. simpl. auto.
  - intros Habsent. rewrite Habsent.
    simpl. unfold same_tables. simpl. auto.
Qed.

Lemma adjustment_rejections_witness :
  (let run := Bot1.process_adjust_in_item decimal_int iso_date
                ["X"] ["-6"] ["A"] ["2025-03-01"] ["L1"] ["recount"]
                clerk warehouse in
   fst run = [("X", failed (NegativeQuantity (5 + -6)))]
   /\ same_tables (snd run) warehouse
   /\ ledger_quantity (inventory (snd run)) "X" "A" "L1" = Some 5)
  /\ (let run := Bot1.process_adjust_in_item decimal_int iso_date
                   ["X"] ["2"] ["C"] ["2025-03-01"] ["L9"] ["recount"]
                   clerk warehouse in
      fst run = [("X", failed ItemNotFound)]
      /\ same_tables (snd run) warehouse
      /\ ledger_quantity (inventory (snd run)) "X" "C" "L9" = None).
Proof.
  split.
  - apply (proj1 (adjustment_rejections decimal_int iso_date clerk
                    "X" "-6" "A" "2025-03-01" "L1" "recount" (-6) 20250301
                    warehouse eq_refl eq_refl) 5).
    + reflexivity.
    + lia.
  - apply (proj2 (adjustment_rejections decimal_int iso_date clerk
                    "X" "2" "C" "2025-03-01" "L9" "recount" 2 20250301
                    warehouse eq_refl eq_refl)).
    reflexivity.
Defined.

(** One item of /in or /return (quantity and date well formed). *)
Lemma receive_item_eq py_int strptime_date c s q l date loc st qty d :
  py_int q = Some qty -> 0 < qty -> strptime_date date = Some d ->
  Bot1.receive_item py_int strptime_date c s q l date loc st
  = match ledger_quantity (inventory st) s l loc with
    | Some Q =>
        ((done (Bot1.increased (Q + qty)), FallThrough),
         snd (update_query (Q + qty) c s l loc st))
    | None =>
        ((done Bot1.recorded_new, FallThrough),
         snd (insert_query s l loc qty d c st))
    end.
Proof.
  intros Hq Hpos Hd. unfold Bot1.receive_item. rewrite Hq, Hd.
  destruct (Z.leb_spec qty 0); [lia|].
  rewrite bind_eq. unfold check_query. simpl.
  fold (ledger_quantity (inventory st) s l loc).
  destruct (ledger_quantity (inventory st) s l loc); reflexivity.
Qed.

(** C10. When /in or /return targets a record that already exists, its
    quantity grows by the given amount, no record is added, every inbound
    date stays as it was, and no record moves in its SKU's allocation
    order; the date given with the command is stored only when the key has
    no record, as the inbound date of the new record. *)
Theorem receiving_keeps_inbound_date
  (py_int strptime_date : string -> option Z) (c : Caller)
  (s q l date loc : string) (qty d : Z) (st : State) :
  py_int q = Some qty -> 0 < qty -> strptime_date date = Some d ->
  let effect (run : list (string * Reply Bot1.ReceiveDetail) * State) :=
    (forall Q, ledger_quantity (inventory st) s l loc = Some Q ->
       fst run = [(s, done (Bot1.increased (Q + qty)))]
       /\ ledger_quantity (inventory (snd run)) s l loc = Some (Q + qty)
       /\ map inv_key (inventory (snd run)) = map inv_key (inventory st)
       /\ map Inventory.inbound_date (inventory (snd run))
          = map Inventory.inbound_date (inventory st)
       /\ forall s', fifo_order s' (inventory (snd run))
                     = fifo_order s' (inventory st))
    /\ (ledger_quantity (inventory st) s l loc = None ->
        fst run = [(s, done Bot1.recorded_new)]
        /\ inventory (snd run)
           = inventory st
             ++ [Inventory.mk s l loc qty d (user_id c) None None (txn_id c)]) in
  effect (Bot1.process_inbound_item py_int strptime_date [s] [q] [l] [date] [loc] c st)
  /\ effect (Bot1.process_return_item py_int strptime_date [s] [q] [l] [date] [loc] c st).
Proof.
  intros Hq Hpos Hd effect.
  assert (H : forall cmd,
    effect
      ((log_transaction_to_file (txn_id c) cmd "PROCESSING" ;;;
        b <- Bot1.receive_loop py_int strptime_date c
               (Bot1.zip5 [s] [q] [l] [date] [loc]) (mkBatch [] true []) ;;
        update_transaction_log_file_status (txn_id c) (final_status b) ;;;
        ret (results b)) st)).
  { intros cmd. unfold effect, Bot1.zip5. simpl.
    rewrite !bind_eq. simpl.
    rewrite (receive_item_eq py_int strptime_date _ _ _ _ _ _ _ qty d Hq Hpos Hd).
    simpl. split.
    - intros Q HQ. rewrite HQ. simpl.
      split; [reflexivity|].
      split; [now apply (ledger_quantity_set_same _ _ _ _ _ _ Q)|].
      split; [apply update_where_keys|].
      split; [apply update_where_dates|].
      intros s'. apply fifo_order_update_where.
    - intros Habsent. rewrite Habsent. simpl. split; reflexivity. }
  split; apply H.
Qed.

Lemma receiving_keeps_inbound_date_witness :
  (let run := Bot1.process_inbound_item decimal_int iso_date
                ["X"] ["4"] ["A"] ["2025-06-30"] ["L1"] clerk warehouse in
   fst run = [("X", done (Bot1.increased (5 + 4)))]
   /\ ledger_quantity (inventory (snd run)) "X" "A" "L1" = Some (5 + 4)
   /\ map inv_key (inventory (snd run)) = map inv_key (inventory warehouse)
   /\ map Inventory.inbound_date (inventory (snd run))
      = map Inventory.inbound_date (inventory warehouse)
   /\ forall s', fifo_order s' (inventory (snd run))
                 = fifo_order s' (inventory warehouse))
  /\ (let run := Bot1.process_return_item decimal_int iso_date
                   ["X"] ["4"] ["C"] ["2025-06-30"] ["L9"] clerk warehouse in
      fst run = [("X", done Bot1.recorded_new)]
      /\ inventory (snd run)
         = inventory warehouse
           ++ [Inventory.mk "X" "C" "L9" 4 20250630 7 None None "TXN-1"]).
Proof.
  split.
  - apply (proj1 (proj1 (receiving_keeps_inbound_date decimal_int iso_date clerk
                           "X" "4" "A" "2025-06-30" "L1" 4 20250630 warehouse
                           eq_refl eq_refl eq_refl)) 5).
    reflexivity.
  - apply (proj2 (proj2 (receiving_keeps_inbound_date decimal_int iso_date clerk
                           "X" "4" "C" "2025-06-30" "L9" 4 20250630 warehouse
                           eq_refl eq_refl eq_refl))).
    reflexivity.
Defined.

(** ** The reservations table *)

Lemma find_nowhere {A} (p : A -> bool) (l : list A) :
  (forall x, In x l -> p x = false) -> find p l = None.
Proof.
  induction l as [|x xs IH]; simpl; intros H; [reflexivity|].
  rewrite (H x (or_introl eq_refl)). apply IH. intros y Hy. apply H. now right.
Qed.

Lemma find_pointwise {A} (p1 p2 : A -> bool) (l : list A) :
  (forall x, p1 x = p2 x) -> find p1 l = find p2 l.
Proof.
  intros E. induction l as [|x xs IH]; simpl; [reflexivity|].
  now rewrite E, IH.
Qed.

Lemma reservation_of_In rs rid r :
  reservation_of rs rid = Some r -> In r rs /\ Reservations.reserve_id r = rid.
Proof.
  intros H. apply find_some in H. now rewrite String.eqb_eq in H.
Qed.

Lemma reservation_of_absent rs rid :
  (forall r, In r rs -> Reservations.reserve_id r <> rid) ->
  reservation_of rs rid = None.
Proof.
  intros H. destruct (reservation_of rs rid) as [r|] eqn:E; [|reflexivity].
  apply reservation_of_In in E. destruct E as [Hin Hid]. now elim (H r Hin).
Qed.

Lemma reservation_of_unique rs r :
  NoDup (map Reservations.reserve_id rs) -> In r rs ->
  reservation_of rs (Reservations.reserve_id r) = Some r.
Proof.
  unfold reservation_of.
  induction rs as [|x xs IH]; simpl; intros Hnd Hin; [contradiction|].
  inversion Hnd as [|? ? Hnotin Hnd']; subst.
  destruct Hin as [->|Hin].
  - now rewrite String.eqb_refl.
  - destruct (String.eqb_spec (Reservations.reserve_id x) (Reservations.reserve_id r))
      as [E|_]; [|now apply IH].
    exfalso. apply Hnotin. rewrite E. now apply in_map.
Qed.

(** With unique reservation ids, a lookup by id and further conditions
    finds the row of that id, provided it meets the conditions. *)
Lemma find_by_id rs rid (P : Reservations.row -> bool) :
  NoDup (map Reservations.reserve_id rs) ->
  find (fun x => String.eqb (Reservations.reserve_id x) rid && P x) rs
  = match reservation_of rs rid with
    | Some r => if P r then Some r else None
    | None => None
    end.
Proof.
  unfold reservation_of.
  induction rs as [|x xs IH]; simpl; intros Hnd; [reflexivity|].
  inversion Hnd as [|? ? Hnotin Hnd']; subst.
  destruct (String.eqb_spec (Reservations.reserve_id x) rid) as [E|_]; simpl.
  - destruct (P x); [reflexivity|].
    apply find_nowhere. intros y Hy.
    destruct (String.eqb_spec (Reservations.reserve_id y) rid) as [Ey|_];
      [|reflexivity].
    exfalso. apply Hnotin. rewrite E, <- Ey. now apply in_map.
  - now apply IH.
Qed.

Lemma reservation_of_update f rid rid' rs :
  (forall r, Reservations.reserve_id (f r) = Reservations.reserve_id r) ->
  reservation_of
    (map (fun r => if String.eqb (Reservations.reserve_id r) rid then f r else r) rs)
    rid'
  = option_map
      (fun r => if String.eqb (Reservations.reserve_id r) rid then f r else r)
      (reservation_of rs rid').
Proof.
  intros Hf. unfold reservation_of.
  induction rs as [|x xs IH]; simpl; [reflexivity|].
  replace (Reservations.reserve_id
             (if String.eqb (Reservations.reserve_id x) rid then f x else x))
    with (Reservations.reserve_id x)
    by (destruct (String.eqb (Reservations.reserve_id x) rid); now rewrite ?Hf).
  destruct (String.eqb (Reservations.reserve_id x) rid'); [reflexivity | exact IH].
Qed.

Lemma status_of_reservation_of rs rid :
  status_of rs rid = option_map Reservations.status (reservation_of rs rid).
Proof. reflexivity. Qed.

(** The lookups of /reserve_pick and /reserve_return, with unique ids. *)
Lemma check_reserve_query_eq pending_only rid s l loc st :
  NoDup (map Reservations.reserve_id (reservations st)) ->
  fst (check_reserve_query pending_only rid s l loc st)
  = match reservation_of (reservations st) rid with
    | Some r =>
        if String.eqb (Reservations.sku r) s
           && sql_eq_null (Reservations.reserved_lot r) (Some l)
           && sql_eq_null (Reservations.reserved_location r) (Some loc)
           && (if pending_only then Status_eqb (Reservations.status r) PENDING
               else true)
        then Some (Reservations.quantity r, Reservations.status r)
        else None
    | None => None
    end.
Proof.
  intros Hnd. unfold check_reserve_query. simpl.
  rewrite (find_pointwise _
    (fun x => String.eqb (Reservations.reserve_id x) rid
              && (String.eqb (Reservations.sku x) s
                  && sql_eq_null (Reservations.reserved_lot x) (Some l)
                  && sql_eq_null (Reservations.reserved_location x) (Some loc)
                  && (if pending_only then Status_eqb (Reservations.status x) PENDING
                      else true)))).
  2:{ intros x. now rewrite !andb_assoc. }
  rewrite find_by_id by exact Hnd.
  destruct (reservation_of (reservations st) rid) as [r|]; [|reflexivity].
  destruct (_ && _); reflexivity.
Qed.

Lemma sql_eq_null_refl (a : string) : sql_eq_null (Some a) (Some a) = true.
Proof. apply String.eqb_refl. Qed.

(** The lookup of /reserve_pick or /reserve_return finds a row that
    matches on id, SKU, lot and location (and is PENDING, when asked). *)
Lemma check_reserve_query_match pending_only st r :
  NoDup (map Reservations.reserve_id (reservations st)) ->
  In r (reservations st) ->
  (pending_only = true -> Reservations.status r = PENDING) ->
  forall l loc,
    Reservations.reserved_lot r = Some l ->
    Reservations.reserved_location r = Some loc ->
    fst (check_reserve_query pending_only (Reservations.reserve_id r)
           (Reservations.sku r) l loc st)
    = Some (Reservations.quantity r, Reservations.status r).
Proof.
  intros Hnd Hin Hst l loc Hl Hloc.
  rewrite check_reserve_query_eq by exact Hnd.
  rewrite (reservation_of_unique _ _ Hnd Hin).
  rewrite Hl, Hloc, String.eqb_refl, !sql_eq_null_refl. simpl.
  destruct pending_only; [|reflexivity].
  now rewrite (Hst eq_refl).
Qed.

(** C7, as the code has it.  A pick against a matching PENDING
    reservation (ids unique) never writes to the ledger.  A quantity that
    is not positive is rejected as such and nothing changes; a positive
    quantity above the reserved quantity fails as an over-pick and nothing
    changes; a positive quantity up to the reserved quantity succeeds and
    the reservation becomes PICKED with the pick date and picker stamped,
    other reservations being left as they were. *)
Theorem pick_of_pending_reservation
  (py_int : string -> option Z) (c : Caller) (s q loc l rid : string)
  (qty : Z) (st : State) (r : Reservations.row) :
  py_int q = Some qty ->
  NoDup (map Reservations.reserve_id (reservations st)) ->
  In r (reservations st) ->
  Reservations.reserve_id r = rid -> Reservations.sku r = s ->
  Reservations.reserved_lot r = Some l ->
  Reservations.reserved_location r = Some loc ->
  Reservations.status r = PENDING ->
  let run := Bot2.process_reserve_pick py_int s q loc l rid c st in
  inventory (snd run) = inventory st
  /\ (qty <= 0 ->
      fst run = failed NonPositiveQuantity
      /\ reservations (snd run) = reservations st)
  /\ (0 < qty -> Reservations.quantity r < qty ->
      fst run = failed (OverPick qty (Reservations.quantity r))
      /\ reservations (snd run) = reservations st)
  /\ (0 < qty <= Reservations.quantity r ->
      fst run = done tt
      /\ status_of (reservations (snd run)) rid = Some PICKED
      /\ (exists r',
            reservation_of (reservations (snd run)) rid = Some r'
            /\ Reservations.status r' = PICKED
            /\ Reservations.pickup_date r' = Some (now c)
            /\ Reservations.picked_by r' = Some (user_id c)
            /\ Reservations.reserve_id r' = rid
            /\ Reservations.sku r' = s
            /\ Reservations.quantity r' = Reservations.quantity r
            /\ Reservations.reserved_lot r' = Some l
            /\ Reservations.reserved_location r' = Some loc
            /\ Reservations.reserved_by r' = Reservations.reserved_by r
            /\ Reservations.reservation_date r' = Reservations.reservation_date r)
      /\ forall rid', rid' <> rid ->
           reservation_of (reservations (snd run)) rid'
           = reservation_of (reservations st) rid').
Proof.
  intros Hq Hnd Hin Hid Hs Hl Hloc Hst run. subst run rid s.
  unfold Bot2.process_reserve_pick. rewrite !bind_eq. simpl.
  unfold Bot2.reserve_pick_try. rewrite Hq.
  destruct (Z.leb_spec qty 0) as [Hle|Hpos]; simpl.
  { split; [reflexivity|]. split; [auto|]. split; intros; lia. }
  rewrite !bind_eq.
  rewrite (check_reserve_query_match true _ r) by (simpl; auto).
  simpl.
  destruct (Z.ltb_spec (Reservations.quantity r) qty) as [Hover|Hok]; simpl.
  { split; [reflexivity|]. split; [intros; lia|]. split; [auto|]. intros; lia. }
  split; [reflexivity|]. split; [intros; lia|]. split; [intros; lia|].
  intros _. split; [reflexivity|].
  assert (Hrow : reservation_of
                   (map (fun x => if String.eqb (Reservations.reserve_id x)
                                       (Reservations.reserve_id r)
                                  then set_picked c x else x) (reservations st))
                   (Reservations.reserve_id r)
                 = Some (set_picked c r)).
  { rewrite reservation_of_update by reflexivity.
    rewrite (reservation_of_unique _ _ Hnd Hin). simpl.
    now rewrite String.eqb_refl. }
  split; [|split].
  - rewrite status_of_reservation_of, Hrow. reflexivity.
  - exists (set_picked c r). split; [exact Hrow|].
    cbn [set_picked Reservations.status Reservations.pickup_date
         Reservations.picked_by Reservations.reserve_id Reservations.sku
         Reservations.quantity Reservations.reserved_lot
         Reservations.reserved_location Reservations.reserved_by
         Reservations.reservation_date].
    repeat split; assumption.
  - intros rid' Hne. rewrite reservation_of_update by reflexivity.
    destruct (reservation_of (reservations st) rid') as [x|] eqn:E; [|reflexivity].
    simpl. apply reservation_of_In in E. destruct E as [_ <-].
    destruct (String.eqb_spec (Reservations.reserve_id x) (Reservations.reserve_id r));
      [contradiction | reflexivity].
Qed.

Lemma pick_of_pending_reservation_witness :
  let run := Bot2.process_reserve_pick decimal_int "X" "5" "L1" "A" "RES-1"
               clerk2 warehouse_with_hold in
  inventory (snd run) = inventory warehouse_with_hold
  /\ fst run = done tt
  /\ status_of (reservations (snd run)) "RES-1" = Some PICKED.
Proof.
  assert (Hnd : NoDup (map Reservations.reserve_id
                         (reservations warehouse_with_hold)))
    by (repeat constructor; simpl; intuition discriminate).
  assert (Hin : In held (reservations warehouse_with_hold)) by (simpl; auto).
  destruct (pick_of_pending_reservation decimal_int clerk2 "X" "5" "L1" "A"
              "RES-1" 5 warehouse_with_hold held eq_refl Hnd Hin
              eq_refl eq_refl eq_refl eq_refl eq_refl)
    as (Hinv & _ & _ & Hok).
  destruct Hok as (Hr & Hp & _); [simpl; lia|].
  repeat split; assumption.
Defined.

(** C7 as stated fails at quantity 0: the reservation holds 8, so
    0 <= Reservation.Quantity, yet the pick is refused and the reservation
    stays PENDING. *)
Lemma pick_of_zero_is_refused :
  let run := Bot2.process_reserve_pick decimal_int "X" "0" "L1" "A" "RES-1"
               clerk2 warehouse_with_hold in
  reservation_of (reservations warehouse_with_hold) "RES-1" = Some held
  /\ Reservations.status held = PENDING
  /\ fst run = failed NonPositiveQuantity
  /\ status_of (reservations (snd run)) "RES-1" = Some PENDING
  /\ ~ (0 <= Reservations.quantity held ->
        fst run = done tt
        /\ status_of (reservations (snd run)) "RES-1" = Some PICKED).
Proof.
  vm_compute. repeat split.
  intros H. destruct H as [H _]; [discriminate | discriminate H].
Qed.

Lemma Status_eqb_eq a b : Status_eqb a b = true <-> a = b.
Proof. destruct a, b; simpl; split; intros H; try reflexivity; discriminate. Qed.

(** The lookup of /reserve_cancel, with unique ids. *)
Lemma get_reserve_details_query_eq rid st :
  NoDup (map Reservations.reserve_id (reservations st)) ->
  fst (get_reserve_details_query rid st)
  = match reservation_of (reservations st) rid with
    | Some r =>
        if Status_eqb (Reservations.status r) PENDING
        then Some (Reservations.sku r, Reservations.quantity r,
                   Reservations.reserved_lot r, Reservations.reserved_location r)
        else None
    | None => None
    end.
Proof.
  intros Hnd. unfold get_reserve_details_query. simpl.
  rewrite find_by_id by exact Hnd.
  destruct (reservation_of (reservations st) rid) as [r|]; [|reflexivity].
  destruct (Status_eqb _ _); reflexivity.
Qed.

(** Adding to the quantity under one key: that key gains the amount, every
    other key keeps its quantity. *)
Lemma ledger_quantity_add s l loc qty c inv s' l' loc' :
  ledger_quantity
    (update_inventory_where (inv_key_matches s (Some l) (Some loc))
       (fun r => Inventory.quantity r + qty) c inv) s' l' loc'
  = option_map
      (fun old => if inv_key_is s l loc (Inventory.mk s' l' loc' 0 0 0 None None "")
                  then old + qty else old)
      (ledger_quantity inv s' l' loc').
Proof.
  rewrite ledger_quantity_update_where. unfold ledger_quantity.
  destruct (find (inv_key_is s' l' loc') inv) as [x|] eqn:E; simpl; [|reflexivity].
  apply find_key_In in E. destruct E as [_ Hk].
  rewrite inv_key_matches_some. f_equal.
  unfold inv_key_is. simpl. unfold inv_key in Hk. injection Hk as -> -> ->.
  reflexivity.
Qed.

(** The same with the lot and location read back from a reservation,
    either of which may be NULL: a key gains the amount when it is the
    reservation's, and no key does when the reservation has no lot or no
    location. *)
Lemma ledger_quantity_add_null s (l loc : option string) qty c inv s' l' loc' :
  ledger_quantity
    (update_inventory_where (inv_key_matches s l loc)
       (fun r => Inventory.quantity r + qty) c inv) s' l' loc'
  = option_map
      (fun old => if String.eqb s' s && sql_eq_null (Some l') l
                     && sql_eq_null (Some loc') loc
                  then old + qty else old)
      (ledger_quantity inv s' l' loc').
Proof.
  rewrite ledger_quantity_update_where. unfold ledger_quantity.
  destruct (find (inv_key_is s' l' loc') inv) as [x|] eqn:E; simpl; [|reflexivity].
  apply find_key_In in E. destruct E as [_ Hk].
  unfold inv_key in Hk. injection Hk as Hs Hl Hloc.
  unfold inv_key_matches. now rewrite Hs, Hl, Hloc.
Qed.

(** The tables after /reserve_cancel of a PENDING reservation, ids being
    unique. *)
Lemma reserve_cancel_of_pending c reason st r :
  NoDup (map Reservations.reserve_id (reservations st)) ->
  In r (reservations st) ->
  Reservations.status r = PENDING ->
  let run := Bot2.process_reserve_cancel (Reservations.reserve_id r) reason c st in
  fst run = done (Reservations.sku r, Reservations.quantity r)
  /\ inventory (snd run)
     = update_inventory_where
         (inv_key_matches (Reservations.sku r) (Reservations.reserved_lot r)
            (Reservations.reserved_location r))
         (fun x => Inventory.quantity x + Reservations.quantity r) c (inventory st)
  /\ reservations (snd run)
     = map (fun x => if String.eqb (Reservations.reserve_id x)
                          (Reservations.reserve_id r)
                     then set_cancelled c reason x else x) (reservations st).
Proof.
  intros Hnd Hin Hst run. subst run.
  unfold Bot2.process_reserve_cancel. rewrite !bind_eq. simpl.
  unfold Bot2.reserve_cancel_try. rewrite !bind_eq.
  rewrite get_reserve_details_query_eq by exact Hnd. simpl.
  rewrite (reservation_of_unique _ _ Hnd Hin), Hst. simpl.
  rewrite ?bind_eq. simpl. repeat split.
Qed.

(** What /reserve_cancel does by status, ids being unique.  On an id
    whose reservation is absent or not PENDING it fails with the not-found
    failure and changes neither table.  On every PENDING reservation it
    succeeds, reports the reserved quantity, and the reservation's status
    becomes CANCELLED with the cancel date, the canceller and the reason
    stamped, its other columns and the other reservations being kept; no
    ledger record is created; the record under the reservation's SKU, lot
    and location, if there is one, gains the full reserved quantity; every
    other ledger quantity is kept; and when the reservation has no lot or
    no location the ledger is left exactly as it was. *)
Lemma cancel_only_from_pending
  (c : Caller) (rid reason : string) (st : State) :
  NoDup (map Reservations.reserve_id (reservations st)) ->
  let run := Bot2.process_reserve_cancel rid reason c st in
  (status_of (reservations st) rid <> Some PENDING ->
   fst run = failed ReservationNotFound /\ same_tables (snd run) st)
  /\ (forall r,
        In r (reservations st) ->
        Reservations.reserve_id r = rid ->
        Reservations.status r = PENDING ->
        fst run = done (Reservations.sku r, Reservations.quantity r)
        /\ status_of (reservations (snd run)) rid = Some CANCELLED
        /\ (exists r',
              reservation_of (reservations (snd run)) rid = Some r'
              /\ Reservations.status r' = CANCELLED
              /\ Reservations.cancel_date r' = Some (now c)
              /\ Reservations.cancelled_by r' = Some (user_id c)
              /\ Reservations.cancel_reason r' = Some reason
              /\ Reservations.reserve_id r' = rid
              /\ Reservations.sku r' = Reservations.sku r
              /\ Reservations.quantity r' = Reservations.quantity r
              /\ Reservations.reserved_lot r' = Reservations.reserved_lot r
              /\ Reservations.reserved_location r'
                 = Reservations.reserved_location r)
        /\ (forall rid', rid' <> rid ->
              reservation_of (reservations (snd run)) rid'
              = reservation_of (reservations st) rid')
        /\ map inv_key (inventory (snd run)) = map inv_key (inventory st)
        /\ (forall l loc Q,
              Reservations.reserved_lot r = Some l ->
              Reservations.reserved_location r = Some loc ->
              ledger_quantity (inventory st) (Reservations.sku r) l loc = Some Q ->
              ledger_quantity (inventory (snd run)) (Reservations.sku r) l loc
              = Some (Q + Reservations.quantity r))
        /\ (forall s' l' loc',
              ~ (s' = Reservations.sku r
                 /\ Reservations.reserved_lot r = Some l'
                 /\ Reservations.reserved_location r = Some loc') ->
              ledger_quantity (inventory (snd run)) s' l' loc'
              = ledger_quantity (inventory st) s' l' loc')
        /\ (Reservations.reserved_lot r = None
            \/ Reservations.reserved_location r = None ->
            inventory (snd run) = inventory st)).
Proof.
  intros Hnd run. split.
  - subst run. unfold Bot2.process_reserve_cancel. rewrite !bind_eq. simpl.
    unfold Bot2.reserve_cancel_try. rewrite !bind_eq.
    rewrite get_reserve_details_query_eq by exact Hnd. simpl.
    intros Hst. rewrite status_of_reservation_of in Hst.
    destruct (reservation_of (reservations st) rid) as [r|]; simpl in *.
    + destruct (Status_eqb (Reservations.status r) PENDING) eqn:E.
      * apply Status_eqb_eq in E. rewrite E in Hst. now elim Hst.
      * simpl. unfold same_tables. auto.
    + unfold same_tables. auto.
  - intros r Hin Hid Hpending. subst rid.
    destruct (reserve_cancel_of_pending c reason st r Hnd Hin Hpending)
      as (Hfst & Hinv & Hres).
    fold run in Hfst, Hinv, Hres.
    assert (Hrow : reservation_of (reservations (snd run)) (Reservations.reserve_id r)
                   = Some (set_cancelled c reason r)).
    { rewrite Hres, reservation_of_update by reflexivity.
      rewrite (reservation_of_unique _ _ Hnd Hin). simpl.
      now rewrite String.eqb_refl. }
    split; [exact Hfst|].
    split; [rewrite status_of_reservation_of, Hrow; reflexivity|].
    split; [exists (set_cancelled c reason r); repeat split; exact Hrow|].
    split; [|split; [|split; [|split]]].
    + intros rid' Hne. rewrite Hres, reservation_of_update by reflexivity.
      destruct (reservation_of (reservations st) rid') as [x|] eqn:E;
        [|reflexivity].
      simpl. apply reservation_of_In in E. destruct E as [_ <-].
      destruct (String.eqb_spec (Reservations.reserve_id x)
                  (Reservations.reserve_id r)); [contradiction | reflexivity].
    + rewrite Hinv. apply update_where_keys.
    + intros l loc Q Hl Hloc HQ.
      rewrite Hinv, ledger_quantity_add_null, HQ, Hl, Hloc. simpl.
      now rewrite !String.eqb_refl.
    + intros s' l' loc' Hne. rewrite Hinv, ledger_quantity_add_null.
      destruct (String.eqb s' (Reservations.sku r)
                && sql_eq_null (Some l') (Reservations.reserved_lot r)
                && sql_eq_null (Some loc') (Reservations.reserved_location r))
        eqn:E; [|now destruct (ledger_quantity (inventory st) s' l' loc')].
      exfalso. apply Hne.
      apply andb_true_iff in E. destruct E as [E Eloc].
      apply andb_true_iff in E. destruct E as [Es El].
      apply String.eqb_eq in Es.
      destruct (Reservations.reserved_lot r) as [l0|]; [|discriminate El].
      destruct (Reservations.reserved_location r) as [loc0|];
        [|discriminate Eloc].
      simpl in El, Eloc. apply String.eqb_eq in El, Eloc. now subst.
    + intros Hnull. rewrite Hinv. apply update_where_nowhere.
      intros x _. unfold inv_key_matches.
      destruct Hnull as [-> | ->].
      * now rewrite andb_false_r.
      * apply andb_false_r.
Qed.

Lemma cancel_only_from_pending_witness :
  (let run := Bot2.process_reserve_cancel "RES-1" "changed mind" clerk2
                warehouse_with_hold in
   fst run = done ("X", 8)
   /\ status_of (reservations (snd run)) "RES-1" = Some CANCELLED
   /\ ledger_quantity (inventory (snd run)) "X" "A" "L1" = Some (0 + 8))
  /\ (let run := Bot2.process_reserve_cancel "RES-9" "changed mind" clerk2
                   warehouse_with_hold in
      fst run = failed ReservationNotFound
      /\ same_tables (snd run) warehouse_with_hold).
Proof.
  assert (Hnd : NoDup (map Reservations.reserve_id (reservations warehouse_with_hold)))
    by (repeat constructor; simpl; intuition discriminate).
  assert (Hin : In held (reservations warehouse_with_hold)) by (simpl; auto).
  split.
  - destruct (proj2 (cancel_only_from_pending clerk2 "RES-1" "changed mind"
                       warehouse_with_hold Hnd) held Hin eq_refl eq_refl)
      as (H1 & H2 & _ & _ & _ & H6 & _).
    split; [exact H1|]. split; [exact H2|].
    exact (H6 "A" "L1" 0 eq_refl eq_refl eq_refl).
  - apply (proj1 (cancel_only_from_pending clerk2 "RES-9" "changed mind"
                    warehouse_with_hold Hnd)).
    vm_compute. discriminate.
Defined.

(** C6.  The claim fails on a PENDING reservation that holds no lot.
    /reserve of 3 pieces of a SKU without stock takes nothing from the
    ledger and still records a PENDING reservation of 3 with no lot and no
    location; /reserve_cancel of that reservation succeeds, reports 3
    pieces as returned and sets the status to CANCELLED, but no ledger
    record gains anything: the ledger is exactly as it was and the SKU's
    total is still 0, not 3. *)
Theorem cancel_of_lotless_reservation_reinstates_nothing :
  let reserved := Bot2.process_reserve_item decimal_int "Y" "3" clerk "RES-2"
                    warehouse in
  let run := Bot2.process_reserve_cancel "RES-2" "changed mind" clerk2
               (snd reserved) in
  inventory (snd reserved) = inventory warehouse
  /\ option_map
       (fun r => (Reservations.status r, Reservations.quantity r,
                  Reservations.reserved_lot r, Reservations.reserved_location r))
       (reservation_of (reservations (snd reserved)) "RES-2")
     = Some (PENDING, 3, None, None)
  /\ fst run = done ("Y", 3)
  /\ status_of (reservations (snd run)) "RES-2" = Some CANCELLED
  /\ inventory (snd run) = inventory warehouse
  /\ sku_total "Y" (inventory (snd run)) = 0
  /\ sku_total "Y" (inventory (snd run))
     <> sku_total "Y" (inventory (snd reserved)) + 3.
Proof.
  vm_compute. repeat split. discriminate.
Qed.

(** ** The reservation life cycle *)

Lemma status_of_update f rid rid' rs :
  (forall r, Reservations.reserve_id (f r) = Reservations.reserve_id r) ->
  rid' <> rid ->
  status_of
    (map (fun r => if String.eqb (Reservations.reserve_id r) rid then f r else r) rs)
    rid'
  = status_of rs rid'.
Proof.
  intros Hf Hne. rewrite !status_of_reservation_of, reservation_of_update by exact Hf.
  destruct (reservation_of rs rid') as [x|] eqn:E; [|reflexivity].
  simpl. apply reservation_of_In in E. destruct E as [_ <-].
  destruct (String.eqb_spec (Reservations.reserve_id x) rid);
    [contradiction | reflexivity].
Qed.

(** Pick and cancel respect terminal states: with unique ids, whatever the
    arguments, a reservation that is not PENDING keeps its status. *)
Lemma pick_and_cancel_keep_terminal
  (py_int : string -> option Z) (c : Caller) (s q loc l rid reason rid0 : string)
  (st : State) (t : Status) :
  NoDup (map Reservations.reserve_id (reservations st)) ->
  status_of (reservations st) rid0 = Some t -> t <> PENDING ->
  status_of (reservations
               (snd (Bot2.process_reserve_pick py_int s q loc l rid c st))) rid0
  = Some t
  /\ status_of (reservations
                  (snd (Bot2.process_reserve_cancel rid reason c st))) rid0
     = Some t.
Proof.
  intros Hnd Ht Hterm. split.
  - unfold Bot2.process_reserve_pick. rewrite !bind_eq. simpl.
    unfold Bot2.reserve_pick_try.
    destruct (py_int q) as [qty|]; [|exact Ht].
    destruct (qty <=? 0); [exact Ht|].
    rewrite !bind_eq. rewrite check_reserve_query_eq by exact Hnd. simpl.
    destruct (reservation_of (reservations st) rid) as [r|] eqn:E; [|exact Ht].
    destruct (_ && _) eqn:Ec; [|exact Ht].
    destruct (Reservations.quantity r <? qty); [exact Ht|]. simpl.
    rewrite status_of_update; [exact Ht | reflexivity |].
    intros ->. rewrite status_of_reservation_of, E in Ht. simpl in Ht.
    apply andb_true_iff in Ec. destruct Ec as [_ Ec].
    apply Status_eqb_eq in Ec. congruence.
  - unfold Bot2.process_reserve_cancel. rewrite !bind_eq. simpl.
    unfold Bot2.reserve_cancel_try. rewrite !bind_eq.
    rewrite get_reserve_details_query_eq by exact Hnd. simpl.
    destruct (reservation_of (reservations st) rid) as [r|] eqn:E; [|exact Ht].
    destruct (Status_eqb (Reservations.status r) PENDING) eqn:Ec; [|exact Ht].
    simpl. rewrite ?bind_eq. simpl.
    rewrite status_of_update; [exact Ht | reflexivity |].
    intros ->. rewrite status_of_reservation_of, E in Ht. simpl in Ht.
    apply Status_eqb_eq in Ec. congruence.
Qed.

(** Return does not: it looks the reservation up without any condition on
    the status, adds the given quantity to the ledger record, and stamps
    the reservation RETURNED, whatever it was. *)
Lemma return_ignores_status
  (py_int : string -> option Z) (c : Caller) (q l loc reason : string)
  (qty Q : Z) (st : State) (r : Reservations.row) :
  py_int q = Some qty -> 0 < qty ->
  NoDup (map Reservations.reserve_id (reservations st)) ->
  In r (reservations st) ->
  Reservations.reserved_lot r = Some l ->
  Reservations.reserved_location r = Some loc ->
  ledger_quantity (inventory st) (Reservations.sku r) l loc = Some Q ->
  let run := Bot2.process_reserve_return py_int (Reservations.sku r) q loc l
               (Reservations.reserve_id r) reason c st in
  fst run = done tt
  /\ status_of (reservations (snd run)) (Reservations.reserve_id r) = Some RETURNED
  /\ ledger_quantity (inventory (snd run)) (Reservations.sku r) l loc = Some (Q + qty).
Proof.
  intros Hq Hpos Hnd Hin Hl Hloc HQ run. subst run.
  unfold Bot2.process_reserve_return. rewrite !bind_eq. simpl.
  unfold Bot2.reserve_return_try. rewrite Hq.
  destruct (Z.leb_spec qty 0); [lia|].
  rewrite !bind_eq.
  rewrite (check_reserve_query_match false _ r) by (simpl; auto; discriminate).
  simpl. rewrite ?bind_eq. simpl.
  split; [reflexivity|]. split.
  - rewrite status_of_reservation_of, reservation_of_update by reflexivity.
    rewrite (reservation_of_unique _ _ Hnd Hin). simpl.
    now rewrite String.eqb_refl.
  - rewrite ledger_quantity_add, HQ. simpl.
    unfold inv_key_is. simpl. now rewrite !String.eqb_refl.
Qed.

(** C5, on the code.  The held reservation is picked (5 of 8) and is
    PICKED; a /reserve_return with the same id, SKU, lot and location then
    succeeds, puts 5 pieces back on lot A and turns the status from PICKED
    to RETURNED; a second /reserve_return puts 5 more back. *)
Theorem return_changes_a_picked_reservation :
  let picked :=
    Bot2.process_reserve_pick decimal_int "X" "5" "L1" "A" "RES-1"
      clerk warehouse_with_hold in
  let returned :=
    Bot2.process_reserve_return decimal_int "X" "5" "L1" "A" "RES-1" "damaged"
      clerk2 (snd picked) in
  let again :=
    Bot2.process_reserve_return decimal_int "X" "5" "L1" "A" "RES-1" "damaged"
      clerk2 (snd returned) in
  status_of (reservations warehouse_with_hold) "RES-1" = Some PENDING
  /\ fst picked = done tt
  /\ status_of (reservations (snd picked)) "RES-1" = Some PICKED
  /\ ledger_quantity (inventory (snd picked)) "X" "A" "L1" = Some 0
  /\ fst returned = done tt
  /\ status_of (reservations (snd returned)) "RES-1" = Some RETURNED
  /\ ledger_quantity (inventory (snd returned)) "X" "A" "L1" = Some 5
  /\ fst again = done tt
  /\ ledger_quantity (inventory (snd again)) "X" "A" "L1" = Some 10.
Proof. vm_compute. repeat split. Qed.

(** ** Reserve, then cancel *)

Lemma find_app_last {A} (p : A -> bool) (l : list A) (y : A) :
  (forall x, In x l -> p x = false) ->
  find p (l ++ [y]) = if p y then Some y else None.
Proof.
  induction l as [|x xs IH]; simpl; intros H; [reflexivity|].
  rewrite (H x (or_introl eq_refl)). apply IH. intros z Hz. apply H. now right.
Qed.

Lemma find_key_present s l loc inv :
  In (s, l, loc) (map inv_key inv) ->
  exists x, find (inv_key_is s l loc) inv = Some x.
Proof.
  intros H. destruct (find (inv_key_is s l loc) inv) as [x|] eqn:E; [eauto|].
  exfalso. apply in_map_iff in H. destruct H as (r & Hk & Hr).
  apply (find_none _ _ E) in Hr. apply inv_key_is_spec in Hk. congruence.
Qed.

(** With unique keys, adding to the record under an existing key raises
    the SKU's total by the amount added. *)
Lemma sku_total_add s l loc qty c inv :
  NoDup (map inv_key inv) -> In (s, l, loc) (map inv_key inv) ->
  sku_total s
    (update_inventory_where (inv_key_matches s (Some l) (Some loc))
       (fun r => Inventory.quantity r + qty) c inv)
  = sku_total s inv + qty.
Proof.
  intros Hnd Hin. destruct (find_key_present _ _ _ _ Hin) as [x Hx].
  change (inv_key_matches s (Some l) (Some loc)) with (inv_key_is s l loc).
  rewrite (sku_total_update_key _ _ _ _ _ _ x Hnd Hx). lia.
Qed.

(** C8. Over a ledger with unique keys and with a fresh reservation id:
    when /reserve of a positive quantity within the available total has
    run (it then succeeds, lowering the SKU's total by that quantity),
    /reserve_cancel of the id it returned succeeds and brings the sum of
    quantity over all of the SKU's records back to what it was before the
    reservation. *)
Theorem reserve_then_cancel_restores_total
  (py_int : string -> option Z) (c c2 : Caller) (s q new_id reason : string)
  (qty : Z) (st : State) :
  py_int q = Some qty ->
  0 < qty <= total_available s (inventory st) ->
  NoDup (map inv_key (inventory st)) ->
  (forall r, In r (reservations st) -> Reservations.reserve_id r <> new_id) ->
  let reserved := Bot2.process_reserve_item py_int s q c new_id st in
  let cancelled := Bot2.process_reserve_cancel new_id reason c2 (snd reserved) in
  option_map Bot2.reservation_id
    (match fst reserved with done d => Some d | failed _ => None end) = Some new_id
  /\ sku_total s (inventory (snd reserved)) = sku_total s (inventory st) - qty
  /\ fst cancelled = done (s, qty)
  /\ sku_total s (inventory (snd cancelled)) = sku_total s (inventory st).
Proof.
  intros Hq [Hpos Hle] Hk Hfresh reserved cancelled.
  set (stock := available_oldest_first s (inventory st)).
  set (ds := allocate_walk stock qty).
  destruct (available_snapshot s (inventory st) Hk) as [Hnd Hsnap].
  fold stock in Hnd, Hsnap.
  (* the state left by /reserve *)
  assert (Hres : reservations (snd reserved)
                 = reservations st ++
                   [Reservations.mk new_id s qty (user_id c) (now c) PENDING
                      (option_map d_lot (hd_error ds))
                      (option_map d_location (hd_error ds))
                      (txn_id c) None None None None None None None None])
    by (apply (reserve_inserts_row py_int); assumption).
  assert (Hinv : inventory (snd reserved)
                 = inventory (snd (Bot2.deduct_loop c s stock qty []
                     (mkState (inventory st) (reservations st)
                        (transactions_log st
                         ++ [log_entry (txn_id c) "reserve" "PROCESSING"]))))).
  { subst reserved.
    destruct (process_reserve_item_eq py_int c s q new_id st) as (_ & -> & _).
    rewrite (reserve_item_try_eq py_int _ _ _ _ _ qty Hq Hpos). reflexivity. }
  assert (Hfst : fst reserved = done (Bot2.mkReserveDetail new_id ds)).
  { subst reserved.
    destruct (process_reserve_item_eq py_int c s q new_id st) as (-> & _ & _).
    rewrite (reserve_item_try_eq py_int _ _ _ _ _ qty Hq Hpos). reflexivity. }
  assert (Htot : sku_total s (inventory (snd reserved))
                 = sku_total s (inventory st) - qty).
  { rewrite Hinv, deduct_loop_total; simpl; auto.
    fold ds. unfold ds, stock. rewrite available_walk_sum by lia. lia. }
  assert (Hkeys : map inv_key (inventory (snd reserved)) = map inv_key (inventory st)).
  { rewrite Hinv.
    match goal with |- context [Bot2.deduct_loop ?c ?s ?l ?r ?d ?st0] =>
      destruct (deduct_loop_frame c s l r d st0) as (_ & _ & -> & _) end.
    reflexivity. }
  (* the first lot drawn from *)
  assert (Hfirst : exists r0, In r0 (inventory st) /\ Inventory.sku r0 = s
                    /\ hd_error ds
                       = Some (mkDeduction (Inventory.lot r0) (Inventory.location r0)
                                 (Z.min qty (Inventory.quantity r0)))).
  { pose proof (available_sum s (inventory st)) as Hsum. fold stock in Hsum.
    unfold ds. destruct stock as [|r0 rest] eqn:E.
    - simpl in Hsum. lia.
    - assert (Hr0 : In r0 (available_oldest_first s (inventory st)))
        by (fold stock; rewrite E; now left).
      apply available_In in Hr0. destruct Hr0 as (Hin & Hs & _).
      exists r0. simpl. destruct (Z.leb_spec qty 0); [lia|]. auto. }
  destruct Hfirst as (r0 & Hin0 & Hs0 & Hhd).
  rewrite Hhd in Hres. simpl in Hres.
  split; [now rewrite Hfst|]. split; [exact Htot|].
  (* /reserve_cancel *)
  subst cancelled.
  unfold Bot2.process_reserve_cancel. rewrite !bind_eq. simpl.
  unfold Bot2.reserve_cancel_try. rewrite !bind_eq.
  unfold get_reserve_details_query at 1 2 3. simpl. rewrite Hres.
  rewrite find_app_last.
  2:{ intros x Hx. destruct (String.eqb_spec (Reservations.reserve_id x) new_id);
        [now elim (Hfresh x Hx) | reflexivity]. }
  simpl. rewrite String.eqb_refl. simpl.
  rewrite ?bind_eq. simpl.
  split; [reflexivity|].
  rewrite sku_total_add.
  - lia.
  - now rewrite Hkeys.
  - rewrite Hkeys. rewrite <- Hs0.
    change (In (inv_key r0) (map inv_key (inventory st))). now apply in_map.
Qed.

Lemma reserve_then_cancel_restores_total_witness :
  let reserved := Bot2.process_reserve_item decimal_int "X" "8" clerk "RES-1"
                    warehouse in
  let cancelled := Bot2.process_reserve_cancel "RES-1" "changed mind" clerk2
                     (snd reserved) in
  option_map Bot2.reservation_id
    (match fst reserved with done d => Some d | failed _ => None end) = Some "RES-1"
  /\ sku_total "X" (inventory (snd reserved))
     = sku_total "X" (inventory warehouse) - 8
  /\ fst cancelled = done ("X", 8)
  /\ sku_total "X" (inventory (snd cancelled)) = sku_total "X" (inventory warehouse).
Proof.
  apply (reserve_then_cancel_restores_total decimal_int clerk clerk2
           "X" "8" "RES-1" "changed mind" 8 warehouse).
  - reflexivity.
  - split; [reflexivity | vm_compute; discriminate].
  - repeat constructor; simpl; intuition discriminate.
  - simpl. intros r [].
Defined.

(** ** /reserve_CK *)

(** Called directly, [process_reserve_ck] lists exactly the PENDING
    reservations (of the given SKU, when the filter is a non-empty
    string), by ascending reservation date, and changes neither table. *)
Lemma process_reserve_ck_lists_pending (sku_filter : option string)
  (c : Caller) (st : State) :
  let run := Bot2.process_reserve_ck sku_filter c st in
  let wanted (r : Reservations.row) :=
    Status_eqb (Reservations.status r) PENDING
    && match sku_filter with
       | Some s => if Bot2.truthy sku_filter then String.eqb (Reservations.sku r) s
                   else true
       | None => true
       end in
  same_tables (snd run) st
  /\ StronglySorted (key_le Reservations.reservation_date) (Bot2.listed (fst run))
  /\ Permutation (Bot2.listed (fst run)) (filter wanted (reservations st))
  /\ (forall r, In r (Bot2.listed (fst run)) <->
                In r (reservations st) /\ wanted r = true).
Proof.
  intros run wanted.
  assert (E : Bot2.listed (fst run)
              = order_by Reservations.reservation_date
                  (filter wanted (reservations st))).
  { subst run wanted. unfold Bot2.process_reserve_ck. rewrite !bind_eq. simpl.
    unfold reserve_ck_query. simpl.
    assert (Ef : forall l,
      filter (fun r => Status_eqb (Reservations.status r) PENDING
                       && match (if Bot2.truthy sku_filter then sku_filter else None) with
                          | Some s => String.eqb (Reservations.sku r) s
                          | None => true
                          end) l
      = filter (fun r => Status_eqb (Reservations.status r) PENDING
                         && match sku_filter with
                            | Some s => if Bot2.truthy sku_filter
                                        then String.eqb (Reservations.sku r) s
                                        else true
                            | None => true
                            end) l).
    { intros l. apply filter_ext. intros r.
      destruct sku_filter as [[|a s]|]; reflexivity. }
    rewrite Ef.
    destruct (order_by _ _) as [|x xs]; rewrite ?bind_eq; reflexivity. }
  split.
  - clear E. subst run. unfold Bot2.process_reserve_ck. rewrite !bind_eq. simpl.
    unfold reserve_ck_query. simpl.
    match goal with |- context [order_by ?k ?l] => destruct (order_by k l) end;
      split; reflexivity.
  - rewrite E. split; [apply order_by_sorted|].
    split; [apply order_by_perm|].
    intros r. rewrite order_by_In, filter_In. tauto.
Qed.

(** C9, on the code.  The handler evaluates [args[0]] whenever
    [context.args] is not empty, and [args] is bound nowhere: any
    /reserve_ck command that carries a SKU ends in [NameError] before
    [process_reserve_ck] is called.  In the warehouse with the held
    reservation, the function called directly with the filter lists the
    reservation, and so does the command without a filter, but the command
    with the filter raises. *)
Theorem reserve_ck_with_filter_raises :
  (forall (st : State) (c : Caller) (a : string) (rest : list string),
     Bot2.handle_reserve_ck_command true (a :: rest) c st
     = (inl (Bot2.NameError "args"), st))
  /\ fst (Bot2.process_reserve_ck (Some "X") clerk warehouse_with_hold)
     = Bot2.ck_items [held]
  /\ fst (Bot2.handle_reserve_ck_command true [] clerk warehouse_with_hold)
     = inr (Bot2.reply_result (Bot2.ck_items [held]))
  /\ fst (Bot2.handle_reserve_ck_command true ["X"] clerk warehouse_with_hold)
     = inl (Bot2.NameError "args").
Proof.
  split; [reflexivity|]. vm_compute. repeat split.
Qed.

(** What /reserve writes to the transaction log: SUCCESS exactly when the
    quantity is positive and within the available total. *)
Lemma reserve_log_status py_int c s q new_id st qty :
  py_int q = Some qty ->
  transactions_log (snd (Bot2.process_reserve_item py_int s q c new_id st))
  = transactions_log st
    ++ [log_entry (txn_id c) "reserve" "PROCESSING";
        log_status_update (txn_id c)
          (if (0 <? qty) && (qty <=? total_available s (inventory st))
           then "SUCCESS" else "FAILED")].
Proof.
  intros Hq. unfold Bot2.process_reserve_item. rewrite !bind_eq. simpl.
  destruct (Z.ltb_spec 0 qty) as [Hpos|Hle]; simpl.
  - rewrite (reserve_item_try_eq py_int _ _ _ _ _ qty Hq Hpos). simpl.
    match goal with |- context [Bot2.deduct_loop ?c ?s ?l ?r ?d ?st0] =>
      destruct (deduct_loop_frame c s l r d st0) as (_ & -> & _) end.
    simpl. rewrite <- app_assoc. simpl. do 3 f_equal.
    pose proof (available_sum s (inventory st)) as Hsum.
    destruct (Z.ltb_spec (total_available s (inventory st)) qty);
      destruct (Z.leb_spec qty (total_available s (inventory st)));
      try lia; try reflexivity.
    destruct (available_oldest_first s (inventory st)); [|reflexivity].
    simpl in Hsum. lia.
  - unfold Bot2.reserve_item_try. rewrite Hq.
    destruct (Z.leb_spec qty 0); [|lia]. simpl.
    now rewrite <- app_assoc.
Qed.

(** ** The scenarios of the specification, run on the model *)

(** Lot A (2025-01-01, 5) and lot B (2025-02-01, 10): taking 8 of X takes
    5 from A and 3 from B, leaving A at 0 and B at 7. *)
Example scenario_allocate_8 :
  let run := Bot2.process_outbound_items decimal_int ["X"] ["8"] ["sold"]
               clerk warehouse in
  only_line_deductions (fst run)
  = [mkDeduction "A" "L1" 5; mkDeduction "B" "L2" 3]
  /\ ledger_quantity (inventory (snd run)) "X" "A" "L1" = Some 0
  /\ ledger_quantity (inventory (snd run)) "X" "B" "L2" = Some 7.
Proof. vm_compute. repeat split. Qed.

(** Taking 100 against 15 available fails and leaves both lots unchanged
    (on the /out path). *)
Example scenario_allocate_100 :
  let run := Bot2.process_outbound_items decimal_int ["X"] ["100"] ["sold"]
               clerk warehouse in
  fst run = [("X", failed (InsufficientStock 15 100))]
  /\ inventory (snd run) = inventory warehouse.
Proof. vm_compute. repeat split. Qed.

(** Reserving 8 and then picking 5 from lot A succeeds; picking 20
    instead fails as an over-pick. *)
Example scenario_reserve_then_pick :
  let reserved := Bot2.process_reserve_item decimal_int "X" "8" clerk "RES-1"
                    warehouse in
  fst (Bot2.process_reserve_pick decimal_int "X" "5" "L1" "A" "RES-1" clerk2
         (snd reserved)) = done tt
  /\ fst (Bot2.process_reserve_pick decimal_int "X" "20" "L1" "A" "RES-1" clerk2
            (snd reserved)) = failed (OverPick 20 8).
Proof. vm_compute. repeat split. Qed.

(** A multi-item /out: the failure of the first item does not stop the
    second, and an item left by [continue] does not reach the failure
    bookkeeping, so the log records SUCCESS. *)
Example scenario_two_items :
  let run := Bot2.process_outbound_items decimal_int
               ["X"; "X"] ["100"; "8"] ["sold"; "sold"] clerk warehouse in
  map (fun line => is_done (snd line)) (fst run) = [false; true]
  /\ sku_total "X" (inventory (snd run)) = 7
  /\ transactions_log (snd run)
     = [log_entry "TXN-1" "out" "PROCESSING";
        log_status_update "TXN-1" "SUCCESS"].
Proof. vm_compute. repeat split. Qed.

(** * More of the code *)

(** ** utils: cutting a command into items *)

Lemma firstn_plus {A} (n m : nat) (l : list A) :
  firstn (n + m) l = firstn n l ++ firstn m (skipn n l).
Proof.
  revert l. induction n as [|n IH]; intros l; simpl; [reflexivity|].
  destruct l as [|x xs]; simpl.
  - now rewrite firstn_nil.
  - now rewrite IH.
Qed.

(** With enough fuel the loop returns whole items only, which together
    are the longest prefix of the parts that whole items can cover. *)
Lemma chunk_loop_prefix (fuel n : nat) (parts : list string) :
  (0 < n)%nat -> (List.length parts <= fuel)%nat ->
  let items := Utils.chunk_loop fuel n parts in
  Forall (fun item => List.length item = n) items
  /\ List.concat items = firstn (n * (List.length parts / n)) parts
  /\ List.length items = (List.length parts / n)%nat.
Proof.
  intros Hn. revert parts.
  induction fuel as [|fuel IH]; intros parts Hfuel; simpl.
  - destruct parts; [|simpl in Hfuel; lia]. simpl.
    rewrite Nat.Div0.div_0_l. rewrite Nat.mul_0_r. repeat split. constructor.
  - destruct parts as [|p ps] eqn:E.
    + simpl. rewrite Nat.Div0.div_0_l. rewrite Nat.mul_0_r.
      repeat split. constructor.
    + rewrite <- E in *. assert (Hlen : (0 < List.length parts)%nat)
        by (rewrite E; simpl; lia).
      rewrite length_firstn.
      destruct (Nat.eqb_spec (Nat.min n (List.length parts)) n) as [Hmin|Hmin].
      * assert (Hge : (n <= List.length parts)%nat) by lia.
        specialize (IH (skipn n parts)).
        rewrite length_skipn in IH. specialize (IH ltac:(lia)).
        destruct IH as (Hall & Hcat & Hcount).
        assert (Hdiv : (List.length parts / n
                        = S ((List.length parts - n) / n))%nat).
        { replace (List.length parts) with ((List.length parts - n) + 1 * n)%nat
            at 1 by lia.
          rewrite Nat.div_add by lia. lia. }
        split; [|split].
        -- constructor; [rewrite length_firstn; lia | exact Hall].
        -- simpl. rewrite Hcat, Hdiv.
           replace (n * S ((List.length parts - n) / n))%nat
             with (n + n * ((List.length parts - n) / n))%nat by lia.
           now rewrite firstn_plus.
        -- simpl. rewrite Hcount, Hdiv. reflexivity.
      * assert (Hlt : (List.length parts < n)%nat) by lia.
        rewrite Nat.div_small by exact Hlt. rewrite Nat.mul_0_r. simpl.
        repeat split. constructor.
Qed.

Lemma chunks_of_split
  (str_split : string -> list string) (text : string) (n : nat) :
  (0 < n)%nat ->
  exists items,
    Utils.parse_multi_param_command str_split text n = Some items
    /\ Forall (fun item => List.length item = n) items
    /\ List.concat items
       = firstn (n * (List.length (str_split text) / n)) (str_split text)
    /\ List.length items = (List.length (str_split text) / n)%nat.
Proof.
  intros Hn. unfold Utils.parse_multi_param_command.
  destruct (str_split text) as [|p ps] eqn:E.
  - exists []. simpl. rewrite Nat.Div0.div_0_l. rewrite Nat.mul_0_r.
    repeat split. constructor.
  - destruct (Nat.eqb_spec n 0) as [->|_]; [lia|].
    eexists. split; [reflexivity|].
    apply chunk_loop_prefix; [exact Hn | apply Nat.le_refl].
Qed.

(** X1. With a positive number of parameters per item,
    [parse_multi_param_command] always returns a list: it cuts the words
    of the text, in order, into items of exactly that many words, keeps
    as many complete items as the words allow and drops the incomplete
    rest without reporting it. *)
Theorem parse_keeps_whole_items
  (str_split : string -> list string) (text : string) (n : nat) :
  (0 < n)%nat ->
  exists items,
    Utils.parse_multi_param_command str_split text n = Some items
    /\ Forall (fun item => List.length item = n) items
    /\ List.concat items
       = firstn (n * (List.length (str_split text) / n)) (str_split text)
    /\ List.length items = (List.length (str_split text) / n)%nat.
Proof. exact (chunks_of_split str_split text n). Qed.

Lemma parse_keeps_whole_items_witness :
  exists items,
    Utils.parse_multi_param_command blank_split "X 8 sold Y 2" 3 = Some items
    /\ Forall (fun item => List.length item = 3%nat) items
    /\ List.concat items
       = firstn (3 * (List.length (blank_split "X 8 sold Y 2") / 3))
           (blank_split "X 8 sold Y 2")
    /\ List.length items = (List.length (blank_split "X 8 sold Y 2") / 3)%nat.
Proof.
  apply (parse_keeps_whole_items blank_split "X 8 sold Y 2" 3). lia.
Defined.

(** With enough fuel, the loop gives back the items that were laid end
    to end. *)
Lemma chunk_loop_concat (fuel n : nat) (items : list (list string)) :
  (0 < n)%nat ->
  Forall (fun item => List.length item = n) items ->
  (List.length (List.concat items) <= fuel)%nat ->
  Utils.chunk_loop fuel n (List.concat items) = items.
Proof.
  intros Hn Hall. revert fuel.
  induction Hall as [|item rest Hitem Hrest IH]; intros fuel Hfuel.
  - destruct fuel; reflexivity.
  - simpl in *. rewrite length_app in Hfuel.
    destruct fuel as [|fuel]; [lia|]. simpl.
    destruct (item ++ List.concat rest) as [|p ps] eqn:E.
    + apply (f_equal (@List.length string)) in E.
      rewrite length_app in E. simpl in E. lia.
    + rewrite <- E.
      assert (Hf : firstn n (item ++ List.concat rest) = item).
      { subst n. rewrite firstn_app, Nat.sub_diag, firstn_all. simpl.
        apply app_nil_r. }
      assert (Hs : skipn n (item ++ List.concat rest) = List.concat rest).
      { subst n. rewrite skipn_app, Nat.sub_diag, skipn_all. reflexivity. }
      rewrite Hf, Hs, Hitem, Nat.eqb_refl.
      rewrite IH by lia. reflexivity.
Qed.

(** X2. Round trip of [parse_multi_param_command]: a text whose words
    are the concatenation of items of n words each is parsed back into
    exactly those items. *)
Theorem parse_of_whole_items
  (str_split : string -> list string) (text : string) (n : nat)
  (items : list (list string)) :
  (0 < n)%nat ->
  Forall (fun item => List.length item = n) items ->
  str_split text = List.concat items ->
  Utils.parse_multi_param_command str_split text n = Some items.
Proof.
  intros Hn Hall Hsplit. unfold Utils.parse_multi_param_command.
  rewrite Hsplit.
  destruct (List.concat items) as [|p ps] eqn:E.
  - destruct Hall as [|item rest Hitem _]; [reflexivity|].
    simpl in E. apply (f_equal (@List.length string)) in E.
    rewrite length_app in E. simpl in E. lia.
  - destruct (Nat.eqb_spec n 0) as [->|_]; [lia|].
    rewrite <- E. now rewrite chunk_loop_concat.
Qed.

Lemma parse_of_whole_items_witness :
  Utils.parse_multi_param_command blank_split "X 8 sold Y 2 gift" 3
  = Some [["X"; "8"; "sold"]; ["Y"; "2"; "gift"]].
Proof.
  apply (parse_of_whole_items blank_split "X 8 sold Y 2 gift" 3
           [["X"; "8"; "sold"]; ["Y"; "2"; "gift"]]).
  - lia.
  - repeat constructor.
  - reflexivity.
Defined.

(** ** bot2: the /out handler *)

Lemma after_item_results {D} (sku : string) (b : Batch D) (r : Reply D) (fl : Flow) :
  results (after_item sku b r fl) = results b ++ [(sku, r)].
Proof. destruct r, fl; reflexivity. Qed.

(** The loop of /out answers every item, in order, with one line. *)
Lemma outbound_loop_skus py_int c items b st :
  map fst (results (fst (Bot2.outbound_loop py_int c items b st)))
  = map fst (results b) ++ map fst items.
Proof.
  revert b st. induction items as [|[sku [q reason]] rest IH]; intros b st; simpl.
  - now rewrite app_nil_r.
  - rewrite bind_eq. rewrite IH, after_item_results, map_app. simpl.
    now rewrite <- app_assoc.
Qed.

Lemma outbound_loop_tables_of_nil py_int c b st :
  Bot2.outbound_loop py_int c [] b st = (b, st).
Proof. reflexivity. Qed.

Lemma process_outbound_skus py_int skus quantities reasons c st :
  map fst (fst (Bot2.process_outbound_items py_int skus quantities reasons c st))
  = map fst (combine skus (combine quantities reasons)).
Proof.
  unfold Bot2.process_outbound_items. rewrite !bind_eq. simpl.
  now rewrite outbound_loop_skus.
Qed.

Lemma map_fst_combine3 {A} (f g h : A -> string) (l : list A) :
  map fst (combine (map f l) (combine (map g l) (map h l))) = map f l.
Proof. induction l as [|x xs IH]; simpl; [reflexivity | now rewrite IH]. Qed.

Lemma success_count_le {D} (lines : list (string * Reply D)) :
  (Bot2.success_count lines <= List.length lines)%nat.
Proof. unfold Bot2.success_count. apply filter_length_le. Qed.

(** X3. Reply of /out, for arguments that contain no blanks: a caller
    who is not allowed, or fewer than three arguments, gets the refusal or
    the format message and the tables stay as they were; otherwise the
    reply has one line per complete triple of arguments, in order, each
    under its SKU, trailing arguments that do not fill a triple are
    ignored, and the summary with total, success and failure counts is
    present exactly when there is more than one line. *)
Theorem out_command_lines
  (py_int : string -> option Z) (str_split : string -> list string)
  (allowed : bool) (args : list string) (c : Caller) (st : State) :
  str_split (String.concat " " args) = args ->
  let run := Bot2.handle_out_command py_int str_split allowed args c st in
  (allowed = false ->
   fst run = inr Bot2.out_unauthorized /\ same_tables (snd run) st)
  /\ (allowed = true -> (List.length args < 3)%nat ->
      fst run = inr Bot2.out_invalid_format /\ same_tables (snd run) st)
  /\ (allowed = true -> (3 <= List.length args)%nat ->
      exists items summary lines,
        Utils.parse_multi_param_command str_split (String.concat " " args) 3
        = Some items
        /\ fst run = inr (Bot2.out_results summary lines)
        /\ map fst lines = map (fun item => nth 0 item "") items
        /\ List.length lines = (List.length args / 3)%nat
        /\ summary
           = if Nat.ltb 1 (List.length lines)
             then Some (List.length lines, Bot2.success_count lines,
                        (List.length lines - Bot2.success_count lines)%nat)
             else None).
Proof.
  intros Hsplit run. subst run. unfold Bot2.handle_out_command.
  destruct (chunks_of_split str_split (String.concat " " args) 3
              ltac:(lia)) as (items & Hparse & Hall & Hcat & Hcount).
  rewrite Hsplit in Hcat, Hcount.
  split; [|split].
  - intros ->. simpl. rewrite ?bind_eq. simpl. unfold same_tables. auto.
  - intros -> Hshort. simpl. rewrite Hparse.
    rewrite Nat.div_small in Hcount by exact Hshort.
    destruct items; [|discriminate].
    rewrite ?bind_eq. simpl. unfold same_tables. auto.
  - intros -> Hlong. simpl. rewrite Hparse.
    assert (Hpos : (0 < List.length args / 3)%nat)
      by (apply Nat.div_str_pos; lia).
    rewrite <- Hcount in Hpos.
    destruct items as [|item rest] eqn:E; [simpl in Hpos; lia|].
    rewrite <- E in *. rewrite bind_eq. unfold ret. simpl.
    exists items. eexists. eexists.
    split; [reflexivity|]. split; [reflexivity|].
    assert (Hskus : map fst
                      (fst (Bot2.process_outbound_items py_int
                              (map (fun item => nth 0 item "") items)
                              (map (fun item => nth 1 item "") items)
                              (map (fun item => nth 2 item "") items) c st))
                    = map (fun item => nth 0 item "") items)
      by (rewrite process_outbound_skus; apply map_fst_combine3).
    split; [exact Hskus|]. split; [|reflexivity].
    apply (f_equal (@List.length string)) in Hskus.
    rewrite !length_map in Hskus. now rewrite Hskus.
Qed.

Lemma out_command_lines_witness :
  let run := Bot2.handle_out_command decimal_int blank_split true
               ["X"; "8"; "sold"; "X"; "2"] clerk warehouse in
  exists items summary lines,
    Utils.parse_multi_param_command blank_split
      (String.concat " " ["X"; "8"; "sold"; "X"; "2"]) 3 = Some items
    /\ fst run = inr (Bot2.out_results summary lines)
    /\ map fst lines = map (fun item => nth 0 item "") items
    /\ List.length lines = (List.length ["X"; "8"; "sold"; "X"; "2"] / 3)%nat
    /\ summary
       = if Nat.ltb 1 (List.length lines)
         then Some (List.length lines, Bot2.success_count lines,
                    (List.length lines - Bot2.success_count lines)%nat)
         else None.
Proof.
  apply (proj2 (proj2 (out_command_lines decimal_int blank_split true
                         ["X"; "8"; "sold"; "X"; "2"] clerk warehouse eq_refl))).
  - reflexivity.
  - simpl; lia.
Defined.

(** ** bot2: a whole /out command and the ledger *)

Lemma sku_total_update_other s s' l loc new c inv :
  s' <> s ->
  sku_total s' (update_inventory_where (inv_key_is s l loc) new c inv)
  = sku_total s' inv.
Proof.
  intros Hne. unfold sku_total.
  induction inv as [|x xs IH]; simpl; [reflexivity|].
  destruct (inv_key_is s l loc x) eqn:E; simpl.
  - apply inv_key_is_spec in E. injection E as Es _ _.
    destruct (String.eqb_spec (Inventory.sku x) s'); [congruence | exact IH].
  - destruct (String.eqb (Inventory.sku x) s'); simpl; now rewrite IH.
Qed.

Lemma deduct_loop_total_other c s stock rem details st s' :
  s' <> s ->
  sku_total s' (inventory (snd (Bot2.deduct_loop c s stock rem details st)))
  = sku_total s' (inventory st).
Proof.
  intros Hne. revert rem details st.
  induction stock as [|r rest IH]; simpl; intros rem details st; [reflexivity|].
  destruct (rem <=? 0); simpl; [reflexivity|].
  unfold bind. simpl. rewrite IH. simpl.
  now apply sku_total_update_other.
Qed.

Lemma reported_deducted_app s l1 l2 :
  reported_deducted s (l1 ++ l2) = reported_deducted s l1 + reported_deducted s l2.
Proof.
  unfold reported_deducted.
  induction l1 as [|x xs IH]; simpl; [reflexivity | rewrite IH; lia].
Qed.

(** One /out item: the keys stay unique, and what the line reports as
    taken is what left the ledger, for the item's SKU and for any other. *)
Lemma outbound_item_conserves py_int c sku q reason st :
  keys_unique st ->
  let o := Bot2.outbound_item py_int c sku q reason st in
  keys_unique (snd o)
  /\ reservations (snd o) = reservations st
  /\ forall s,
       sku_total s (inventory (snd o))
       + (if String.eqb sku s
          then sum_deductions (outbound_deductions (fst (fst o))) else 0)
       = sku_total s (inventory st).
Proof.
  intros Hk o. subst o.
  assert (Hsame : forall f fl,
            keys_unique (snd (@pair (Reply Bot2.OutboundDetail * Flow) _
                                (failed f, fl) st))
            /\ reservations st = reservations st
            /\ forall s, sku_total s (inventory st)
                         + (if String.eqb sku s then 0 else 0)
                         = sku_total s (inventory st)).
  { intros f fl. split; [exact Hk|]. split; [reflexivity|].
    intros s. destruct (String.eqb sku s); lia. }
  destruct (py_int q) as [qty|] eqn:Hq.
  - rewrite (outbound_item_eq py_int _ _ _ _ _ qty Hq).
    destruct (qty <=? 0); [apply Hsame|].
    destruct (available_oldest_first sku (inventory st)) as [|r0 rest] eqn:E;
      [apply Hsame|].
    destruct (total_available sku (inventory st) <? qty); [apply Hsame|].
    rewrite <- E. simpl.
    destruct (available_snapshot sku (inventory st) Hk) as [Hnd Hsnap].
    match goal with |- context [Bot2.deduct_loop ?c ?s ?l ?r ?d ?st0] =>
      destruct (deduct_loop_frame c s l r d st0) as (Hres & _ & Hkeys & _) end.
    split; [unfold keys_unique; now rewrite Hkeys|]. split; [exact Hres|].
    intros s. destruct (String.eqb_spec sku s) as [<-|Hne].
    + rewrite deduct_loop_total by assumption. lia.
    + rewrite deduct_loop_total_other by congruence. lia.
  - unfold Bot2.outbound_item. rewrite Hq. apply Hsame.
Qed.

Lemma outbound_loop_conserves py_int c items b st :
  keys_unique st ->
  let o := Bot2.outbound_loop py_int c items b st in
  keys_unique (snd o)
  /\ reservations (snd o) = reservations st
  /\ forall s,
       sku_total s (inventory (snd o)) + reported_deducted s (results (fst o))
       = sku_total s (inventory st) + reported_deducted s (results b).
Proof.
  revert b st. induction items as [|[sku [q reason]] rest IH]; intros b st Hk; simpl.
  - auto.
  - rewrite bind_eq.
    destruct (outbound_item_conserves py_int c sku q reason st Hk)
      as (Hk1 & Hr1 & Ht1).
    destruct (IH (after_item sku b
                    (fst (fst (Bot2.outbound_item py_int c sku q reason st)))
                    (snd (fst (Bot2.outbound_item py_int c sku q reason st))))
                 (snd (Bot2.outbound_item py_int c sku q reason st)) Hk1)
      as (Hk2 & Hr2 & Ht2).
    split; [exact Hk2|]. split; [now rewrite Hr2|].
    intros s. rewrite Ht2, after_item_results, reported_deducted_app.
    specialize (Ht1 s). unfold reported_deducted at 2. simpl.
    destruct (String.eqb sku s); lia.
Qed.

Lemma outbound_batch_accounts
  (py_int : string -> option Z) (skus quantities reasons : list string)
  (c : Caller) (st : State) :
  keys_unique st ->
  let run := Bot2.process_outbound_items py_int skus quantities reasons c st in
  keys_unique (snd run)
  /\ reservations (snd run) = reservations st
  /\ forall s,
       sku_total s (inventory (snd run))
       = sku_total s (inventory st) - reported_deducted s (fst run).
Proof.
  intros Hk run. subst run.
  unfold Bot2.process_outbound_items. rewrite !bind_eq. simpl.
  match goal with |- context [Bot2.outbound_loop py_int c ?items ?b ?st0] =>
    destruct (outbound_loop_conserves py_int c items b st0 Hk) as (Hk' & Hr & Ht)
  end.
  split; [exact Hk'|]. split; [exact Hr|].
  intros s. specialize (Ht s). simpl in Ht. lia.
Qed.

(** X4. Conservation in /out, for a batch of any length over a ledger
    with unique keys: every SKU's total quantity falls by exactly what the
    reply lines of that SKU report as deducted (nothing for a refused
    line), keys stay unique and the reservations are not touched. *)
Theorem outbound_batch_conserves
  (py_int : string -> option Z) (skus quantities reasons : list string)
  (c : Caller) (st : State) :
  keys_unique st ->
  let run := Bot2.process_outbound_items py_int skus quantities reasons c st in
  keys_unique (snd run)
  /\ reservations (snd run) = reservations st
  /\ forall s,
       sku_total s (inventory (snd run))
       = sku_total s (inventory st) - reported_deducted s (fst run).
Proof. exact (outbound_batch_accounts py_int skus quantities reasons c st). Qed.

Lemma outbound_batch_conserves_witness :
  let run := Bot2.process_outbound_items decimal_int
               ["X"; "X"; "X"] ["100"; "8"; "3"] ["a"; "b"; "c"] clerk warehouse in
  keys_unique (snd run)
  /\ reservations (snd run) = reservations warehouse
  /\ forall s,
       sku_total s (inventory (snd run))
       = sku_total s (inventory warehouse) - reported_deducted s (fst run).
Proof.
  apply (outbound_batch_conserves decimal_int
           ["X"; "X"; "X"] ["100"; "8"; "3"] ["a"; "b"; "c"] clerk warehouse).
  repeat constructor; simpl; intuition discriminate.
Defined.

(** ** bot2: /cancel_out *)

Lemma find_sku_then_key s inv r0 :
  find (fun r => String.eqb (Inventory.sku r) s) inv = Some r0 ->
  find (inv_key_is s (Inventory.lot r0) (Inventory.location r0)) inv = Some r0.
Proof.
  induction inv as [|x xs IH]; simpl; [discriminate|].
  destruct (String.eqb_spec (Inventory.sku x) s) as [Es|Hne].
  - intros [= <-]. unfold inv_key_is. rewrite Es, !String.eqb_refl. reflexivity.
  - intros H. unfold inv_key_is at 1.
    destruct (String.eqb_spec (Inventory.sku x) s); [contradiction|]. simpl.
    now apply IH.
Qed.

Lemma find_sku_none s l loc inv :
  find (fun r => String.eqb (Inventory.sku r) s) inv = None ->
  find (inv_key_is s l loc) inv = None.
Proof.
  intros H. apply find_nowhere. intros x Hx.
  apply (find_none _ _ H) in Hx. unfold inv_key_is. now rewrite Hx.
Qed.

Lemma sku_total_app s inv1 inv2 :
  sku_total s (inv1 ++ inv2) = sku_total s inv1 + sku_total s inv2.
Proof.
  unfold sku_total. rewrite filter_app.
  induction (filter _ inv1) as [|x xs IH]; simpl; [reflexivity | rewrite IH; lia].
Qed.

Lemma keys_unique_insert inv r :
  NoDup (map inv_key inv) ->
  find (inv_key_is (Inventory.sku r) (Inventory.lot r) (Inventory.location r)) inv
  = None ->
  NoDup (map inv_key (inv ++ [r])).
Proof.
  intros Hnd Hnone. rewrite map_app. simpl.
  apply NoDup_app; [exact Hnd | repeat constructor; simpl; tauto |].
  intros k Hk [<-|[]].
  apply in_map_iff in Hk. destruct Hk as (x & Ex & Hx).
  apply (find_none _ _ Hnone) in Hx. apply inv_key_is_spec in Ex. congruence.
Qed.

Lemma cancel_out_item_spec
  (py_int : string -> option Z) (s q reason : string) (c : Caller)
  (today : Z) (st : State) :
  keys_unique st ->
  let run := Bot2.process_cancel_out_item py_int s q reason c today st in
  (forall qty, py_int q = Some qty -> 0 < qty ->
     keys_unique (snd run)
     /\ reservations (snd run) = reservations st
     /\ sku_total s (inventory (snd run)) = sku_total s (inventory st) + qty
     /\ (forall s', s' <> s ->
           sku_total s' (inventory (snd run)) = sku_total s' (inventory st))
     /\ match find (fun r => String.eqb (Inventory.sku r) s) (inventory st) with
        | Some r0 =>
            fst run = done (Bot2.added_back (Inventory.location r0) (Inventory.lot r0))
            /\ map inv_key (inventory (snd run)) = map inv_key (inventory st)
            /\ ledger_quantity (inventory (snd run)) s
                 (Inventory.lot r0) (Inventory.location r0)
               = Some (Inventory.quantity r0 + qty)
        | None =>
            fst run = done (Bot2.recorded_as_new "CANCELLED_LOC" "CANCELLED_LOT")
            /\ inventory (snd run)
               = inventory st
                 ++ [Inventory.mk s "CANCELLED_LOT" "CANCELLED_LOC" qty today
                       (user_id c) None None (txn_id c)]
        end)
  /\ ((py_int q = None \/ exists qty, py_int q = Some qty /\ qty <= 0) ->
      is_done (fst run) = false /\ same_tables (snd run) st).
Proof.
  intros Hk run. subst run.
  unfold Bot2.process_cancel_out_item. rewrite !bind_eq. simpl.
  unfold Bot2.cancel_out_try. split.
  - intros qty Hq Hpos. rewrite Hq.
    destruct (Z.leb_spec qty 0); [lia|].
    rewrite !bind_eq. unfold check_sku_query, check_query. simpl.
    destruct (find (fun r => String.eqb (Inventory.sku r) s) (inventory st))
      as [r0|] eqn:Hfirst; simpl.
    + rewrite (find_sku_then_key _ _ _ Hfirst). simpl.
      rewrite ?bind_eq. simpl.
      split; [unfold keys_unique; simpl; now rewrite update_where_keys|].
      split; [reflexivity|].
      split; [rewrite (sku_total_update_key _ _ _ _ _ _ r0 Hk
                         (find_sku_then_key _ _ _ Hfirst)); lia|].
      split; [intros s' Hne; now apply sku_total_update_other|].
      split; [reflexivity|]. split; [apply update_where_keys|].
      apply (ledger_quantity_set_same _ _ _ _ _ _ (Inventory.quantity r0)).
      unfold ledger_quantity. now rewrite (find_sku_then_key _ _ _ Hfirst).
    + rewrite (find_sku_none _ _ _ _ Hfirst). simpl.
      rewrite ?bind_eq. simpl.
      split.
      { unfold keys_unique. simpl. apply keys_unique_insert; [exact Hk|].
        simpl. now apply find_sku_none. }
      split; [reflexivity|].
      split.
      { rewrite sku_total_app. unfold sku_total at 2. simpl.
        rewrite String.eqb_refl. simpl. lia. }
      split; [|split; reflexivity].
      intros s' Hne. rewrite sku_total_app. unfold sku_total at 2. simpl.
      destruct (String.eqb_spec s s'); [congruence|]. simpl. lia.
  - intros [Hq|(qty & Hq & Hle)]; rewrite Hq.
    + simpl. unfold same_tables. auto.
    + destruct (Z.leb_spec qty 0); [|lia]. simpl. unfold same_tables. auto.
Qed.

(** X5. Effect of /cancel_out on a ledger with unique keys.  With a
    positive quantity the SKU's total grows by it, other SKUs keep their
    totals and the reservations are untouched; the quantity goes to the
    first record of the SKU in table order, whatever lot the goods had
    left, and when the SKU has no record a new one is created under lot
    CANCELLED_LOT at location CANCELLED_LOC with today's date.  With a
    quantity that is not an integer or not positive the command fails and
    both tables are unchanged. *)
Theorem cancel_out_effect
  (py_int : string -> option Z) (s q reason : string) (c : Caller)
  (today : Z) (st : State) :
  keys_unique st ->
  let run := Bot2.process_cancel_out_item py_int s q reason c today st in
  (forall qty, py_int q = Some qty -> 0 < qty ->
     keys_unique (snd run)
     /\ reservations (snd run) = reservations st
     /\ sku_total s (inventory (snd run)) = sku_total s (inventory st) + qty
     /\ (forall s', s' <> s ->
           sku_total s' (inventory (snd run)) = sku_total s' (inventory st))
     /\ match find (fun r => String.eqb (Inventory.sku r) s) (inventory st) with
        | Some r0 =>
            fst run = done (Bot2.added_back (Inventory.location r0) (Inventory.lot r0))
            /\ map inv_key (inventory (snd run)) = map inv_key (inventory st)
            /\ ledger_quantity (inventory (snd run)) s
                 (Inventory.lot r0) (Inventory.location r0)
               = Some (Inventory.quantity r0 + qty)
        | None =>
            fst run = done (Bot2.recorded_as_new "CANCELLED_LOC" "CANCELLED_LOT")
            /\ inventory (snd run)
               = inventory st
                 ++ [Inventory.mk s "CANCELLED_LOT" "CANCELLED_LOC" qty today
                       (user_id c) None None (txn_id c)]
        end)
  /\ ((py_int q = None \/ exists qty, py_int q = Some qty /\ qty <= 0) ->
      is_done (fst run) = false /\ same_tables (snd run) st).
Proof. exact (cancel_out_item_spec py_int s q reason c today st). Qed.

Lemma cancel_out_effect_witness :
  let run := Bot2.process_cancel_out_item decimal_int "X" "4" "mistake" clerk
               20250701 warehouse in
  keys_unique (snd run)
  /\ sku_total "X" (inventory (snd run)) = sku_total "X" (inventory warehouse) + 4
  /\ fst run = done (Bot2.added_back "L2" "B")
  /\ ledger_quantity (inventory (snd run)) "X" "B" "L2" = Some (10 + 4).
Proof.
  assert (Hk : keys_unique warehouse)
    by (repeat constructor; simpl; intuition discriminate).
  destruct (proj1 (cancel_out_effect decimal_int "X" "4" "mistake" clerk
                     20250701 warehouse Hk) 4 eq_refl eq_refl)
    as (H1 & _ & H3 & _ & H5).
  simpl in H5. destruct H5 as (H5 & _ & H7).
  repeat split; assumption.
Defined.

(** X6. An /out that succeeds followed by a /cancel_out of the same
    SKU and quantity restores the SKU's total and adds no record. *)
Theorem out_then_cancel_out_restores_total
  (py_int : string -> option Z) (s q reason reason2 : string) (qty : Z)
  (c c2 : Caller) (today : Z) (st : State) :
  py_int q = Some qty ->
  0 < qty <= total_available s (inventory st) ->
  keys_unique st ->
  let out := Bot2.process_outbound_items py_int [s] [q] [reason] c st in
  let back := Bot2.process_cancel_out_item py_int s q reason2 c2 today (snd out) in
  sku_total s (inventory (snd out)) = sku_total s (inventory st) - qty
  /\ sku_total s (inventory (snd back)) = sku_total s (inventory st)
  /\ map inv_key (inventory (snd back)) = map inv_key (inventory st).
Proof.
  intros Hq [Hpos Hle] Hk out back.
  destruct (outbound_batch_accounts py_int [s] [q] [reason] c st Hk)
    as (Hk1 & _ & Htot). fold out in Hk1, Htot.
  assert (Hrep : reported_deducted s (fst out) = qty).
  { subst out.
    pose proof (outbound_single_deductions py_int c s q reason st qty Hq) as Hd.
    destruct (process_outbound_single py_int c s q reason st) as (Hl & _ & _).
    rewrite Hl in Hd |- *. simpl in Hd. unfold reported_deducted. simpl.
    rewrite String.eqb_refl, Hd.
    destruct (Z.ltb_spec 0 qty); [|lia].
    destruct (Z.leb_spec qty (total_available s (inventory st))); [|lia]. simpl.
    rewrite available_walk_sum by lia. lia. }
  assert (Hkeys1 : map inv_key (inventory (snd out)) = map inv_key (inventory st)).
  { subst out. unfold Bot2.process_outbound_items. rewrite !bind_eq. simpl.
    rewrite bind_eq. simpl.
    rewrite (outbound_item_eq py_int _ _ _ _ _ qty Hq).
    destruct (qty <=? 0); [reflexivity|].
    destruct (available_oldest_first _ _) as [|r0 rest] eqn:E; [reflexivity|].
    destruct (_ <? qty); [reflexivity|]. rewrite <- E. cbn [snd fst].
    match goal with |- context [Bot2.deduct_loop ?c ?s ?l ?r ?d ?st0] =>
      destruct (deduct_loop_frame c s l r d st0) as (_ & _ & Hkeys & _) end.
    exact Hkeys. }
  split; [rewrite Htot, Hrep; reflexivity|].
  destruct (proj1 (cancel_out_item_spec py_int s q reason2 c2 today (snd out) Hk1)
              qty Hq Hpos) as (_ & _ & Hback & _ & Hcase).
  fold back in Hback, Hcase.
  split; [rewrite Hback, Htot, Hrep; lia|].
  destruct (find (fun r => String.eqb (Inventory.sku r) s) (inventory (snd out)))
    as [r0|] eqn:Hfirst.
  - destruct Hcase as (_ & Hkeys & _). now rewrite Hkeys.
  - exfalso.
    (* the SKU has an available record, hence a record *)
    assert (Hex : exists r, In r (inventory st) /\ Inventory.sku r = s).
    { destruct (available_oldest_first s (inventory st)) as [|r rest] eqn:E.
      - pose proof (available_sum s (inventory st)) as Hsum. rewrite E in Hsum.
        simpl in Hsum. lia.
      - assert (Hin : In r (available_oldest_first s (inventory st)))
          by (rewrite E; now left).
        apply available_In in Hin. exists r. tauto. }
    destruct Hex as (r & Hin & Hs).
    assert (Hkin : In (inv_key r) (map inv_key (inventory (snd out))))
      by (rewrite Hkeys1; now apply in_map).
    apply in_map_iff in Hkin. destruct Hkin as (x & Ex & Hx).
    apply (find_none _ _ Hfirst) in Hx.
    unfold inv_key in Ex. injection Ex as Es _ _.
    rewrite Es, Hs, String.eqb_refl in Hx. discriminate.
Qed.

Lemma out_then_cancel_out_restores_total_witness :
  let out := Bot2.process_outbound_items decimal_int ["X"] ["8"] ["sold"]
               clerk warehouse in
  let back := Bot2.process_cancel_out_item decimal_int "X" "8" "mistake" clerk2
                20250701 (snd out) in
  sku_total "X" (inventory (snd out)) = sku_total "X" (inventory warehouse) - 8
  /\ sku_total "X" (inventory (snd back)) = sku_total "X" (inventory warehouse)
  /\ map inv_key (inventory (snd back)) = map inv_key (inventory warehouse).
Proof.
  apply (out_then_cancel_out_restores_total decimal_int "X" "8" "sold" "mistake"
           8 clerk clerk2 20250701 warehouse).
  - reflexivity.
  - split; [reflexivity | vm_compute; discriminate].
  - repeat constructor; simpl; intuition discriminate.
Defined.

(** ** Two invariants of the store under every command *)

Lemma keeps_refl st : keeps_invariants st st.
Proof. split; auto. Qed.

Lemma keeps_trans a b c : keeps_invariants a b -> keeps_invariants b c ->
  keeps_invariants a c.
Proof. intros [H1 H2] [H3 H4]. split; auto. Qed.

Lemma keeps_of_tables a b :
  inventory b = inventory a -> reservations b = reservations a ->
  keeps_invariants a b.
Proof.
  intros Hi Hr. unfold keeps_invariants, keys_unique, quantities_nonneg.
  rewrite Hi, Hr. auto.
Qed.

Lemma nonneg_update_where cond new c inv :
  Forall (fun r => 0 <= Inventory.quantity r) inv ->
  (forall r, In r inv -> cond r = true -> 0 <= new r) ->
  Forall (fun r => 0 <= Inventory.quantity r) (update_inventory_where cond new c inv).
Proof.
  intros Hall Hnew. unfold update_inventory_where.
  rewrite Forall_forall in *. intros y Hy.
  apply in_map_iff in Hy. destruct Hy as (x & <- & Hx).
  destruct (cond x) eqn:E; simpl; auto.
Qed.

Lemma ledger_quantity_nonneg inv s l loc Q :
  Forall (fun r => 0 <= Inventory.quantity r) inv ->
  ledger_quantity inv s l loc = Some Q -> 0 <= Q.
Proof.
  intros Hall H. apply ledger_quantity_found in H.
  destruct H as (x & Hf & <- & _). apply find_some in Hf.
  rewrite Forall_forall in Hall. now apply Hall.
Qed.

(** A statement that rewrites records of the ledger with a quantity that
    is not negative, touching nothing else. *)
Lemma keeps_update st st' cond new c :
  inventory st' = update_inventory_where cond new c (inventory st) ->
  reservations st' = reservations st ->
  (quantities_nonneg st -> forall r, In r (inventory st) -> cond r = true -> 0 <= new r) ->
  keeps_invariants st st'.
Proof.
  intros Hi Hr Hnew. split.
  - unfold keys_unique. now rewrite Hi, update_where_keys.
  - intros Hnn. pose proof (Hnew Hnn) as Hnew'. destruct Hnn as [Hq Hrq].
    split; [rewrite Hi; now apply nonneg_update_where | now rewrite Hr].
Qed.

(** A statement that adds a record under a key that has none. *)
Lemma keeps_insert st st' s l loc qty date c :
  inventory st' = inventory st
                  ++ [Inventory.mk s l loc qty date (user_id c) None None (txn_id c)] ->
  reservations st' = reservations st ->
  find (inv_key_is s l loc) (inventory st) = None -> 0 <= qty ->
  keeps_invariants st st'.
Proof.
  intros Hi Hr Hnone Hq. split.
  - unfold keys_unique. rewrite Hi. intros Hk. now apply keys_unique_insert.
  - intros [Hnn Hrn]. split; [|now rewrite Hr].
    rewrite Hi. apply Forall_app. split; [exact Hnn|]. repeat constructor. exact Hq.
Qed.

Lemma deduct_loop_keeps c s stock rem details st :
  keeps_invariants st (snd (Bot2.deduct_loop c s stock rem details st)).
Proof.
  revert rem details st.
  induction stock as [|r rest IH]; simpl; intros rem details st;
    [apply keeps_refl|].
  destruct (Z.leb_spec rem 0); [apply keeps_refl|].
  unfold bind. simpl.
  eapply keeps_trans; [|apply IH].
  eapply keeps_update; simpl; [reflexivity | reflexivity |].
  intros _ x _ _. lia.
Qed.

Lemma receive_item_keeps py_int strptime_date c sku q l date loc st :
  keeps_invariants st
    (snd (Bot1.receive_item py_int strptime_date c sku q l date loc st)).
Proof.
  unfold Bot1.receive_item.
  destruct (py_int q) as [qty|]; [|apply keeps_refl].
  destruct (Z.leb_spec qty 0); [apply keeps_refl|].
  destruct (strptime_date date) as [d|]; [|apply keeps_refl].
  rewrite bind_eq. unfold check_query. simpl.
  destruct (find (inv_key_is sku l loc) (inventory st)) as [x|] eqn:Hf; simpl.
  - rewrite ?bind_eq. simpl.
    eapply keeps_update; simpl; [reflexivity | reflexivity |].
    intros [Hnn _] r _ _. apply find_some in Hf. destruct Hf as [Hx _].
    rewrite Forall_forall in Hnn. specialize (Hnn x Hx). lia.
  - rewrite ?bind_eq. simpl.
    eapply keeps_insert; simpl; [reflexivity | reflexivity | exact Hf | lia].
Qed.

Lemma receive_loop_keeps py_int strptime_date c items b st :
  keeps_invariants st
    (snd (Bot1.receive_loop py_int strptime_date c items b st)).
Proof.
  revert b st.
  induction items as [|[sku [q [l [date loc]]]] rest IH]; intros b st; simpl;
    [apply keeps_refl|].
  rewrite bind_eq. eapply keeps_trans; [apply receive_item_keeps | apply IH].
Qed.

Lemma adjust_in_item_keeps py_int strptime_date c sku q l date loc st :
  keeps_invariants st
    (snd (Bot1.adjust_in_item py_int strptime_date c sku q l date loc st)).
Proof.
  unfold Bot1.adjust_in_item.
  destruct (py_int q) as [adj|]; [|apply keeps_refl].
  destruct (strptime_date date) as [d|]; [|apply keeps_refl].
  rewrite bind_eq. unfold check_query. simpl.
  destruct (find (inv_key_is sku l loc) (inventory st)) as [x|]; simpl;
    [|apply keeps_refl].
  destruct (Z.ltb_spec (Inventory.quantity x + adj) 0); [apply keeps_refl|].
  rewrite ?bind_eq. simpl.
  eapply keeps_update; simpl; [reflexivity | reflexivity |].
  intros _ r _ _. lia.
Qed.

Lemma adjust_in_loop_keeps py_int strptime_date c items b st :
  keeps_invariants st
    (snd (Bot1.adjust_in_loop py_int strptime_date c items b st)).
Proof.
  revert b st.
  induction items as [|[[sku [q [l [date loc]]]] reason] rest IH]; intros b st;
    simpl; [apply keeps_refl|].
  rewrite bind_eq. eapply keeps_trans; [apply adjust_in_item_keeps | apply IH].
Qed.

Lemma outbound_item_keeps py_int c sku q reason st :
  keeps_invariants st (snd (Bot2.outbound_item py_int c sku q reason st)).
Proof.
  unfold Bot2.outbound_item.
  destruct (py_int q) as [qty|]; [|apply keeps_refl].
  destruct (qty <=? 0); [apply keeps_refl|].
  rewrite bind_eq. unfold check_stock_query. cbn [fst snd].
  destruct (order_by _ _) as [|r0 rest] eqn:E; [apply keeps_refl|].
  destruct (_ <? qty); [apply keeps_refl|].
  rewrite bind_eq. unfold ret. cbn [fst snd].
  apply deduct_loop_keeps.
Qed.

Lemma outbound_loop_keeps py_int c items b st :
  keeps_invariants st (snd (Bot2.outbound_loop py_int c items b st)).
Proof.
  revert b st.
  induction items as [|[sku [q reason]] rest IH]; intros b st; simpl;
    [apply keeps_refl|].
  rewrite bind_eq. eapply keeps_trans; [apply outbound_item_keeps | apply IH].
Qed.

Lemma nonneg_reservations_map (f : Reservations.row -> Reservations.row) rid rs :
  (forall r, Reservations.quantity (f r) = Reservations.quantity r) ->
  Forall (fun r => 0 <= Reservations.quantity r) rs ->
  Forall (fun r => 0 <= Reservations.quantity r)
    (map (fun r => if String.eqb (Reservations.reserve_id r) rid then f r else r) rs).
Proof.
  intros Hf Hall. rewrite Forall_forall in *. intros y Hy.
  apply in_map_iff in Hy. destruct Hy as (x & <- & Hx).
  destruct (String.eqb _ rid); [rewrite Hf|]; now apply Hall.
Qed.

(** A statement that stamps reservations of one id and keeps their
    quantity, touching nothing else. *)
Lemma keeps_stamp st st' f rid :
  inventory st' = inventory st ->
  reservations st'
  = map (fun r => if String.eqb (Reservations.reserve_id r) rid then f r else r)
      (reservations st) ->
  (forall r, Reservations.quantity (f r) = Reservations.quantity r) ->
  keeps_invariants st st'.
Proof.
  intros Hi Hr Hf. split.
  - unfold keys_unique. now rewrite Hi.
  - intros [Hnn Hrn]. split; [now rewrite Hi|].
    rewrite Hr. now apply nonneg_reservations_map.
Qed.

Lemma cancel_out_try_keeps py_int s q reason c today st :
  keeps_invariants st (snd (Bot2.cancel_out_try py_int s q reason c today st)).
Proof.
  unfold Bot2.cancel_out_try.
  destruct (py_int q) as [qty|]; [|apply keeps_refl].
  destruct (Z.leb_spec qty 0); [apply keeps_refl|].
  rewrite !bind_eq. unfold check_sku_query, check_query. simpl.
  destruct (find (fun r => String.eqb (Inventory.sku r) s) (inventory st))
    as [r0|] eqn:Hfirst; simpl.
  - rewrite (find_sku_then_key _ _ _ Hfirst). simpl. rewrite ?bind_eq. simpl.
    eapply keeps_update; simpl; [reflexivity | reflexivity |].
    intros [Hnn _] r _ _. apply find_some in Hfirst. destruct Hfirst as [Hx _].
    rewrite Forall_forall in Hnn. specialize (Hnn r0 Hx). lia.
  - rewrite (find_sku_none _ _ _ _ Hfirst). simpl. rewrite ?bind_eq. simpl.
    eapply keeps_insert; simpl;
      [reflexivity | reflexivity | now apply find_sku_none | lia].
Qed.

Lemma reserve_item_try_keeps py_int s q c new_id st :
  keeps_invariants st (snd (Bot2.reserve_item_try py_int s q c new_id st)).
Proof.
  unfold Bot2.reserve_item_try.
  destruct (py_int q) as [qty|]; [|apply keeps_refl].
  destruct (Z.leb_spec qty 0); [apply keeps_refl|].
  rewrite !bind_eq. unfold check_stock_query, ret. cbn [fst snd].
  match goal with |- context [Bot2.deduct_loop ?c ?s ?l ?r ?d ?st0] =>
    eapply keeps_trans; [apply (deduct_loop_keeps c s l r d st0)|] end.
  split.
  - unfold keys_unique. simpl. auto.
  - intros [Hnn Hrn]. split; simpl; [exact Hnn|].
    apply Forall_app. split; [exact Hrn|]. repeat constructor. simpl. lia.
Qed.

Lemma reserve_pick_try_keeps py_int s q loc l rid c st :
  keeps_invariants st (snd (Bot2.reserve_pick_try py_int s q loc l rid c st)).
Proof.
  unfold Bot2.reserve_pick_try.
  destruct (py_int q) as [qty|]; [|apply keeps_refl].
  destruct (qty <=? 0); [apply keeps_refl|].
  rewrite bind_eq. unfold check_reserve_query. cbn [fst snd].
  destruct (option_map _ _) as [[reserved_qty status]|]; [|apply keeps_refl].
  destruct (reserved_qty <? qty); [apply keeps_refl|].
  rewrite ?bind_eq. simpl.
  eapply (keeps_stamp _ _ (set_picked c) rid); reflexivity.
Qed.

(** What the lookup of /reserve_cancel hands over comes from a row of
    the table. *)
Lemma get_reserve_details_from_row rid st s qty l loc :
  fst (get_reserve_details_query rid st) = Some (s, qty, l, loc) ->
  exists r, In r (reservations st) /\ Reservations.quantity r = qty.
Proof.
  unfold get_reserve_details_query. simpl.
  destruct (find _ (reservations st)) as [r|] eqn:E; simpl; [|discriminate].
  intros [= _ <- _ _]. exists r. split; [|reflexivity]. now apply find_some in E.
Qed.

Lemma reserve_cancel_try_keeps rid reason c st :
  keeps_invariants st (snd (Bot2.reserve_cancel_try rid reason c st)).
Proof.
  unfold Bot2.reserve_cancel_try. rewrite bind_eq.
  destruct (fst (get_reserve_details_query rid st)) as [[[[s qty] l] loc]|] eqn:E;
    [|apply keeps_refl].
  apply get_reserve_details_from_row in E. destruct E as (r & Hin & Hq).
  rewrite ?bind_eq. simpl.
  eapply keeps_trans.
  - eapply (keeps_update st
              (mkState (update_inventory_where (inv_key_matches s l loc)
                          (fun r => Inventory.quantity r + qty) c (inventory st))
                       (reservations st) (transactions_log st)));
      [reflexivity | reflexivity |].
    intros [Hnn Hrn] x Hx _. rewrite Forall_forall in Hnn, Hrn.
    specialize (Hnn x Hx). specialize (Hrn r Hin). lia.
  - eapply (keeps_stamp _ _ (set_cancelled c reason) rid); reflexivity.
Qed.

Lemma reserve_return_try_keeps py_int s q loc l rid reason c st :
  keeps_invariants st
    (snd (Bot2.reserve_return_try py_int s q loc l rid reason c st)).
Proof.
  unfold Bot2.reserve_return_try.
  destruct (py_int q) as [qty|]; [|apply keeps_refl].
  destruct (Z.leb_spec qty 0); [apply keeps_refl|].
  rewrite bind_eq. unfold check_reserve_query. cbn [fst snd].
  destruct (option_map _ _) as [found|]; [|apply keeps_refl].
  rewrite ?bind_eq. simpl.
  eapply keeps_trans.
  - eapply (keeps_update st
              (mkState (update_inventory_where (inv_key_matches s (Some l) (Some loc))
                          (fun r => Inventory.quantity r + qty) c (inventory st))
                       (reservations st) (transactions_log st)));
      [reflexivity | reflexivity |].
    intros [Hnn _] x Hx _. rewrite Forall_forall in Hnn.
    specialize (Hnn x Hx). lia.
  - eapply (keeps_stamp _ _ (set_returned c reason) rid); reflexivity.
Qed.

(** Writing to the transaction log before and after keeps what the body
    keeps. *)
Lemma keeps_logged {A} (body : DBM A) st (e1 : LogEntry) (status : A -> string)
  (id : string) :
  (forall st0, keeps_invariants st0 (snd (body st0))) ->
  let st1 := mkState (inventory st) (reservations st) (transactions_log st ++ [e1]) in
  let st2 := snd (body st1) in
  keeps_invariants st
    (mkState (inventory st2) (reservations st2)
       (transactions_log st2 ++ [log_status_update id (status (fst (body st1)))])).
Proof.
  intros Hbody st1 st2.
  eapply keeps_trans; [apply (keeps_of_tables st st1); reflexivity|].
  eapply keeps_trans; [apply Hbody|].
  apply keeps_of_tables; reflexivity.
Qed.

(** Each command keeps both properties. *)
Lemma apply_command_keeps py_int strptime_date cmd c st :
  keeps_invariants st (apply_command py_int strptime_date cmd c st).
Proof.
  destruct cmd; simpl.
  - unfold Bot1.process_inbound_item. rewrite !bind_eq. simpl.
    apply (keeps_logged (Bot1.receive_loop py_int strptime_date c _ _) st _
             final_status).
    intros st0. apply receive_loop_keeps.
  - unfold Bot1.process_return_item. rewrite !bind_eq. simpl.
    apply (keeps_logged (Bot1.receive_loop py_int strptime_date c _ _) st _
             final_status).
    intros st0. apply receive_loop_keeps.
  - unfold Bot1.process_adjust_in_item. rewrite !bind_eq. simpl.
    apply (keeps_logged (Bot1.adjust_in_loop py_int strptime_date c _ _) st _
             final_status).
    intros st0. apply adjust_in_loop_keeps.
  - unfold Bot2.process_outbound_items. rewrite !bind_eq. simpl.
    apply (keeps_logged (Bot2.outbound_loop py_int c _ _) st _ final_status).
    intros st0. apply outbound_loop_keeps.
  - unfold Bot2.process_cancel_out_item. rewrite !bind_eq. simpl.
    apply (keeps_logged (Bot2.cancel_out_try py_int sku quantity reason c today)
             st _ (fun t => if fst t then "SUCCESS" else "FAILED")).
    intros st0. apply cancel_out_try_keeps.
  - unfold Bot2.process_reserve_item. rewrite !bind_eq. simpl.
    apply (keeps_logged (Bot2.reserve_item_try py_int sku quantity c new_id)
             st _ (fun t => if fst (fst t) then "SUCCESS" else "FAILED")).
    intros st0. apply reserve_item_try_keeps.
  - unfold Bot2.process_reserve_pick. rewrite !bind_eq. simpl.
    apply (keeps_logged
             (Bot2.reserve_pick_try py_int sku quantity location lot reserve_id c)
             st _ (fun t => if fst t then "SUCCESS" else "FAILED")).
    intros st0. apply reserve_pick_try_keeps.
  - unfold Bot2.process_reserve_return. rewrite !bind_eq. simpl.
    apply (keeps_logged
             (Bot2.reserve_return_try py_int sku quantity location lot
                reserve_id reason c)
             st _ (fun t => if fst t then "SUCCESS" else "FAILED")).
    intros st0. apply reserve_return_try_keeps.
  - unfold Bot2.process_reserve_cancel. rewrite !bind_eq. simpl.
    apply (keeps_logged (Bot2.reserve_cancel_try reserve_id reason c)
             st _ (fun t => if fst t then "SUCCESS" else "FAILED")).
    intros st0. apply reserve_cancel_try_keeps.
  - destruct (process_reserve_ck_lists_pending sku_filter c st) as ([Hi Hr] & _).
    now apply keeps_of_tables.
Qed.

Lemma apply_commands_keeps py_int strptime_date cmds st :
  keeps_invariants st (apply_commands py_int strptime_date cmds st).
Proof.
  unfold apply_commands. revert st.
  induction cmds as [|[cmd c] rest IH]; intros st; simpl; [apply keeps_refl|].
  eapply keeps_trans; [apply apply_command_keeps | apply IH].
Qed.

(** X7. Unique keys are an invariant of the store: after any sequence
    of /in, /return, /adjust_in, /out, /cancel_out, /reserve,
    /reserve_pick, /reserve_return, /reserve_cancel and /reserve_ck
    commands, with any arguments, no two ledger records share sku, lot
    and location, provided that held before. *)
Theorem keys_stay_unique
  (py_int strptime_date : string -> option Z) (cmds : list (Command * Caller))
  (st : State) :
  keys_unique st -> keys_unique (apply_commands py_int strptime_date cmds st).
Proof. apply apply_commands_keeps. Qed.

(** X8. No command drives a quantity below zero: if every ledger
    quantity and every reserved quantity is non-negative, the same holds
    after any sequence of the ten commands with any arguments. *)
Theorem quantities_stay_nonneg
  (py_int strptime_date : string -> option Z) (cmds : list (Command * Caller))
  (st : State) :
  quantities_nonneg st ->
  quantities_nonneg (apply_commands py_int strptime_date cmds st).
Proof. apply apply_commands_keeps. Qed.

Lemma keys_stay_unique_witness :
  keys_unique
    (apply_commands decimal_int iso_date
       [(cmd_in ["X"; "X"] ["5"; "10"] ["A"; "B"] ["2025-01-01"; "2025-02-01"]
           ["L1"; "L2"], clerk);
        (cmd_in ["X"] ["3"] ["A"] ["2025-03-01"] ["L1"], clerk2);
        (cmd_reserve "X" "8" "RES-1", clerk);
        (cmd_cancel_out "Y" "2" "mistake" 20250701, clerk2);
        (cmd_reserve_cancel "RES-1" "changed mind", clerk)]
       (mkState [] [] [])).
Proof.
  apply (keys_stay_unique decimal_int iso_date). constructor.
Defined.

Lemma quantities_stay_nonneg_witness :
  quantities_nonneg
    (apply_commands decimal_int iso_date
       [(cmd_in ["X"; "X"] ["5"; "10"] ["A"; "B"] ["2025-01-01"; "2025-02-01"]
           ["L1"; "L2"], clerk);
        (cmd_adjust_in ["X"] ["-9"] ["A"] ["2025-03-01"] ["L1"] ["recount"], clerk2);
        (cmd_out ["X"] ["12"] ["sold"], clerk);
        (cmd_reserve "X" "100" "RES-1", clerk2);
        (cmd_reserve_return "X" "4" "L2" "B" "RES-1" "damaged", clerk)]
       (mkState [] [] [])).
Proof.
  apply (quantities_stay_nonneg decimal_int iso_date). split; constructor.
Defined.

(** ** bot3: the reserved total, and what the reservation commands do to it *)

(** The sum of the quantities of the SKU's PENDING reservations. *)
Lemma reserved_total_eq s st :
  fst (Bot3.get_total_reserved_quantity s st)
  = fold_right Z.add 0
      (map Reservations.quantity
         (filter (fun r => String.eqb (Reservations.sku r) s
                           && Status_eqb (Reservations.status r) PENDING)
                 (reservations st))).
Proof.
  unfold Bot3.get_total_reserved_quantity. simpl.
  destruct (map _ _); reflexivity.
Qed.

Lemma reserved_total_tables s a b :
  reservations a = reservations b ->
  fst (Bot3.get_total_reserved_quantity s a)
  = fst (Bot3.get_total_reserved_quantity s b).
Proof. intros H. now rewrite !reserved_total_eq, H. Qed.

(** Stamping the reservation of one id with a status other than PENDING
    takes its whole quantity out of its SKU's reserved total, if it was
    PENDING, and leaves every other total alone. *)
Lemma reserved_total_stamp (f : Reservations.row -> Reservations.row) s r st st' :
  NoDup (map Reservations.reserve_id (reservations st)) ->
  In r (reservations st) ->
  reservations st'
  = map (fun x => if String.eqb (Reservations.reserve_id x) (Reservations.reserve_id r)
                  then f x else x) (reservations st) ->
  Reservations.sku (f r) = Reservations.sku r ->
  Reservations.status (f r) <> PENDING ->
  fst (Bot3.get_total_reserved_quantity s st')
  = fst (Bot3.get_total_reserved_quantity s st)
    - (if String.eqb (Reservations.sku r) s
          && Status_eqb (Reservations.status r) PENDING
       then Reservations.quantity r else 0).
Proof.
  intros Hnd Hin Hmap Hsku Hstat. rewrite !reserved_total_eq, Hmap. clear Hmap.
  induction (reservations st) as [|x xs IH]; [contradiction|].
  inversion Hnd as [|? ? Hnotin Hnd']; subst. simpl.
  destruct (String.eqb_spec (Reservations.reserve_id x) (Reservations.reserve_id r))
    as [Eid|Hne].
  - assert (x = r).
    { destruct Hin as [|Hin]; [assumption|].
      exfalso. apply Hnotin. rewrite Eid. now apply in_map. }
    subst x.
    assert (Hrest : map (fun x => if String.eqb (Reservations.reserve_id x)
                                       (Reservations.reserve_id r)
                                  then f x else x) xs = xs).
    { rewrite <- (map_id xs) at 2. apply map_ext_in. intros y Hy.
      destruct (String.eqb_spec (Reservations.reserve_id y) (Reservations.reserve_id r))
        as [Ey|_]; [|reflexivity].
      exfalso. apply Hnotin. rewrite <- Ey. now apply in_map. }
    rewrite Hrest, Hsku.
    assert (Hnp : Status_eqb (Reservations.status (f r)) PENDING = false).
    { destruct (Status_eqb (Reservations.status (f r)) PENDING) eqn:E;
        [|reflexivity].
      apply Status_eqb_eq in E. contradiction. }
    rewrite Hnp, andb_false_r.
    destruct (String.eqb (Reservations.sku r) s
              && Status_eqb (Reservations.status r) PENDING); simpl; lia.
  - destruct Hin as [->|Hin]; [contradiction|].
    specialize (IH Hnd' Hin).
    destruct (String.eqb (Reservations.sku x) s
              && Status_eqb (Reservations.status x) PENDING); simpl; rewrite IH; lia.
Qed.

(** X9. Accounting of /reserve with a positive quantity, on unique
    keys: the reserved total that bot3 reports for the SKU grows by the
    whole requested quantity, while the ledger total of the SKU falls by
    the smaller of the request and the available quantity; other SKUs are
    unaffected on both sides. *)
Theorem reserve_accounting
  (py_int : string -> option Z) (s q new_id : string) (qty : Z) (c : Caller)
  (st : State) :
  py_int q = Some qty -> 0 < qty -> keys_unique st ->
  let run := Bot2.process_reserve_item py_int s q c new_id st in
  fst (Bot3.get_total_reserved_quantity s (snd run))
  = fst (Bot3.get_total_reserved_quantity s st) + qty
  /\ sku_total s (inventory (snd run))
     = sku_total s (inventory st) - Z.min qty (total_available s (inventory st))
  /\ (forall s', s' <> s ->
        fst (Bot3.get_total_reserved_quantity s' (snd run))
        = fst (Bot3.get_total_reserved_quantity s' st)
        /\ sku_total s' (inventory (snd run)) = sku_total s' (inventory st)).
Proof.
  intros Hq Hpos Hk run. subst run.
  assert (Hres : forall s',
    fst (Bot3.get_total_reserved_quantity s'
           (snd (Bot2.process_reserve_item py_int s q c new_id st)))
    = fst (Bot3.get_total_reserved_quantity s' st)
      + (if String.eqb s s' then qty else 0)).
  { intros s'. rewrite !reserved_total_eq.
    rewrite (reserve_inserts_row py_int c s q new_id st qty Hq Hpos).
    rewrite filter_app, map_app, fold_right_app. simpl.
    destruct (String.eqb s s'); simpl.
    - induction (map _ _) as [|x xs IH]; simpl; lia.
    - lia. }
  assert (Hinv : inventory (snd (Bot2.process_reserve_item py_int s q c new_id st))
                 = inventory (snd (Bot2.deduct_loop c s
                     (available_oldest_first s (inventory st)) qty []
                     (mkState (inventory st) (reservations st)
                        (transactions_log st
                         ++ [log_entry (txn_id c) "reserve" "PROCESSING"]))))).
  { destruct (process_reserve_item_eq py_int c s q new_id st) as (_ & -> & _).
    rewrite (reserve_item_try_eq py_int _ _ _ _ _ qty Hq Hpos). reflexivity. }
  destruct (available_snapshot s (inventory st) Hk) as [Hnd Hsnap].
  split; [rewrite Hres, String.eqb_refl; reflexivity|].
  split.
  - rewrite Hinv, deduct_loop_total by assumption. simpl.
    rewrite available_walk_sum by lia. reflexivity.
  - intros s' Hne. split.
    + rewrite Hres. destruct (String.eqb_spec s s'); [congruence | lia].
    + rewrite Hinv. now rewrite deduct_loop_total_other.
Qed.

Lemma reserve_accounting_witness :
  let run := Bot2.process_reserve_item decimal_int "X" "100" clerk "RES-1"
               warehouse in
  fst (Bot3.get_total_reserved_quantity "X" (snd run))
  = fst (Bot3.get_total_reserved_quantity "X" warehouse) + 100
  /\ sku_total "X" (inventory (snd run))
     = sku_total "X" (inventory warehouse)
       - Z.min 100 (total_available "X" (inventory warehouse)).
Proof.
  destruct (reserve_accounting decimal_int "X" "100" "RES-1" 100 clerk warehouse
              eq_refl eq_refl) as (H1 & H2 & _).
  - repeat constructor; simpl; intuition discriminate.
  - split; assumption.
Defined.

Lemma ledger_key_present inv s l loc Q :
  ledger_quantity inv s l loc = Some Q -> In (s, l, loc) (map inv_key inv).
Proof.
  intros H. apply ledger_quantity_found in H. destruct H as (x & Hf & _ & <-).
  apply find_some in Hf. apply in_map. tauto.
Qed.

(** X10. Accounting of /reserve_pick: a pick of any positive quantity
    up to the reserved one, on a pending reservation named with its own
    sku, lot and location, succeeds, leaves the ledger as it is and takes
    the whole reserved quantity out of the reserved total, also when less
    was picked. *)
Theorem pick_accounting
  (py_int : string -> option Z) (c : Caller) (q loc l : string) (qty : Z)
  (st : State) (r : Reservations.row) :
  py_int q = Some qty ->
  NoDup (map Reservations.reserve_id (reservations st)) ->
  In r (reservations st) ->
  Reservations.reserved_lot r = Some l ->
  Reservations.reserved_location r = Some loc ->
  Reservations.status r = PENDING ->
  0 < qty <= Reservations.quantity r ->
  let run := Bot2.process_reserve_pick py_int (Reservations.sku r) q loc l
               (Reservations.reserve_id r) c st in
  fst run = done tt
  /\ inventory (snd run) = inventory st
  /\ fst (Bot3.get_total_reserved_quantity (Reservations.sku r) (snd run))
     = fst (Bot3.get_total_reserved_quantity (Reservations.sku r) st)
       - Reservations.quantity r.
Proof.
  intros Hq Hnd Hin Hl Hloc Hst [Hpos Hle] run.
  assert (Hstate :
    fst run = done tt
    /\ inventory (snd run) = inventory st
    /\ reservations (snd run)
       = map (fun x => if String.eqb (Reservations.reserve_id x)
                            (Reservations.reserve_id r)
                       then set_picked c x else x) (reservations st)).
  { subst run. unfold Bot2.process_reserve_pick. rewrite !bind_eq. simpl.
    unfold Bot2.reserve_pick_try. rewrite Hq.
    destruct (Z.leb_spec qty 0); [lia|].
    rewrite !bind_eq.
    rewrite (check_reserve_query_match true _ r) by (simpl; auto).
    simpl.
    destruct (Z.ltb_spec (Reservations.quantity r) qty); [lia|]. simpl.
    repeat split. }
  destruct Hstate as (Hreply & Hinv & Hres).
  split; [exact Hreply|]. split; [exact Hinv|].
  rewrite (reserved_total_stamp (set_picked c) _ r st (snd run) Hnd Hin Hres)
    by (simpl; congruence).
  now rewrite String.eqb_refl, Hst.
Qed.

Lemma pick_accounting_witness :
  let run := Bot2.process_reserve_pick decimal_int "X" "5" "L1" "A" "RES-1"
               clerk2 warehouse_with_hold in
  fst run = done tt
  /\ inventory (snd run) = inventory warehouse_with_hold
  /\ fst (Bot3.get_total_reserved_quantity "X" (snd run))
     = fst (Bot3.get_total_reserved_quantity "X" warehouse_with_hold) - 8.
Proof.
  apply (pick_accounting decimal_int clerk2 "5" "L1" "A" 5 warehouse_with_hold held).
  - reflexivity.
  - repeat constructor; simpl; intuition discriminate.
  - simpl; auto.
  - reflexivity.
  - reflexivity.
  - reflexivity.
  - simpl; lia.
Defined.

(** X11. Accounting of /reserve_cancel on a pending reservation whose
    lot still has a record: the ledger total of the SKU grows by the
    reserved quantity and the reserved total falls by the same amount. *)
Theorem cancel_accounting
  (c : Caller) (reason l loc : string) (Q : Z) (st : State)
  (r : Reservations.row) :
  NoDup (map Reservations.reserve_id (reservations st)) ->
  keys_unique st ->
  In r (reservations st) ->
  Reservations.status r = PENDING ->
  Reservations.reserved_lot r = Some l ->
  Reservations.reserved_location r = Some loc ->
  ledger_quantity (inventory st) (Reservations.sku r) l loc = Some Q ->
  let run := Bot2.process_reserve_cancel (Reservations.reserve_id r) reason c st in
  sku_total (Reservations.sku r) (inventory (snd run))
  = sku_total (Reservations.sku r) (inventory st) + Reservations.quantity r
  /\ fst (Bot3.get_total_reserved_quantity (Reservations.sku r) (snd run))
     = fst (Bot3.get_total_reserved_quantity (Reservations.sku r) st)
       - Reservations.quantity r.
Proof.
  intros Hnd Hk Hin Hst Hl Hloc HQ run.
  assert (Hstate :
    inventory (snd run)
    = update_inventory_where
        (inv_key_matches (Reservations.sku r) (Some l) (Some loc))
        (fun x => Inventory.quantity x + Reservations.quantity r) c (inventory st)
    /\ reservations (snd run)
       = map (fun x => if String.eqb (Reservations.reserve_id x)
                            (Reservations.reserve_id r)
                       then set_cancelled c reason x else x) (reservations st)).
  { subst run. unfold Bot2.process_reserve_cancel. rewrite !bind_eq. simpl.
    unfold Bot2.reserve_cancel_try. rewrite !bind_eq.
    rewrite get_reserve_details_query_eq by exact Hnd. simpl.
    rewrite (reservation_of_unique _ _ Hnd Hin), Hst. simpl. rewrite Hl, Hloc.
    rewrite ?bind_eq. simpl. split; reflexivity. }
  destruct Hstate as (Hinv & Hres).
  split.
  - rewrite Hinv.
    apply sku_total_add; [exact Hk | now apply (ledger_key_present _ _ _ _ Q)].
  - rewrite (reserved_total_stamp (set_cancelled c reason) _ r st (snd run)
               Hnd Hin Hres) by (simpl; congruence).
    now rewrite String.eqb_refl, Hst.
Qed.

Lemma cancel_accounting_witness :
  let run := Bot2.process_reserve_cancel "RES-1" "changed mind" clerk2
               warehouse_with_hold in
  sku_total "X" (inventory (snd run))
  = sku_total "X" (inventory warehouse_with_hold) + 8
  /\ fst (Bot3.get_total_reserved_quantity "X" (snd run))
     = fst (Bot3.get_total_reserved_quantity "X" warehouse_with_hold) - 8.
Proof.
  apply (cancel_accounting clerk2 "changed mind" "A" "L1" 0 warehouse_with_hold held).
  - repeat constructor; simpl; intuition discriminate.
  - repeat constructor; simpl; intuition discriminate.
  - simpl; auto.
  - reflexivity.
  - reflexivity.
  - reflexivity.
  - reflexivity.
Defined.

(** X12. Accounting of /reserve_return: the ledger total of the SKU
    grows by the quantity given with the command, which need not be the
    reserved one, and the reserved total falls by the reserved quantity
    when the reservation was pending and not at all otherwise. *)
Theorem return_accounting
  (py_int : string -> option Z) (c : Caller) (q l loc reason : string)
  (qty Q : Z) (st : State) (r : Reservations.row) :
  py_int q = Some qty -> 0 < qty ->
  NoDup (map Reservations.reserve_id (reservations st)) ->
  keys_unique st ->
  In r (reservations st) ->
  Reservations.reserved_lot r = Some l ->
  Reservations.reserved_location r = Some loc ->
  ledger_quantity (inventory st) (Reservations.sku r) l loc = Some Q ->
  let run := Bot2.process_reserve_return py_int (Reservations.sku r) q loc l
               (Reservations.reserve_id r) reason c st in
  sku_total (Reservations.sku r) (inventory (snd run))
  = sku_total (Reservations.sku r) (inventory st) + qty
  /\ fst (Bot3.get_total_reserved_quantity (Reservations.sku r) (snd run))
     = fst (Bot3.get_total_reserved_quantity (Reservations.sku r) st)
       - (if Status_eqb (Reservations.status r) PENDING
          then Reservations.quantity r else 0).
Proof.
  intros Hq Hpos Hnd Hk Hin Hl Hloc HQ run.
  assert (Hstate :
    inventory (snd run)
    = update_inventory_where
        (inv_key_matches (Reservations.sku r) (Some l) (Some loc))
        (fun x => Inventory.quantity x + qty) c (inventory st)
    /\ reservations (snd run)
       = map (fun x => if String.eqb (Reservations.reserve_id x)
                            (Reservations.reserve_id r)
                       then set_returned c reason x else x) (reservations st)).
  { subst run. unfold Bot2.process_reserve_return. rewrite !bind_eq. simpl.
    unfold Bot2.reserve_return_try. rewrite Hq.
    destruct (Z.leb_spec qty 0); [lia|].
    rewrite !bind_eq.
    rewrite (check_reserve_query_match false _ r) by (simpl; auto; discriminate).
    simpl. rewrite ?bind_eq. simpl. split; reflexivity. }
  destruct Hstate as (Hinv & Hres).
  split.
  - rewrite Hinv.
    apply sku_total_add; [exact Hk | now apply (ledger_key_present _ _ _ _ Q)].
  - rewrite (reserved_total_stamp (set_returned c reason) _ r st (snd run)
               Hnd Hin Hres) by (simpl; congruence).
    now rewrite String.eqb_refl.
Qed.

Lemma return_accounting_witness :
  let run := Bot2.process_reserve_return decimal_int "X" "3" "L1" "A" "RES-1"
               "damaged" clerk2 warehouse_with_hold in
  sku_total "X" (inventory (snd run))
  = sku_total "X" (inventory warehouse_with_hold) + 3
  /\ fst (Bot3.get_total_reserved_quantity "X" (snd run))
     = fst (Bot3.get_total_reserved_quantity "X" warehouse_with_hold)
       - (if Status_eqb (Reservations.status held) PENDING
          then Reservations.quantity held else 0).
Proof.
  apply (return_accounting decimal_int clerk2 "3" "A" "L1" "damaged" 3 0
           warehouse_with_hold held).
  - reflexivity.
  - lia.
  - repeat constructor; simpl; intuition discriminate.
  - repeat constructor; simpl; intuition discriminate.
  - simpl; auto.
  - reflexivity.
  - reflexivity.
  - reflexivity.
Defined.

(** ** utils and bot4: who may use a bot *)

Lemma id_in_In u ids : Utils.id_in u ids = true <-> In u ids.
Proof.
  unfold Utils.id_in. rewrite existsb_exists. split.
  - intros (x & Hx & E). apply Z.eqb_eq in E. now subst.
  - intros H. exists u. split; [exact H | apply Z.eqb_refl].
Qed.

Lemma users_get_set_same d k v : Utils.users_get (Utils.users_set d k v) k = v.
Proof.
  unfold Utils.users_get.
  induction d as [|e rest IH]; simpl.
  - now rewrite String.eqb_refl.
  - destruct (String.eqb_spec (fst e) k) as [E|Hne]; simpl.
    + now rewrite String.eqb_refl.
    + destruct (String.eqb_spec (fst e) k); [contradiction | exact IH].
Qed.

Lemma users_get_set_other d k v k' :
  k' <> k -> Utils.users_get (Utils.users_set d k v) k' = Utils.users_get d k'.
Proof.
  intros Hne. unfold Utils.users_get.
  induction d as [|e rest IH]; simpl.
  - destruct (String.eqb_spec k k'); [congruence | reflexivity].
  - destruct (String.eqb_spec (fst e) k) as [E|Hk]; simpl.
    + destruct (String.eqb_spec k k'); [congruence|].
      destruct (String.eqb_spec (fst e) k'); [congruence | reflexivity].
    + destruct (String.eqb (fst e) k'); [reflexivity | exact IH].
Qed.

Lemma users_has_set d k v : Utils.users_has (Utils.users_set d k v) k = true.
Proof.
  unfold Utils.users_has. induction d as [|e rest IH]; simpl.
  - now rewrite String.eqb_refl.
  - destruct (String.eqb_spec (fst e) k) as [E|Hne]; simpl.
    + now rewrite String.eqb_refl.
    + destruct (String.eqb_spec (fst e) k); [contradiction|]. exact IH.
Qed.

Lemma users_set_not_empty d k v : Utils.users_set d k v <> [].
Proof. destruct d as [|e rest]; simpl; [|destruct (String.eqb _ _)]; discriminate. Qed.

(** Who is allowed in terms of the two lists of the file. *)
Lemma is_user_allowed_iff f u b :
  Utils.is_user_allowed f u b = true <->
  exists d, f = Some d
            /\ (In u (Utils.users_get d b) \/ In u (Utils.users_get d "super_admin")).
Proof.
  unfold Utils.is_user_allowed, Utils.get_allowed_user_ids.
  destruct f as [[|e rest]|].
  - simpl. split; [discriminate|]. intros (d & [= <-] & [[]|[]]).
  - rewrite id_in_In, nodup_In, in_app_iff. split.
    + intros H. eexists. split; [reflexivity | exact H].
    + intros (d & [= <-] & H). exact H.
  - simpl. split; [discriminate|]. intros (d & Hd & _). discriminate.
Qed.

Lemma is_super_admin_iff f u :
  Bot4.is_super_admin f u = true <->
  exists d, f = Some d /\ In u (Utils.users_get d "super_admin").
Proof.
  unfold Bot4.is_super_admin. destruct f as [[|e rest]|].
  - split; [discriminate|]. intros (d & [= <-] & []).
  - rewrite id_in_In. split.
    + intros H. eexists. split; [reflexivity | exact H].
    + intros (d & [= <-] & H). exact H.
  - split; [discriminate|]. intros (d & Hd & _). discriminate.
Qed.

Lemma remove_first_NoDup x l :
  NoDup l -> NoDup (Bot4.remove_first x l) /\ ~ In x (Bot4.remove_first x l)
             /\ forall y, y <> x -> (In y (Bot4.remove_first x l) <-> In y l).
Proof.
  induction l as [|y ys IH]; simpl; intros Hnd.
  - split; [constructor|]. split; [tauto|]. intros; tauto.
  - inversion Hnd as [|? ? Hnotin Hnd']; subst.
    destruct (Z.eqb_spec y x) as [->|Hne].
    + split; [exact Hnd'|]. split; [exact Hnotin|].
      intros z Hz. simpl. split; [auto|]. intros [E|H]; [congruence | exact H].
    + destruct (IH Hnd') as (H1 & H2 & H3).
      split; [|split].
      * constructor; [|exact H1]. intros Hin.
        apply Hnotin. destruct (Z.eq_dec y x); [contradiction|].
        now apply (H3 y).
      * simpl. intros [E|H]; [contradiction | now apply H2].
      * intros z Hz. simpl. rewrite (H3 z Hz). tauto.
Qed.

Lemma update_user_permissions_result bot u action c f st :
  fst (Bot4.update_user_permissions bot u action c f st)
  = (snd (fst (Bot4.update_user_permissions_try bot u action f)),
     snd (Bot4.update_user_permissions_try bot u action f)).
Proof. unfold Bot4.update_user_permissions. now rewrite !bind_eq. Qed.

(** X13. Adding a user to a bot that is listed or known: the user is
    allowed on that bot afterwards, the reply says added or already there,
    the lists of the other bots are unchanged, and adding the same user
    again changes nothing and says already there. *)
Theorem add_user_grants_access
  (bot : string) (u : Z) (c : Caller) (d : Utils.UsersData) (st : State) :
  Utils.users_has d bot = true \/ In bot Bot4.known_bot_ids ->
  let first := fst (Bot4.update_user_permissions bot u "add" c (Some d) st) in
  Utils.is_user_allowed (snd first) u bot = true
  /\ (fst first = Bot4.user_added \/ fst first = Bot4.user_already_there)
  /\ (forall b, b <> bot -> forall d',
        snd first = Some d' -> Utils.users_get d' b = Utils.users_get d b)
  /\ forall c2 st2,
       fst (Bot4.update_user_permissions bot u "add" c2 (snd first) st2)
       = (Bot4.user_already_there, snd first).
Proof.
  intros Hknown first.
  assert (Hk : negb (Utils.users_has d bot)
               && negb (existsb (String.eqb bot) Bot4.known_bot_ids) = false).
  { destruct Hknown as [H|H].
    - now rewrite H.
    - assert (E : existsb (String.eqb bot) Bot4.known_bot_ids = true)
        by (apply existsb_exists; exists bot; split;
            [exact H | apply String.eqb_refl]).
      rewrite E. simpl. apply andb_false_r. }
  assert (Hfirst : first
    = if negb (Utils.id_in u (Utils.users_get d bot))
      then (Bot4.user_added,
            Some (Utils.users_set d bot (Utils.users_get d bot ++ [u])))
      else (Bot4.user_already_there, Some d)).
  { subst first. rewrite update_user_permissions_result.
    unfold Bot4.update_user_permissions_try. rewrite Hk.
    rewrite String.eqb_refl.
    destruct (negb (Utils.id_in u (Utils.users_get d bot))); reflexivity. }
  destruct (Utils.id_in u (Utils.users_get d bot)) eqn:Hin; simpl in Hfirst;
    rewrite Hfirst; cbn [fst snd].
  - (* already there *)
    split.
    { apply is_user_allowed_iff. exists d. split; [reflexivity|].
      left. now apply id_in_In. }
    split; [now right|]. split; [intros b _ d' [= <-]; reflexivity|].
    intros c2 st2. rewrite update_user_permissions_result.
    unfold Bot4.update_user_permissions_try.
    rewrite Hk, String.eqb_refl, Hin. reflexivity.
  - (* added *)
    split.
    { apply is_user_allowed_iff. eexists. split; [reflexivity|].
      left. rewrite users_get_set_same. apply in_or_app. right. now left. }
    split; [now left|].
    split; [intros b Hb d' [= <-]; now apply users_get_set_other|].
    intros c2 st2. rewrite update_user_permissions_result.
    unfold Bot4.update_user_permissions_try.
    assert (Hhas : Utils.users_has (Utils.users_set d bot
                                      (Utils.users_get d bot ++ [u])) bot = true)
      by apply users_has_set.
    rewrite Hhas. cbn [negb andb]. rewrite String.eqb_refl, users_get_set_same.
    assert (Hnow : Utils.id_in u (Utils.users_get d bot ++ [u]) = true)
      by (apply id_in_In, in_or_app; right; now left).
    now rewrite Hnow.
Qed.

Lemma add_user_grants_access_witness :
  let first :=
    fst (Bot4.update_user_permissions "bot2" 42 "add" clerk
           (Some [("bot1", [7]); ("super_admin", [1])]) warehouse) in
  Utils.is_user_allowed (snd first) 42 "bot2" = true
  /\ (fst first = Bot4.user_added \/ fst first = Bot4.user_already_there).
Proof.
  destruct (add_user_grants_access "bot2" 42 clerk
              [("bot1", [7]); ("super_admin", [1])] warehouse) as (H1 & H2 & _).
  - right. simpl. tauto.
  - split; assumption.
Defined.

Lemma known_or_present d bot :
  Utils.users_has d bot = true \/ In bot Bot4.known_bot_ids ->
  negb (Utils.users_has d bot)
  && negb (existsb (String.eqb bot) Bot4.known_bot_ids) = false.
Proof.
  intros [H|H].
  - now rewrite H.
  - assert (E : existsb (String.eqb bot) Bot4.known_bot_ids = true)
      by (apply existsb_exists; exists bot; split;
          [exact H | apply String.eqb_refl]).
    rewrite E. apply andb_false_r.
Qed.

(** X14. Removing a user from a listed or known bot other than
    super_admin whose list has no duplicates: the user is no longer in that list, every other
    member stays, the other bots' lists are unchanged, and the user is
    still allowed on the bot exactly when they are a super admin. *)
Theorem remove_user_revokes_access
  (bot : string) (u : Z) (c : Caller) (d : Utils.UsersData) (st : State) :
  Utils.users_has d bot = true \/ In bot Bot4.known_bot_ids ->
  NoDup (Utils.users_get d bot) ->
  bot <> "super_admin" ->
  let after := snd (fst (Bot4.update_user_permissions bot u "remove" c (Some d) st)) in
  (exists d', after = Some d'
              /\ ~ In u (Utils.users_get d' bot)
              /\ (forall y, y <> u ->
                    (In y (Utils.users_get d' bot) <-> In y (Utils.users_get d bot)))
              /\ (forall b, b <> bot -> Utils.users_get d' b = Utils.users_get d b))
  /\ Utils.is_user_allowed after u bot = Bot4.is_super_admin (Some d) u.
Proof.
  intros Hknown Hnd Hbot after.
  assert (Hafter : after
    = if Utils.id_in u (Utils.users_get d bot)
      then Some (Utils.users_set d bot
                   (Bot4.remove_first u (Utils.users_get d bot)))
      else Some d).
  { subst after. rewrite update_user_permissions_result.
    unfold Bot4.update_user_permissions_try.
    rewrite (known_or_present _ _ Hknown).
    change (String.eqb "remove" "add") with false.
    rewrite String.eqb_refl.
    destruct (Utils.id_in u (Utils.users_get d bot)); reflexivity. }
  destruct (remove_first_NoDup u _ Hnd) as (_ & Hgone & Hothers).
  assert (Hparts : exists d', after = Some d'
              /\ ~ In u (Utils.users_get d' bot)
              /\ (forall y, y <> u ->
                    (In y (Utils.users_get d' bot) <-> In y (Utils.users_get d bot)))
              /\ (forall b, b <> bot -> Utils.users_get d' b = Utils.users_get d b)).
  { rewrite Hafter.
    destruct (Utils.id_in u (Utils.users_get d bot)) eqn:Hin.
    - eexists. split; [reflexivity|]. rewrite users_get_set_same.
      split; [exact Hgone|]. split; [exact Hothers|].
      intros b Hb. now apply users_get_set_other.
    - exists d. split; [reflexivity|].
      split; [intros H; apply id_in_In in H; congruence|].
      split; [tauto | reflexivity]. }
  split; [exact Hparts|].
  destruct Hparts as (d' & Hd' & Hnot & _ & Hframe).
  rewrite Hd'. apply eq_true_iff_eq.
  rewrite is_user_allowed_iff, is_super_admin_iff. split.
  - intros (x & [= <-] & [H|H]); [contradiction|].
    exists d. split; [reflexivity|].
    now rewrite <- (Hframe "super_admin") by congruence.
  - intros (x & [= <-] & H). exists d'. split; [reflexivity|]. right.
    now rewrite (Hframe "super_admin") by congruence.
Qed.

Lemma remove_user_revokes_access_witness :
  let after :=
    snd (fst (Bot4.update_user_permissions "bot2" 42 "remove" clerk
                (Some [("bot2", [7; 42]); ("super_admin", [1])]) warehouse)) in
  Utils.is_user_allowed after 42 "bot2"
  = Bot4.is_super_admin (Some [("bot2", [7; 42]); ("super_admin", [1])]) 42.
Proof.
  apply (remove_user_revokes_access "bot2" 42 clerk
           [("bot2", [7; 42]); ("super_admin", [1])] warehouse).
  - left. reflexivity.
  - simpl. repeat constructor; simpl; intuition discriminate.
  - discriminate.
Defined.

(** X15. Permission lists stay free of duplicates under
    [update_user_permissions], whatever the bot, the action and the
    outcome. *)
Theorem permission_lists_stay_duplicate_free
  (bot action : string) (u : Z) (c : Caller) (d d' : Utils.UsersData)
  (st : State) :
  (forall k, NoDup (Utils.users_get d k)) ->
  snd (fst (Bot4.update_user_permissions bot u action c (Some d) st)) = Some d' ->
  forall k, NoDup (Utils.users_get d' k).
Proof.
  intros Hall. rewrite update_user_permissions_result.
  unfold Bot4.update_user_permissions_try.
  destruct (negb (Utils.users_has d bot) && _); [intros [= <-]; exact Hall|].
  assert (Hset : forall v, NoDup v -> forall k,
            NoDup (Utils.users_get (Utils.users_set d bot v) k)).
  { intros v Hv k. destruct (String.eqb_spec k bot) as [->|Hne].
    - now rewrite users_get_set_same.
    - rewrite users_get_set_other by exact Hne. apply Hall. }
  destruct (String.eqb action "add").
  - destruct (Utils.id_in u (Utils.users_get d bot)) eqn:Hin; simpl.
    + intros [= <-]. exact Hall.
    + intros [= <-]. apply Hset.
      apply NoDup_app; [apply Hall | repeat constructor; simpl; tauto |].
      intros x Hx [<-|[]]. apply id_in_In in Hx. congruence.
  - destruct (String.eqb action "remove"); [|intros [= <-]; exact Hall].
    destruct (Utils.id_in u (Utils.users_get d bot)); intros [= <-];
      [|exact Hall].
    apply Hset. apply remove_first_NoDup. apply Hall.
Qed.

Lemma permission_lists_stay_duplicate_free_witness :
  NoDup (Utils.users_get
           (Utils.users_set [("bot1", [7]); ("super_admin", [1])] "bot1" [7; 42])
           "bot1").
Proof.
  refine (permission_lists_stay_duplicate_free "bot1" "add" 42 clerk
            [("bot1", [7]); ("super_admin", [1])] _ warehouse _ _ "bot1").
  - intros k. unfold Utils.users_get. cbn [find fst].
    destruct (String.eqb "bot1" k); cbn [snd];
      [repeat constructor; simpl; tauto|].
    destruct (String.eqb "super_admin" k); cbn [snd];
      repeat constructor; simpl; tauto.
  - reflexivity.
Defined.

(** X16. A super admin is allowed on every bot, listed or not. *)
Theorem super_admin_is_allowed_everywhere
  (users_file : option Utils.UsersData) (u : Z) (bot : string) :
  Bot4.is_super_admin users_file u = true ->
  Utils.is_user_allowed users_file u bot = true.
Proof.
  rewrite is_super_admin_iff, is_user_allowed_iff.
  intros (d & Hd & H). exists d. auto.
Qed.

Lemma super_admin_is_allowed_everywhere_witness :
  Utils.is_user_allowed (Some [("bot1", [7]); ("super_admin", [1])]) 1 "bot3" = true.
Proof.
  apply (super_admin_is_allowed_everywhere
           (Some [("bot1", [7]); ("super_admin", [1])]) 1 "bot3").
  reflexivity.
Defined.

(** ** The transaction log under the commands *)

Lemma deduct_loop_log c s stock rem details st :
  transactions_log (snd (Bot2.deduct_loop c s stock rem details st))
  = transactions_log st.
Proof. now destruct (deduct_loop_frame c s stock rem details st) as (_ & H & _). Qed.

Lemma outbound_item_log py_int c sku q reason st :
  transactions_log (snd (Bot2.outbound_item py_int c sku q reason st))
  = transactions_log st.
Proof.
  unfold Bot2.outbound_item.
  destruct (py_int q) as [qty|]; [|reflexivity].
  destruct (qty <=? 0); [reflexivity|].
  rewrite bind_eq. unfold check_stock_query. cbn [fst snd].
  destruct (order_by _ _) as [|r0 rest] eqn:E; [reflexivity|].
  destruct (_ <? qty); [reflexivity|].
  rewrite bind_eq. unfold ret. cbn [fst snd]. apply deduct_loop_log.
Qed.

Lemma outbound_loop_log py_int c items b st :
  transactions_log (snd (Bot2.outbound_loop py_int c items b st))
  = transactions_log st.
Proof.
  revert b st. induction items as [|[sku [q reason]] rest IH]; intros b st; simpl;
    [reflexivity|].
  rewrite bind_eq, IH. apply outbound_item_log.
Qed.

Lemma receive_item_log py_int strptime_date c sku q l date loc st :
  transactions_log (snd (Bot1.receive_item py_int strptime_date c sku q l date loc st))
  = transactions_log st.
Proof.
  unfold Bot1.receive_item.
  destruct (py_int q) as [qty|]; [|reflexivity].
  destruct (qty <=? 0); [reflexivity|].
  destruct (strptime_date date) as [d|]; [|reflexivity].
  rewrite bind_eq. unfold check_query. cbn [fst snd].
  destruct (option_map _ _); rewrite ?bind_eq; reflexivity.
Qed.

Lemma receive_loop_log py_int strptime_date c items b st :
  transactions_log (snd (Bot1.receive_loop py_int strptime_date c items b st))
  = transactions_log st.
Proof.
  revert b st.
  induction items as [|[sku [q [l [date loc]]]] rest IH]; intros b st; simpl;
    [reflexivity|].
  rewrite bind_eq, IH. apply receive_item_log.
Qed.

Lemma adjust_in_item_log py_int strptime_date c sku q l date loc st :
  transactions_log (snd (Bot1.adjust_in_item py_int strptime_date c sku q l date loc st))
  = transactions_log st.
Proof.
  unfold Bot1.adjust_in_item.
  destruct (py_int q) as [adj|]; [|reflexivity].
  destruct (strptime_date date) as [d|]; [|reflexivity].
  rewrite bind_eq. unfold check_query. cbn [fst snd].
  destruct (option_map _ _) as [cur|]; [|reflexivity].
  destruct (cur + adj <? 0); rewrite ?bind_eq; reflexivity.
Qed.

Lemma adjust_in_loop_log py_int strptime_date c items b st :
  transactions_log (snd (Bot1.adjust_in_loop py_int strptime_date c items b st))
  = transactions_log st.
Proof.
  revert b st.
  induction items as [|[[sku [q [l [date loc]]]] reason] rest IH]; intros b st;
    simpl; [reflexivity|].
  rewrite bind_eq, IH. apply adjust_in_item_log.
Qed.

Lemma cancel_out_try_log py_int s q reason c today st :
  transactions_log (snd (Bot2.cancel_out_try py_int s q reason c today st))
  = transactions_log st.
Proof.
  unfold Bot2.cancel_out_try.
  destruct (py_int q) as [qty|]; [|reflexivity].
  destruct (qty <=? 0); [reflexivity|].
  rewrite !bind_eq. unfold check_sku_query, check_query. cbn [fst snd].
  destruct (option_map Inventory.quantity _); rewrite ?bind_eq; reflexivity.
Qed.

Lemma reserve_item_try_log py_int s q c new_id st :
  transactions_log (snd (Bot2.reserve_item_try py_int s q c new_id st))
  = transactions_log st.
Proof.
  unfold Bot2.reserve_item_try.
  destruct (py_int q) as [qty|]; [|reflexivity].
  destruct (qty <=? 0); [reflexivity|].
  rewrite !bind_eq. unfold check_stock_query, ret. cbn [fst snd].
  unfold insert_reserve_query. cbn [fst snd transactions_log].
  apply deduct_loop_log.
Qed.

Lemma reserve_pick_try_log py_int s q loc l rid c st :
  transactions_log (snd (Bot2.reserve_pick_try py_int s q loc l rid c st))
  = transactions_log st.
Proof.
  unfold Bot2.reserve_pick_try.
  destruct (py_int q) as [qty|]; [|reflexivity].
  destruct (qty <=? 0); [reflexivity|].
  rewrite bind_eq. unfold check_reserve_query. cbn [fst snd].
  destruct (option_map _ _) as [[reserved_qty status]|]; [|reflexivity].
  destruct (reserved_qty <? qty); rewrite ?bind_eq; reflexivity.
Qed.

Lemma reserve_return_try_log py_int s q loc l rid reason c st :
  transactions_log (snd (Bot2.reserve_return_try py_int s q loc l rid reason c st))
  = transactions_log st.
Proof.
  unfold Bot2.reserve_return_try.
  destruct (py_int q) as [qty|]; [|reflexivity].
  destruct (qty <=? 0); [reflexivity|].
  rewrite bind_eq. unfold check_reserve_query. cbn [fst snd].
  destruct (option_map _ _); rewrite ?bind_eq; reflexivity.
Qed.

Lemma reserve_cancel_try_log rid reason c st :
  transactions_log (snd (Bot2.reserve_cancel_try rid reason c st))
  = transactions_log st.
Proof.
  unfold Bot2.reserve_cancel_try. rewrite bind_eq.
  unfold get_reserve_details_query. cbn [fst snd].
  destruct (option_map _ _) as [[[[s qty] l] loc]|]; rewrite ?bind_eq; reflexivity.
Qed.

(** A body between the two log writes, the body leaving the log alone. *)
Lemma logged_appends_two {A} (body : DBM A) st (e1 : LogEntry)
  (status : A -> string) (id : string) :
  (forall st0, transactions_log (snd (body st0)) = transactions_log st0) ->
  let st1 := mkState (inventory st) (reservations st) (transactions_log st ++ [e1]) in
  transactions_log (snd (body st1))
    ++ [log_status_update id (status (fst (body st1)))]
  = transactions_log st ++ [e1; log_status_update id (status (fst (body st1)))].
Proof.
  intros Hbody st1. rewrite Hbody. subst st1. simpl.
  now rewrite <- app_assoc.
Qed.

(** X17. Every command appends exactly two lines to the transaction
    log and changes none before them: an opening line with the caller's
    id stamp and the status PROCESSING, then a status update with the
    same id stamp that says SUCCESS or FAILED. *)
Theorem every_command_logs_twice
  (py_int strptime_date : string -> option Z) (cmd : Command) (c : Caller)
  (st : State) :
  exists command_type final,
    transactions_log (apply_command py_int strptime_date cmd c st)
    = transactions_log st
      ++ [log_entry (txn_id c) command_type "PROCESSING";
          log_status_update (txn_id c) final]
    /\ (final = "SUCCESS" \/ final = "FAILED").
Proof.
  assert (Hb : forall b : bool,
            (if b then "SUCCESS" else "FAILED") = "SUCCESS"
            \/ (if b then "SUCCESS" else "FAILED") = "FAILED")
    by (intros []; auto).
  assert (Hf : forall D (b : Batch D),
            final_status b = "SUCCESS" \/ final_status b = "FAILED").
  { intros D b. unfold final_status.
    destruct (overall_success b), (error_message_summary b); auto. }
  destruct cmd; simpl.
  - unfold Bot1.process_inbound_item. rewrite !bind_eq. simpl.
    do 2 eexists. split; [|apply Hf].
    apply (logged_appends_two (Bot1.receive_loop py_int strptime_date c _ _)
             st _ final_status).
    intros st0. apply receive_loop_log.
  - unfold Bot1.process_return_item. rewrite !bind_eq. simpl.
    do 2 eexists. split; [|apply Hf].
    apply (logged_appends_two (Bot1.receive_loop py_int strptime_date c _ _)
             st _ final_status).
    intros st0. apply receive_loop_log.
  - unfold Bot1.process_adjust_in_item. rewrite !bind_eq. simpl.
    do 2 eexists. split; [|apply Hf].
    apply (logged_appends_two (Bot1.adjust_in_loop py_int strptime_date c _ _)
             st _ final_status).
    intros st0. apply adjust_in_loop_log.
  - unfold Bot2.process_outbound_items. rewrite !bind_eq. simpl.
    do 2 eexists. split; [|apply Hf].
    apply (logged_appends_two (Bot2.outbound_loop py_int c _ _) st _ final_status).
    intros st0. apply outbound_loop_log.
  - unfold Bot2.process_cancel_out_item. rewrite !bind_eq. simpl.
    do 2 eexists. split; [|apply Hb].
    apply (logged_appends_two (Bot2.cancel_out_try py_int sku quantity reason c today)
             st _ (fun t => if fst t then "SUCCESS" else "FAILED")).
    intros st0. apply cancel_out_try_log.
  - unfold Bot2.process_reserve_item. rewrite !bind_eq. simpl.
    do 2 eexists. split; [|apply Hb].
    apply (logged_appends_two (Bot2.reserve_item_try py_int sku quantity c new_id)
             st _ (fun t => if fst (fst t) then "SUCCESS" else "FAILED")).
    intros st0. apply reserve_item_try_log.
  - unfold Bot2.process_reserve_pick. rewrite !bind_eq. simpl.
    do 2 eexists. split; [|apply Hb].
    apply (logged_appends_two
             (Bot2.reserve_pick_try py_int sku quantity location lot reserve_id c)
             st _ (fun t => if fst t then "SUCCESS" else "FAILED")).
    intros st0. apply reserve_pick_try_log.
  - unfold Bot2.process_reserve_return. rewrite !bind_eq. simpl.
    do 2 eexists. split; [|apply Hb].
    apply (logged_appends_two
             (Bot2.reserve_return_try py_int sku quantity location lot
                reserve_id reason c)
             st _ (fun t => if fst t then "SUCCESS" else "FAILED")).
    intros st0. apply reserve_return_try_log.
  - unfold Bot2.process_reserve_cancel. rewrite !bind_eq. simpl.
    do 2 eexists. split; [|apply Hb].
    apply (logged_appends_two (Bot2.reserve_cancel_try reserve_id reason c)
             st _ (fun t => if fst t then "SUCCESS" else "FAILED")).
    intros st0. apply reserve_cancel_try_log.
  - unfold Bot2.process_reserve_ck. rewrite !bind_eq. simpl.
    exists "reserve_ck", "SUCCESS". split; [|now left].
    unfold reserve_ck_query. cbn [fst snd].
    destruct (order_by _ _); simpl; now rewrite <- app_assoc.
Qed.

(** ** Receiving in batches *)

Lemma find_snoc {A} (p : A -> bool) (l : list A) (x : A) :
  find p (l ++ [x])
  = match find p l with
    | Some y => Some y
    | None => if p x then Some x else None
    end.
Proof.
  induction l as [|a l IH]; simpl; [reflexivity|].
  destruct (p a); [reflexivity | exact IH].
Qed.

Lemma receive_item_ledger py_int strptime_date c sku q lot date location st
  s l loc :
  ledger_quantity
    (inventory (snd (Bot1.receive_item py_int strptime_date c sku q lot date
                       location st))) s l loc
  = after_receiving (ledger_quantity (inventory st) s l loc)
      (received_for py_int strptime_date s l loc
         [(sku, (q, (lot, (date, location))))]).
Proof.
  cbn [received_for].
  destruct (py_int q) as [qty|] eqn:Hq;
    [|unfold Bot1.receive_item; rewrite Hq; reflexivity].
  destruct (Z.ltb_spec 0 qty) as [Hpos|Hneg].
  2:{ unfold Bot1.receive_item. rewrite Hq.
      destruct (Z.leb_spec qty 0); [|lia].
      cbn [andb]. destruct (strptime_date date); reflexivity. }
  destruct (strptime_date date) as [d|] eqn:Hd.
  2:{ unfold Bot1.receive_item. rewrite Hq, Hd.
      destruct (Z.leb_spec qty 0); [lia|]. reflexivity. }
  rewrite (receive_item_eq py_int strptime_date c sku q lot date location st
             qty d Hq Hpos Hd).
  cbn [andb].
  destruct (ledger_quantity (inventory st) sku lot location) as [Q|] eqn:HQ;
    cbn [snd update_query insert_query inventory].
  - rewrite ledger_quantity_update_where.
    destruct (String.eqb sku s && String.eqb lot l && String.eqb location loc)
      eqn:Hk.
    + apply andb_true_iff in Hk. destruct Hk as [Hk Hloc].
      apply andb_true_iff in Hk. destruct Hk as [Hs Hl].
      apply String.eqb_eq in Hs, Hl, Hloc. subst s l loc.
      rewrite HQ. unfold ledger_quantity in HQ.
      destruct (find (inv_key_is sku lot location) (inventory st)) as [x|] eqn:Hx;
        [|discriminate].
      destruct (find_key_In _ _ _ _ _ Hx) as [_ Hkey].
      cbn [option_map after_receiving sum_Z fold_right].
      rewrite (proj2 (inv_key_is_spec _ _ _ x) Hkey).
      injection HQ as <-. f_equal. lia.
    + cbn [after_receiving]. unfold ledger_quantity.
      destruct (find (inv_key_is s l loc) (inventory st)) as [x|] eqn:Hx;
        [|reflexivity].
      destruct (find_key_In _ _ _ _ _ Hx) as [_ Hkey].
      cbn [option_map].
      destruct (inv_key_is sku lot location x) eqn:Hx2; [|reflexivity].
      apply inv_key_is_spec in Hx2. rewrite Hkey in Hx2.
      injection Hx2 as -> -> ->.
      now rewrite !String.eqb_refl in Hk.
  - unfold ledger_quantity. rewrite find_snoc.
    change (inv_key_is s l loc
              (Inventory.mk sku lot location qty d (user_id c) None None (txn_id c)))
      with (String.eqb sku s && String.eqb lot l && String.eqb location loc).
    destruct (String.eqb sku s && String.eqb lot l && String.eqb location loc)
      eqn:Hk.
    + apply andb_true_iff in Hk. destruct Hk as [Hk Hloc].
      apply andb_true_iff in Hk. destruct Hk as [Hs Hl].
      apply String.eqb_eq in Hs, Hl, Hloc. subst s l loc.
      unfold ledger_quantity in HQ.
      destruct (find (inv_key_is sku lot location) (inventory st)); [discriminate|].
      cbn [option_map after_receiving sum_Z fold_right Inventory.quantity].
      f_equal. lia.
    + cbn [after_receiving].
      destruct (find (inv_key_is s l loc) (inventory st)); reflexivity.
Qed.

Lemma after_receiving_app old a b :
  (List.length a <= 1)%nat ->
  after_receiving (after_receiving old a) b = after_receiving old (a ++ b).
Proof.
  intros Ha. destruct a as [|x [|y a]]; [reflexivity| |simpl in Ha; lia].
  destruct b as [|z b]; [reflexivity|].
  unfold after_receiving. cbn [app sum_Z fold_right]. f_equal.
  destruct old; lia.
Qed.

Lemma received_for_cons py_int strptime_date s l loc item rest :
  received_for py_int strptime_date s l loc (item :: rest)
  = received_for py_int strptime_date s l loc [item]
    ++ received_for py_int strptime_date s l loc rest
  /\ (List.length (received_for py_int strptime_date s l loc [item]) <= 1)%nat.
Proof.
  destruct item as [sku [q [lot [date location]]]]. cbn [received_for].
  destruct (py_int q) as [qty|]; [|split; [reflexivity | simpl; lia]].
  destruct (strptime_date date); [|split; [reflexivity | simpl; lia]].
  destruct (_ && _); split; try reflexivity; simpl; lia.
Qed.

Lemma receive_loop_ledger py_int strptime_date c items b st s l loc :
  ledger_quantity
    (inventory (snd (Bot1.receive_loop py_int strptime_date c items b st)))
    s l loc
  = after_receiving (ledger_quantity (inventory st) s l loc)
      (received_for py_int strptime_date s l loc items).
Proof.
  revert b st.
  induction items as [|item rest IH]; intros b st; [reflexivity|].
  destruct (received_for_cons py_int strptime_date s l loc item rest)
    as [-> Hlen].
  rewrite <- after_receiving_app by exact Hlen.
  destruct item as [sku [q [lot [date location]]]].
  cbn [Bot1.receive_loop]. rewrite bind_eq, IH.
  now rewrite receive_item_ledger.
Qed.

(** X18. A batch of /in or /return items adds up per record: after
    the command, any key holds its former quantity (none counting as
    zero) plus the sum of the quantities of the valid items that name it,
    and a key that no valid item names is as before; items with an
    unreadable or non-positive quantity or a malformed date contribute
    nothing. *)
Theorem receive_batch_adds_up
  (py_int strptime_date : string -> option Z)
  (skus quantities lots dates locations : list string) (c : Caller)
  (st : State) (s l loc : string) :
  let items := Bot1.zip5 skus quantities lots dates locations in
  let expected :=
    after_receiving (ledger_quantity (inventory st) s l loc)
      (received_for py_int strptime_date s l loc items) in
  ledger_quantity
    (inventory (snd (Bot1.process_inbound_item py_int strptime_date
                       skus quantities lots dates locations c st))) s l loc
  = expected
  /\ ledger_quantity
       (inventory (snd (Bot1.process_return_item py_int strptime_date
                          skus quantities lots dates locations c st))) s l loc
     = expected.
Proof.
  intros items expected. subst expected items.
  unfold Bot1.process_inbound_item, Bot1.process_return_item.
  rewrite !bind_eq. cbn [snd fst ret update_transaction_log_file_status inventory].
  rewrite !receive_loop_ledger. split; reflexivity.
Qed.

(** ** Adjusting and adjusting back *)

Lemma adjust_in_item_ok py_int strptime_date c s q l date loc st D d Q :
  py_int q = Some D -> strptime_date date = Some d ->
  ledger_quantity (inventory st) s l loc = Some Q ->
  0 <= Q + D ->
  Bot1.adjust_in_item py_int strptime_date c s q l date loc st
  = ((done (Q + D), FallThrough), snd (update_query (Q + D) c s l loc st)).
Proof.
  intros Hq Hd HQ Hge. unfold Bot1.adjust_in_item. rewrite Hq, Hd.
  rewrite bind_eq. unfold check_query. cbn [fst snd].
  fold (ledger_quantity (inventory st) s l loc). rewrite HQ.
  destruct (Z.ltb_spec (Q + D) 0); [lia|]. reflexivity.
Qed.

Lemma adjust_in_single py_int strptime_date c s q l date loc reason st D d Q :
  py_int q = Some D -> strptime_date date = Some d ->
  ledger_quantity (inventory st) s l loc = Some Q ->
  0 <= Q + D ->
  let run := Bot1.process_adjust_in_item py_int strptime_date
               [s] [q] [l] [date] [loc] [reason] c st in
  fst run = [(s, done (Q + D))]
  /\ inventory (snd run)
     = update_inventory_where (inv_key_is s l loc) (fun _ => Q + D) c (inventory st)
  /\ reservations (snd run) = reservations st.
Proof.
  intros Hq Hd HQ Hge run. subst run.
  unfold Bot1.process_adjust_in_item. rewrite !bind_eq.
  cbn [Bot1.zip5 combine Bot1.adjust_in_loop]. rewrite !bind_eq.
  rewrite (adjust_in_item_ok py_int strptime_date c s q l date loc _ D d Q Hq Hd)
    by (assumption || exact HQ).
  repeat split.
Qed.

(** X19. An /adjust_in by D that is accepted, followed by an
    /adjust_in by -D on the same record, reports Q + D and then Q and
    restores the quantity of every record; keys and inbound dates are
    unchanged throughout and the reservations are not touched. *)
Theorem adjust_then_opposite_restores
  (py_int strptime_date : string -> option Z)
  (s q q' l date date' loc reason reason' : string) (D d d' Q : Z)
  (c c2 : Caller) (st : State) :
  py_int q = Some D -> py_int q' = Some (- D) ->
  strptime_date date = Some d -> strptime_date date' = Some d' ->
  keys_unique st ->
  ledger_quantity (inventory st) s l loc = Some Q ->
  0 <= Q -> 0 <= Q + D ->
  let first := Bot1.process_adjust_in_item py_int strptime_date
                 [s] [q] [l] [date] [loc] [reason] c st in
  let second := Bot1.process_adjust_in_item py_int strptime_date
                  [s] [q'] [l] [date'] [loc] [reason'] c2 (snd first) in
  fst first = [(s, done (Q + D))]
  /\ ledger_quantity (inventory (snd first)) s l loc = Some (Q + D)
  /\ fst second = [(s, done Q)]
  /\ map Inventory.quantity (inventory (snd second))
     = map Inventory.quantity (inventory st)
  /\ map inv_key (inventory (snd second)) = map inv_key (inventory st)
  /\ map Inventory.inbound_date (inventory (snd second))
     = map Inventory.inbound_date (inventory st)
  /\ reservations (snd second) = reservations st.
Proof.
  intros Hq Hq' Hd Hd' Hk HQ HQ0 Hge first second.
  destruct (adjust_in_single py_int strptime_date c s q l date loc reason st
              D d Q Hq Hd HQ Hge) as (Hr1 & Hi1 & Hres1).
  fold first in Hr1, Hi1, Hres1.
  assert (HQ1 : ledger_quantity (inventory (snd first)) s l loc = Some (Q + D)).
  { rewrite Hi1. now apply ledger_quantity_set_same with (Q := Q). }
  destruct (adjust_in_single py_int strptime_date c2 s q' l date' loc reason'
              (snd first) (- D) d' (Q + D) Hq' Hd' HQ1 ltac:(lia))
    as (Hr2 & Hi2 & Hres2).
  fold second in Hr2, Hi2, Hres2.
  replace (Q + D + - D) with Q in Hr2, Hi2 by lia.
  repeat split; try assumption.
  - rewrite Hi2, Hi1. unfold update_inventory_where. rewrite !map_map.
    apply map_ext_in. intros r Hr.
    destruct (inv_key_is s l loc r) eqn:Hkey.
    + change (inv_key_is s l loc (with_quantity (Q + D) c r))
        with (inv_key_is s l loc r). rewrite Hkey. cbn [with_quantity Inventory.quantity].
      pose proof (find_key_NoDup (inventory st) r Hk Hr) as Hf.
      apply inv_key_is_spec in Hkey. injection Hkey as Hs Hl Hloc.
      rewrite Hs, Hl, Hloc in Hf. unfold ledger_quantity in HQ.
      rewrite Hf in HQ. now injection HQ.
    + now rewrite Hkey.
  - now rewrite Hi2, Hi1, !update_where_keys.
  - now rewrite Hi2, Hi1, !update_where_dates.
  - congruence.
Qed.

Lemma adjust_then_opposite_restores_witness :
  let first := Bot1.process_adjust_in_item decimal_int iso_date
                 ["X"] ["-3"] ["A"] ["2025-03-01"] ["L1"] ["count"] clerk warehouse in
  let second := Bot1.process_adjust_in_item decimal_int iso_date
                  ["X"] ["3"] ["A"] ["2025-03-02"] ["L1"] ["recount"] clerk2 (snd first) in
  fst first = [("X", done 2)]
  /\ map Inventory.quantity (inventory (snd second))
     = map Inventory.quantity (inventory warehouse).
Proof.
  assert (Hk : keys_unique warehouse)
    by (repeat constructor; simpl; intuition discriminate).
  destruct (adjust_then_opposite_restores decimal_int iso_date
              "X" "-3" "3" "A" "2025-03-01" "2025-03-02" "L1" "count" "recount"
              (-3) 20250301 20250302 5 clerk clerk2 warehouse
              eq_refl eq_refl eq_refl eq_refl Hk eq_refl ltac:(lia) ltac:(lia))
    as (H1 & _ & _ & H4 & _).
  split; assumption.
Defined.

(** ** What the log says of a batch *)

Lemma after_item_status {D} (sku : string) (b : Batch D) (r : Reply D)
  (fl : Flow) :
  final_status (after_item sku b r fl)
  = match r, fl with
    | failed _, FallThrough => "FAILED"
    | _, _ => final_status b
    end.
Proof.
  destruct r as [d|f], fl; reflexivity.
Qed.

Lemma outbound_item_verdict py_int c sku q reason st :
  match fst (Bot2.outbound_item py_int c sku q reason st) with
  | (failed _, FallThrough) => true
  | _ => false
  end = negb (is_integer_text py_int q).
Proof.
  unfold Bot2.outbound_item, is_integer_text.
  destruct (py_int q) as [qty|]; [|reflexivity].
  destruct (qty <=? 0); [reflexivity|].
  rewrite bind_eq. unfold check_stock_query. cbn [fst snd].
  destruct (order_by _ _) as [|r0 rest]; [reflexivity|].
  destruct (_ <? qty); [reflexivity|].
  rewrite bind_eq. reflexivity.
Qed.

Lemma receive_item_verdict py_int strptime_date c sku q l date loc st :
  match fst (Bot1.receive_item py_int strptime_date c sku q l date loc st) with
  | (failed _, FallThrough) => true
  | _ => false
  end = negb (is_integer_text py_int q).
Proof.
  unfold Bot1.receive_item, is_integer_text.
  destruct (py_int q) as [qty|]; [|reflexivity].
  destruct (qty <=? 0); [reflexivity|].
  destruct (strptime_date date); [|reflexivity].
  rewrite bind_eq. unfold check_query. cbn [fst snd].
  destruct (option_map _ _); rewrite ?bind_eq; reflexivity.
Qed.

Lemma outbound_loop_status py_int c items b st :
  final_status (fst (Bot2.outbound_loop py_int c items b st))
  = if forallb (is_integer_text py_int) (map (fun it => fst (snd it)) items)
    then final_status b else "FAILED".
Proof.
  revert b st. induction items as [|[sku [q reason]] rest IH]; intros b st;
    [reflexivity|].
  cbn [Bot2.outbound_loop map forallb fst snd]. rewrite bind_eq, IH.
  rewrite after_item_status.
  pose proof (outbound_item_verdict py_int c sku q reason st) as Hv.
  destruct (fst (Bot2.outbound_item py_int c sku q reason st)) as [[d|f] [|]];
    destruct (is_integer_text py_int q); try discriminate Hv; cbn [andb];
    try reflexivity.
  now destruct (forallb _ _).
Qed.

Lemma receive_loop_status py_int strptime_date c items b st :
  final_status (fst (Bot1.receive_loop py_int strptime_date c items b st))
  = if forallb (is_integer_text py_int) (map (fun it => fst (snd it)) items)
    then final_status b else "FAILED".
Proof.
  revert b st.
  induction items as [|[sku [q [l [date loc]]]] rest IH]; intros b st;
    [reflexivity|].
  cbn [Bot1.receive_loop map forallb fst snd]. rewrite bind_eq, IH.
  rewrite after_item_status.
  pose proof (receive_item_verdict py_int strptime_date c sku q l date loc st) as Hv.
  destruct (fst (Bot1.receive_item py_int strptime_date c sku q l date loc st))
    as [[d|f] [|]];
    destruct (is_integer_text py_int q); try discriminate Hv; cbn [andb];
    try reflexivity.
  now destruct (forallb _ _).
Qed.

Lemma quantities_of_combine {A B} (xs : list A) (qs : list string) (rest : list B) :
  map (fun it => fst (snd it)) (combine xs (combine qs rest))
  = firstn (Nat.min (List.length xs) (List.length rest)) qs.
Proof.
  revert qs rest. induction xs as [|x xs IH]; intros qs rest; [reflexivity|].
  destruct qs as [|q qs]; [now rewrite firstn_nil|].
  destruct rest as [|r rest]; [reflexivity|].
  cbn [combine map fst snd List.length Nat.min firstn]. f_equal. apply IH.
Qed.

(** X20. The status logged for a batch of /out, /in or /return
    depends on the quantities' syntax alone: it is FAILED exactly when
    some quantity is not an integer; items refused for a non-positive
    quantity, a malformed date, missing stock or insufficient stock leave
    the logged status at SUCCESS. *)
Theorem batch_log_status
  (py_int strptime_date : string -> option Z)
  (skus quantities reasons lots dates locations : list string) (c : Caller)
  (st : State) :
  (List.length skus = List.length quantities) ->
  (List.length reasons = List.length quantities) ->
  (List.length lots = List.length quantities) ->
  (List.length dates = List.length quantities) ->
  (List.length locations = List.length quantities) ->
  let verdict := status_by_quantities py_int quantities in
  transactions_log
    (snd (Bot2.process_outbound_items py_int skus quantities reasons c st))
  = transactions_log st
    ++ [log_entry (txn_id c) "out" "PROCESSING";
        log_status_update (txn_id c) verdict]
  /\ transactions_log
       (snd (Bot1.process_inbound_item py_int strptime_date
               skus quantities lots dates locations c st))
     = transactions_log st
       ++ [log_entry (txn_id c) "in" "PROCESSING";
           log_status_update (txn_id c) verdict]
  /\ transactions_log
       (snd (Bot1.process_return_item py_int strptime_date
               skus quantities lots dates locations c st))
     = transactions_log st
       ++ [log_entry (txn_id c) "return" "PROCESSING";
           log_status_update (txn_id c) verdict].
Proof.
  intros Hs Hr Hl Hd Hloc verdict.
  assert (Hout : map (fun it => fst (snd it))
                   (combine skus (combine quantities reasons)) = quantities).
  { rewrite quantities_of_combine, Hs, Hr, Nat.min_id. apply firstn_all. }
  assert (Hin : map (fun it : Bot1.Item5 => fst (snd it))
                  (Bot1.zip5 skus quantities lots dates locations) = quantities).
  { etransitivity;
      [exact (quantities_of_combine skus quantities
                (combine lots (combine dates locations)))|].
    rewrite !length_combine, Hs, Hl, Hd, Hloc, !Nat.min_id. apply firstn_all. }
  repeat split.
  - unfold Bot2.process_outbound_items. rewrite !bind_eq.
    cbn [snd fst ret update_transaction_log_file_status transactions_log].
    rewrite outbound_loop_log, outbound_loop_status, Hout.
    cbn [log_transaction_to_file snd transactions_log].
    now rewrite <- app_assoc.
  - unfold Bot1.process_inbound_item. rewrite !bind_eq.
    cbn [snd fst ret update_transaction_log_file_status transactions_log].
    rewrite receive_loop_log, receive_loop_status.
    match goal with
    | |- context [forallb _ ?m] =>
        replace m with quantities by (symmetry; exact Hin)
    end.
    cbn [log_transaction_to_file snd transactions_log].
    now rewrite <- app_assoc.
  - unfold Bot1.process_return_item. rewrite !bind_eq.
    cbn [snd fst ret update_transaction_log_file_status transactions_log].
    rewrite receive_loop_log, receive_loop_status.
    match goal with
    | |- context [forallb _ ?m] =>
        replace m with quantities by (symmetry; exact Hin)
    end.
    cbn [log_transaction_to_file snd transactions_log].
    now rewrite <- app_assoc.
Qed.

Lemma batch_log_status_witness :
  transactions_log
    (snd (Bot2.process_outbound_items decimal_int ["X"; "Y"] ["100"; "0"]
            ["sold"; "gift"] clerk warehouse))
  = [log_entry "TXN-1" "out" "PROCESSING"; log_status_update "TXN-1" "SUCCESS"].
Proof.
  apply (proj1 (batch_log_status decimal_int iso_date
                  ["X"; "Y"] ["100"; "0"] ["sold"; "gift"]
                  ["A"; "B"] ["2025-03-01"; "2025-03-02"] ["L1"; "L2"]
                  clerk warehouse eq_refl eq_refl eq_refl eq_refl eq_refl)).
Defined.
